(** * The scheduling task manager: a shallow embedding and its properties

    The development follows the Go package [scheduling]: the key layout and
    the [TaskManager] operations ([CreateTask], [GetTaskByID],
    [GetAllTasks], [CreateTaskRun], [GetRunByID], [GetRunsByDate],
    [GetAllTaskRuns]) and [FilterByStatus] are transcribed from the
    source; the storage back end is the interface [StorageProvider]; the
    JSON codecs of the three persisted records are modelled from the
    specification, since their Go source is not part of the files at hand.
    The module [Logging] follows the package [logging]: the logger with
    its request id and values, and the request id and logger kept in a
    context. *)

From Stdlib Require Import ZArith String Ascii List Lia Bool DecimalString DecimalZ.
From stdpp Require Import gmap strings list fin_maps.

Open Scope string_scope.
Open Scope list_scope.
Open Scope Z_scope.

(** ** Go values: results, errors and panics *)

(** A Go call either returns a value with a nil error, returns a non-nil
    error (kept as its message), or panics (a run-time error that unwinds
    the caller). *)
Inductive outcome (A : Type) : Type :=
| Ok (a : A)
| Err (msg : string)
| Panic (msg : string).

Arguments Ok {A} a.
Arguments Err {A} msg.
Arguments Panic {A} msg.

Definition bind {A B : Type} (o : outcome A) (k : A -> outcome B) : outcome B :=
  match o with
  | Ok a => k a
  | Err e => Err e
  | Panic p => Panic p
  end.

Notation "x <- e ;; k" := (bind e (fun x => k))
  (at level 100, e at next level, right associativity).

(** [fmt.Errorf(prefix + "%v", err)]: the error of a callee wrapped in a
    prefix; a panic is not an error value and passes through. *)
Definition wrapErr {A : Type} (prefix : string) (o : outcome A) : outcome A :=
  match o with
  | Err e => Err (prefix +:+ e)
  | other => other
  end.

Definition isOk {A : Type} (o : outcome A) : bool :=
  match o with Ok _ => true | _ => false end.

(** The message of indexing an empty slice at 0. *)
Definition indexOutOfRange : string :=
  "runtime error: index out of range [0] with length 0".

(** The message of calling a method on a nil interface value. *)
Definition nilDereference : string :=
  "runtime error: invalid memory address or nil pointer dereference".

(** [xs[0]] on a Go slice. *)
Definition index0 {A : Type} (xs : list A) : outcome A :=
  match xs with
  | x :: _ => Ok x
  | [] => Panic indexOutOfRange
  end.

(** ** Strings *)

(** [strings.HasPrefix s p]. *)
Fixpoint hasPrefix (p s : string) : bool :=
  match p with
  | EmptyString => true
  | String a p' =>
      match s with
      | String b s' => (a =? b)%char && hasPrefix p' s'
      | EmptyString => false
      end
  end.

(** [strings.Contains s sub]. *)
Fixpoint contains (sub s : string) : bool :=
  hasPrefix sub s ||
  match s with
  | EmptyString => false
  | String _ s' => contains sub s'
  end.

Definition dquote : string := String "034"%char EmptyString.

Fixpoint dropString (n : nat) (s : string) : string :=
  match n, s with
  | O, _ => s
  | S n', String _ s' => dropString n' s'
  | S _, EmptyString => EmptyString
  end.

(** [strings.Split s sep] for a non-empty separator: [s] is cut at every
    occurrence of [sep], found from left to right without overlap.  [skip]
    counts the characters of a separator still to be passed over, [cur] is
    the piece being collected, in reverse. *)
Fixpoint splitFrom (sep : string) (skip : nat) (cur : string) (s : string) : list string :=
  match s with
  | EmptyString => [String.rev cur]
  | String c s' =>
      match skip with
      | S k => splitFrom sep k cur s'
      | O =>
          if hasPrefix sep s
          then String.rev cur :: splitFrom sep (String.length sep - 1)%nat EmptyString s'
          else splitFrom sep O (String c cur) s'
      end
  end.

Definition Split (s sep : string) : list string := splitFrom sep O EmptyString s.

(** ** Integers *)

Definition minInt : Z := - 2 ^ 63.
Definition maxInt : Z := 2 ^ 63 - 1.

(** Addition on Go's 64-bit [int]: the sum wraps around. *)
Definition wrapInt (z : Z) : Z := (z + 2 ^ 63) mod 2 ^ 64 - 2 ^ 63.

(** [%d] of an integer: decimal digits, with a minus sign when negative. *)
Definition fmtD (z : Z) : string := NilZero.string_of_int (Z.to_int z).

(** [strconv.Atoi]: an optional sign, then one or more decimal digits, the
    value within the range of [int].  The error message names the input
    between quotes (the escaping of unprintable characters in that
    quotation is left out). *)
Definition atoiError (s why : string) : string :=
  "strconv.Atoi: parsing " +:+ dquote +:+ s +:+ dquote +:+ ": " +:+ why.

Definition Atoi (s : string) : outcome Z :=
  let '(neg, digits) :=
    match s with
    | String "-"%char r => (true, r)
    | String "+"%char r => (false, r)
    | _ => (false, s)
    end in
  match digits with
  | EmptyString => Err (atoiError s "invalid syntax")
  | _ =>
      match NilEmpty.uint_of_string digits with
      | None => Err (atoiError s "invalid syntax")
      | Some u =>
          let n := if neg then - Z.of_uint u else Z.of_uint u in
          if (minInt <=? n) && (n <=? maxInt) then Ok n
          else Err (atoiError s "value out of range")
      end
  end.

(** [string(i)] for an integer [i]: the UTF-8 encoding of the code point
    [i], and of U+FFFD when [i] is no valid code point. *)
Definition byteOf (z : Z) : ascii := ascii_of_N (Z.to_N z).

Definition utf8 (r : Z) : string :=
  if r <? 128 then String (byteOf r) EmptyString
  else if r <? 2048 then
    String (byteOf (192 + r / 64)) (String (byteOf (128 + r mod 64)) EmptyString)
  else if r <? 65536 then
    String (byteOf (224 + r / 4096))
      (String (byteOf (128 + (r / 64) mod 64))
         (String (byteOf (128 + r mod 64)) EmptyString))
  else
    String (byteOf (240 + r / 262144))
      (String (byteOf (128 + (r / 4096) mod 64))
         (String (byteOf (128 + (r / 64) mod 64))
            (String (byteOf (128 + r mod 64)) EmptyString))).

Definition validRune (r : Z) : bool :=
  (0 <=? r) && (r <=? 1114111) && negb ((55296 <=? r) && (r <=? 57343)).

Definition runeToString (i : Z) : string :=
  if validRune i then utf8 i else utf8 65533.

(** ** Time

    A [time.Time] in UTC, kept as its calendar date and clock reading.  The
    task manager reads the year, the month and the day of an instant,
    compares two instants and stores them; for normalised UTC values the
    order of instants is the lexicographic order of the components. *)

Inductive Month : Type :=
| January | February | March | April | May | June
| July | August | September | October | November | December.

(** [Month.String()], which [%s] prints. *)
Definition monthName (m : Month) : string :=
  match m with
  | January => "January" | February => "February" | March => "March"
  | April => "April" | May => "May" | June => "June"
  | July => "July" | August => "August" | September => "September"
  | October => "October" | November => "November" | December => "December"
  end.

Definition monthNumber (m : Month) : Z :=
  match m with
  | January => 1 | February => 2 | March => 3 | April => 4 | May => 5
  | June => 6 | July => 7 | August => 8 | September => 9 | October => 10
  | November => 11 | December => 12
  end.

Definition monthOfNumber (n : Z) : option Month :=
  match n with
  | 1 => Some January | 2 => Some February | 3 => Some March
  | 4 => Some April | 5 => Some May | 6 => Some June | 7 => Some July
  | 8 => Some August | 9 => Some September | 10 => Some October
  | 11 => Some November | 12 => Some December
  | _ => None
  end.

Definition isLeap (y : Z) : bool :=
  (y mod 4 =? 0) && (negb (y mod 100 =? 0) || (y mod 400 =? 0)).

Definition daysIn (m : Month) (y : Z) : Z :=
  match m with
  | February => if isLeap y then 29 else 28
  | April | June | September | November => 30
  | _ => 31
  end.

Module Time.

Record t : Type := mk {
  Year : Z;
  Month : Month;
  Day : Z;
  Hour : Z;
  Minute : Z;
  Second : Z;
  Nanosecond : Z
}.

(** The zero value [time.Time{}]: January 1, year 1, 00:00:00 UTC. *)
Definition zero : t := mk 1 January 1 0 0 0 0.

Definition components (a : t) : list Z :=
  [Year a; monthNumber (Month a); Day a; Hour a; Minute a; Second a; Nanosecond a].

Fixpoint lexCompare (xs ys : list Z) : comparison :=
  match xs, ys with
  | x :: xs', y :: ys' =>
      match x ?= y with
      | Eq => lexCompare xs' ys'
      | c => c
      end
  | [], [] => Eq
  | [], _ :: _ => Lt
  | _ :: _, [] => Gt
  end.

Definition compare (a b : t) : comparison := lexCompare (components a) (components b).

(** [a.After(b)]: the instant [a] is strictly later than [b]. *)
Definition After (a b : t) : bool :=
  match compare a b with Gt => true | _ => false end.

(** [a] is at or before [b]. *)
Definition leb (a b : t) : bool := negb (After a b).

(** A normalised date and clock reading, with a year RFC 3339 can print. *)
Definition valid (a : t) : bool :=
  (0 <=? Year a) && (Year a <=? 9999) &&
  (1 <=? Day a) && (Day a <=? daysIn (Month a) (Year a)) &&
  (0 <=? Hour a) && (Hour a <? 24) &&
  (0 <=? Minute a) && (Minute a <? 60) &&
  (0 <=? Second a) && (Second a <? 60) &&
  (0 <=? Nanosecond a) && (Nanosecond a <? 1000000000).

End Time.

(** ** The data model *)

(** Modelled from the spec: the declarations of [TaskID] and [TaskRunID]
    are not among the sources; section 3 describes both as positive
    integers, the code prints them with [%d], adds one to them and converts
    [int] to them, so they are integers here. *)
Definition TaskID : Type := Z.
Definition TaskRunID : Type := Z.

Definition TaskType : Type := string.
Definition TargetType : Type := string.
Definition TriggerType : Type := string.

(** Modelled from the spec: the closed set of run statuses (section 3); the
    source uses [Pending] for a new run and the tests [Pending] and [Failed]. *)
Inductive Status : Type := Pending | Running | Failed | Succeeded.

(** The two trigger variants, with the fields the tests give them. *)
Module OneOffTrigger.
Record t : Type := mk {
  TriggerName : string;
  TriggerType : TriggerType
}.
End OneOffTrigger.

Module DummyTrigger.
Record t : Type := mk {
  TriggerName : string;
  TriggerType : TriggerType;
  DummyField : bool
}.
End DummyTrigger.

(** The interface [Trigger]: a value of one of the variants.  A nil
    interface value is [None] of [option Trigger]. *)
Inductive Trigger : Type :=
| OneOff (v : OneOffTrigger.t)
| Dummy (v : DummyTrigger.t).

Definition oneOffTrigger : TriggerType := "OneOffTrigger".
Definition dummyTrigger : TriggerType := "DummyTrigger".

(** Modelled from the spec: [Trigger.Type()] reports the variant's
    [TriggerType] tag (section 3), the field the tests set. *)
Definition Trigger_Type (tr : Trigger) : TriggerType :=
  match tr with
  | OneOff v => OneOffTrigger.TriggerType v
  | Dummy v => DummyTrigger.TriggerType v
  end.

(** Modelled from the spec: the target variants section 3 names, each with
    a name and its [TargetType] tag. *)
Module NameVariant.
Record t : Type := mk {
  Name : string;
  Variant : string;
  TargetType : TargetType
}.
End NameVariant.

Module Provider.
Record t : Type := mk {
  Name : string;
  TargetType : TargetType
}.
End Provider.

Inductive TaskTarget : Type :=
| NameVariantTarget (v : NameVariant.t)
| ProviderTarget (v : Provider.t).

Definition nameVariantTarget : TargetType := "NameVariant".
Definition providerTarget : TargetType := "Provider".

Definition TaskTarget_Type (tg : TaskTarget) : TargetType :=
  match tg with
  | NameVariantTarget v => NameVariant.TargetType v
  | ProviderTarget v => Provider.TargetType v
  end.

Module TaskMetadata.
Record t : Type := mk {
  ID : TaskID;
  Name : string;
  TaskType : TaskType;
  Target : option TaskTarget;
  TargetType : TargetType;
  DateCreated : Time.t
}.
End TaskMetadata.

Module TaskRunSimple.
Record t : Type := mk {
  RunID : TaskRunID;
  DateCreated : Time.t
}.
End TaskRunSimple.

Module TaskRuns.
Record t : Type := mk {
  TaskID : TaskID;
  Runs : list TaskRunSimple.t
}.
(** The zero value [TaskRuns{}]. *)
Definition zero : t := mk 0 [].
End TaskRuns.

Module TaskRunMetadata.
Record t : Type := mk {
  ID : TaskRunID;
  TaskId : TaskID;
  Name : string;
  Trigger : option Trigger;
  TriggerType : TriggerType;
  Status : Status;
  StartTime : Time.t;
  EndTime : Time.t;
  Logs : list string;
  Error : string
}.
End TaskRunMetadata.

Definition TaskRunList : Type := list TaskRunMetadata.t.
Definition TaskMetadataList : Type := list TaskMetadata.t.

(** [a == b] on statuses. *)
Definition Status_eqb (a b : Status) : bool :=
  match a, b with
  | Pending, Pending | Running, Running | Failed, Failed | Succeeded, Succeeded => true
  | _, _ => false
  end.

(** The loop of [FilterByStatus]; [newList] is the list built so far. *)
Fixpoint filterByStatusFrom (status : Status) (newList : TaskRunList) (trl : TaskRunList)
    : TaskRunList :=
  match trl with
  | [] => newList
  | run :: rest =>
      if Status_eqb (TaskRunMetadata.Status run) status
      then filterByStatusFrom status (newList ++ [run]) rest
      else filterByStatusFrom status newList rest
  end.

(** [trl.FilterByStatus(status)]: the list [*trl] holds after the call. *)
Definition FilterByStatus (trl : TaskRunList) (status : Status) : TaskRunList :=
  filterByStatusFrom status [] trl.

(** ** The key layout *)

Definition TableKey : Type := string.

Definition ToString (tk : TableKey) : string := tk.

Definition GetTaskMetadataKey (tk : TableKey) (id : TaskID) : string := tk +:+ fmtD id.

Definition GetTaskRunsKey (tk : TableKey) (id : TaskID) : string := tk +:+ fmtD id.

Definition GetTaskRunsMetadataKey (tk : TableKey) : string := tk.

Definition TASKMETADATA : TableKey := "/tasks/metadata/task_id=".
Definition TASKRUNS : TableKey := "/tasks/runs/task_id=".
Definition TASKRUNMETADATA : TableKey := "/tasks/runs/metadata".

(** [fmt.Sprintf("/tasks/runs/task_id=%d", id)]. *)
Definition taskRunsKey (id : TaskID) : string := "/tasks/runs/task_id=" +:+ fmtD id.

(** [fmt.Sprintf("tasks/runs/metadata/%d/%s/%d", Year, Month, Day)]. *)
Definition dayPrefix (d : Time.t) : string :=
  "tasks/runs/metadata/" +:+ fmtD (Time.Year d) +:+ "/" +:+ monthName (Time.Month d)
    +:+ "/" +:+ fmtD (Time.Day d).

(** [fmt.Sprintf("tasks/runs/metadata/%d/%s/%d/task_id=%d/run_id=%d", ...)]. *)
Definition runMetadataKey (d : Time.t) (taskID : TaskID) (runID : TaskRunID) : string :=
  dayPrefix d +:+ "/task_id=" +:+ fmtD taskID +:+ "/run_id=" +:+ fmtD runID.

(** ** Identifier allocation *)

(** The loop of [getLatestID]: [highestIncrement] is the running maximum. *)
Fixpoint getLatestIDFrom (highestIncrement : Z) (taskPaths : list string) : outcome Z :=
  match taskPaths with
  | [] =>
      if highestIncrement =? -1 then Err "no valid increments found"
      else Ok highestIncrement
  | path :: rest =>
      let parts := Split path "task_id=" in
      if (length parts <? 2)%nat then Err ("invalid format for path: " +:+ path)
      else
        match Atoi (nth 1 parts "") with
        | Ok increment =>
            getLatestIDFrom
              (if increment >? highestIncrement then increment else highestIncrement) rest
        | Err e => Err ("failed to convert task_id to integer: " +:+ e)
        | Panic p => Panic p
        end
  end.

Definition getLatestID (taskPaths : list string) : outcome Z :=
  getLatestIDFrom (-1) taskPaths.

(** The loop of [getHighestRunID] over [taskRuns.Runs[1:]]. *)
Fixpoint highestFrom (highestRunID : TaskRunID) (runs : list TaskRunSimple.t) : TaskRunID :=
  match runs with
  | [] => highestRunID
  | run :: rest =>
      highestFrom
        (if TaskRunSimple.RunID run >? highestRunID then TaskRunSimple.RunID run
         else highestRunID) rest
  end.

Definition getHighestRunID (taskRuns : TaskRuns.t) : outcome TaskRunID :=
  match TaskRuns.Runs taskRuns with
  | [] => Ok 0
  | first :: rest => Ok (highestFrom (TaskRunSimple.RunID first) rest)
  end.

(** ** JSON documents

    Modelled from the spec: section 4.3 fixes a self-describing JSON-shaped
    text format for the persisted records.  The Go codecs are not among
    the sources; what follows is a JSON reader and writer over integers,
    strings, booleans, arrays and objects, which is what the three records
    need. *)

#[warnings="-register-all"]
Inductive json : Type :=
| JNull
| JBool (b : bool)
| JNumber (z : Z)
| JString (s : string)
| JArray (elems : list json)
| JObject (members : list (string * json)).

Definition backslash : ascii := "\"%char.
Definition quoteChar : ascii := "034"%char.

Definition isDigit (c : ascii) : bool :=
  match c with
  | "0" | "1" | "2" | "3" | "4" | "5" | "6" | "7" | "8" | "9" => true
  | _ => false
  end%char.

Definition isSpace (c : ascii) : bool :=
  match c with
  | " " | "009" | "010" | "013" => true
  | _ => false
  end%char.

Definition isControl (c : ascii) : bool := (N_of_ascii c <? 32)%N.

Definition hexDigit (n : Z) : ascii :=
  match n with
  | 0 => "0" | 1 => "1" | 2 => "2" | 3 => "3" | 4 => "4" | 5 => "5" | 6 => "6"
  | 7 => "7" | 8 => "8" | 9 => "9" | 10 => "a" | 11 => "b" | 12 => "c"
  | 13 => "d" | 14 => "e" | _ => "f"
  end%char.

Definition hexValue (c : ascii) : option Z :=
  let n := Z.of_N (N_of_ascii c) in
  if (48 <=? n) && (n <=? 57) then Some (n - 48)
  else if (97 <=? n) && (n <=? 102) then Some (n - 87)
  else if (65 <=? n) && (n <=? 70) then Some (n - 55)
  else None.

Definition hex4 (a b c d : ascii) : option Z :=
  match hexValue a, hexValue b, hexValue c, hexValue d with
  | Some x, Some y, Some z, Some w => Some (((x * 16 + y) * 16 + z) * 16 + w)
  | _, _, _, _ => None
  end.

(** One character of a string literal as it is written. *)
Definition escapeChar (c : ascii) : string :=
  if (c =? quoteChar)%char then String backslash (String quoteChar EmptyString)
  else if (c =? backslash)%char then String backslash (String backslash EmptyString)
  else if isControl c then
    let n := Z.of_N (N_of_ascii c) in
    String backslash
      (String "u" (String "0" (String "0"
         (String (hexDigit (n / 16)) (String (hexDigit (n mod 16)) EmptyString)))))
  else String c EmptyString.

Fixpoint escape (s : string) : string :=
  match s with
  | EmptyString => EmptyString
  | String c s' => escapeChar c +:+ escape s'
  end.

Definition quote (s : string) : string :=
  String quoteChar (escape s +:+ String quoteChar EmptyString).

Fixpoint printJSON (j : json) : string :=
  match j with
  | JNull => "null"
  | JBool b => if b then "true" else "false"
  | JNumber z => fmtD z
  | JString s => quote s
  | JArray elems =>
      "[" +:+
      (fix printElements (l : list json) : string :=
         match l with
         | [] => "]"
         | x :: r =>
             printJSON x +:+
             match r with
             | [] => "]"
             | _ :: _ => "," +:+ printElements r
             end
         end) elems
  | JObject members =>
      "{" +:+
      (fix printMembers (l : list (string * json)) : string :=
         match l with
         | [] => "}"
         | (k, v) :: r =>
             quote k +:+ ":" +:+ printJSON v +:+
             match r with
             | [] => "}"
             | _ :: _ => "," +:+ printMembers r
             end
         end) members
  end.

(** The elements of an array and the members of an object as [printJSON]
    writes them, closing bracket included. *)
Definition printElements : list json -> string :=
  fix printElements (l : list json) : string :=
    match l with
    | [] => "]"
    | x :: r =>
        printJSON x +:+
        match r with
        | [] => "]"
        | _ :: _ => "," +:+ printElements r
        end
    end.

Definition printMembers : list (string * json) -> string :=
  fix printMembers (l : list (string * json)) : string :=
    match l with
    | [] => "}"
    | (k, v) :: r =>
        quote k +:+ ":" +:+ printJSON v +:+
        match r with
        | [] => "}"
        | _ :: _ => "," +:+ printMembers r
        end
    end.

Fixpoint skipSpace (s : string) : string :=
  match s with
  | String c s' => if isSpace c then skipSpace s' else s
  | EmptyString => EmptyString
  end.

Definition consFst (c : ascii) (r : option (string * string)) : option (string * string) :=
  match r with
  | Some (s, rest) => Some (String c s, rest)
  | None => None
  end.

Definition appFst (p : string) (r : option (string * string)) : option (string * string) :=
  match r with
  | Some (s, rest) => Some (p +:+ s, rest)
  | None => None
  end.

(** The body of a string literal, after its opening quote: the text it
    denotes and what follows the closing quote. *)
Fixpoint readString (s : string) : option (string * string) :=
  match s with
  | EmptyString => None
  | String c s' =>
      if (c =? quoteChar)%char then Some (EmptyString, s')
      else if (c =? backslash)%char then
        match s' with
        | String e s2 =>
            if (e =? quoteChar)%char then consFst quoteChar (readString s2)
            else if (e =? backslash)%char then consFst backslash (readString s2)
            else if (e =? "/")%char then consFst "/"%char (readString s2)
            else if (e =? "b")%char then consFst "008"%char (readString s2)
            else if (e =? "f")%char then consFst "012"%char (readString s2)
            else if (e =? "n")%char then consFst "010"%char (readString s2)
            else if (e =? "r")%char then consFst "013"%char (readString s2)
            else if (e =? "t")%char then consFst "009"%char (readString s2)
            else if (e =? "u")%char then
              match s2 with
              | String h1 (String h2 (String h3 (String h4 s3))) =>
                  match hex4 h1 h2 h3 h4 with
                  | Some cp => appFst (runeToString cp) (readString s3)
                  | None => None
                  end
              | _ => None
              end
            else None
        | EmptyString => None
        end
      else if isControl c then None
      else consFst c (readString s')
  end.

Fixpoint spanDigits (s : string) : string * string :=
  match s with
  | String c s' =>
      if isDigit c then let '(ds, rest) := spanDigits s' in (String c ds, rest)
      else (EmptyString, s)
  | EmptyString => (EmptyString, EmptyString)
  end.

(** An integer literal: an optional minus sign and decimal digits. *)
Definition readNumber (s : string) : option (Z * string) :=
  match s with
  | String c r =>
      let neg := (c =? "-")%char in
      let '(ds, rest) := spanDigits (if neg then r else s) in
      match ds with
      | EmptyString => None
      | String _ _ =>
          match NilEmpty.uint_of_string ds with
          | Some u => Some (if neg then - Z.of_uint u else Z.of_uint u, rest)
          | None => None
          end
      end
  | EmptyString => None
  end.

(** The reader, by recursive descent.  [fuel] bounds the nesting of calls;
    each call passes at least one character before it calls again. *)
Fixpoint readValue (fuel : nat) (s : string) : option (json * string) :=
  match fuel with
  | O => None
  | S fuel' =>
      match skipSpace s with
      | EmptyString => None
      | String c r =>
          if (c =? quoteChar)%char then
            match readString r with
            | Some (str, rest) => Some (JString str, rest)
            | None => None
            end
          else if (c =? "[")%char then
            match skipSpace r with
            | String c' rest =>
                if (c' =? "]")%char then Some (JArray [], rest)
                else
                  match readElements fuel' r with
                  | Some (l, rest') => Some (JArray l, rest')
                  | None => None
                  end
            | EmptyString => None
            end
          else if (c =? "{")%char then
            match skipSpace r with
            | String c' rest =>
                if (c' =? "}")%char then Some (JObject [], rest)
                else
                  match readMembers fuel' r with
                  | Some (l, rest') => Some (JObject l, rest')
                  | None => None
                  end
            | EmptyString => None
            end
          else if hasPrefix "true" (String c r) then Some (JBool true, dropString 4 (String c r))
          else if hasPrefix "false" (String c r) then Some (JBool false, dropString 5 (String c r))
          else if hasPrefix "null" (String c r) then Some (JNull, dropString 4 (String c r))
          else
            match readNumber (String c r) with
            | Some (z, rest) => Some (JNumber z, rest)
            | None => None
            end
      end
  end
with readElements (fuel : nat) (s : string) : option (list json * string) :=
  match fuel with
  | O => None
  | S fuel' =>
      match readValue fuel' s with
      | Some (v, r) =>
          match skipSpace r with
          | String c rest =>
              if (c =? ",")%char then
                match readElements fuel' rest with
                | Some (l, rest') => Some (v :: l, rest')
                | None => None
                end
              else if (c =? "]")%char then Some ([v], rest)
              else None
          | EmptyString => None
          end
      | None => None
      end
  end
with readMembers (fuel : nat) (s : string) : option (list (string * json) * string) :=
  match fuel with
  | O => None
  | S fuel' =>
      match skipSpace s with
      | String c r =>
          if (c =? quoteChar)%char then
            match readString r with
            | Some (k, r1) =>
                match skipSpace r1 with
                | String c1 r2 =>
                    if (c1 =? ":")%char then
                      match readValue fuel' r2 with
                      | Some (v, r3) =>
                          match skipSpace r3 with
                          | String c3 r4 =>
                              if (c3 =? ",")%char then
                                match readMembers fuel' r4 with
                                | Some (l, rest') => Some ((k, v) :: l, rest')
                                | None => None
                                end
                              else if (c3 =? "}")%char then Some ([(k, v)], r4)
                              else None
                          | EmptyString => None
                          end
                      | None => None
                      end
                    else None
                | EmptyString => None
                end
            | None => None
            end
          else None
      | EmptyString => None
      end
  end.

(** A whole document: one value, then nothing but blanks. *)
Definition parseJSON (s : string) : outcome json :=
  match readValue (S (String.length s)) s with
  | Some (j, rest) =>
      match skipSpace rest with
      | EmptyString => Ok j
      | String _ _ => Err "invalid character after top-level value"
      end
  | None => Err "invalid JSON"
  end.

(** The first member of an object with the given key. *)
Fixpoint getField (k : string) (members : list (string * json)) : option json :=
  match members with
  | [] => None
  | (k', v) :: rest => if String.eqb k k' then Some v else getField k rest
  end.

(** ** Timestamps as text

    Modelled from the spec: "Timestamps use ISO-8601 with UTC offset. On
    decode, they MUST be interpreted as UTC."  A timestamp is written as
    [YYYY-MM-DDTHH:MM:SSZ], with nine digits of fraction after the seconds
    when the nanoseconds are not zero. *)

Definition digitChar (d : Z) : ascii := ascii_of_N (48 + Z.to_N d).

Definition digitValue (c : ascii) : Z := Z.of_N (N_of_ascii c) - 48.

(** [w] decimal digits of [n], most significant first. *)
Fixpoint printDigits (w : nat) (n : Z) : string :=
  match w with
  | O => EmptyString
  | S w' => String (digitChar (n / 10 ^ Z.of_nat w')) (printDigits w' (n mod 10 ^ Z.of_nat w'))
  end.

(** Exactly [w] decimal digits, added to [acc]. *)
Fixpoint readDigits (w : nat) (acc : Z) (s : string) : option (Z * string) :=
  match w with
  | O => Some (acc, s)
  | S w' =>
      match s with
      | String c s' =>
          if isDigit c then readDigits w' (acc * 10 + digitValue c) s' else None
      | EmptyString => None
      end
  end.

Definition expect (c : ascii) (s : string) : option string :=
  match s with
  | String c' s' => if (c =? c')%char then Some s' else None
  | EmptyString => None
  end.

Definition formatTime (a : Time.t) : outcome string :=
  if (0 <=? Time.Year a) && (Time.Year a <=? 9999) then
    Ok (printDigits 4 (Time.Year a) +:+ "-" +:+
        printDigits 2 (monthNumber (Time.Month a)) +:+ "-" +:+
        printDigits 2 (Time.Day a) +:+ "T" +:+
        printDigits 2 (Time.Hour a) +:+ ":" +:+
        printDigits 2 (Time.Minute a) +:+ ":" +:+
        printDigits 2 (Time.Second a) +:+
        (if Time.Nanosecond a =? 0 then "Z"
         else "." +:+ printDigits 9 (Time.Nanosecond a) +:+ "Z"))
  else Err "Time.MarshalJSON: year outside of range [0,9999]".

Definition readFraction (s : string) : option (Z * string) :=
  match s with
  | String "."%char s' => readDigits 9 0 s'
  | _ => Some (0, s)
  end.

Definition readTime (s : string) : option Time.t :=
  match readDigits 4 0 s with
  | Some (y, s1) =>
  match expect "-" s1 with
  | Some s2 =>
  match readDigits 2 0 s2 with
  | Some (mo, s3) =>
  match expect "-" s3 with
  | Some s4 =>
  match readDigits 2 0 s4 with
  | Some (d, s5) =>
  match expect "T" s5 with
  | Some s6 =>
  match readDigits 2 0 s6 with
  | Some (h, s7) =>
  match expect ":" s7 with
  | Some s8 =>
  match readDigits 2 0 s8 with
  | Some (mi, s9) =>
  match expect ":" s9 with
  | Some s10 =>
  match readDigits 2 0 s10 with
  | Some (sec, s11) =>
  match readFraction s11 with
  | Some (ns, s12) =>
      match s12, monthOfNumber mo with
      | "Z", Some m => Some (Time.mk y m d h mi sec ns)
      | _, _ => None
      end
  | None => None end
  | None => None end
  | None => None end
  | None => None end
  | None => None end
  | None => None end
  | None => None end
  | None => None end
  | None => None end
  | None => None end
  | None => None end
  | None => None end.

Definition parseTime (s : string) : outcome Time.t :=
  match readTime s with
  | Some a =>
      if Time.valid a then Ok a
      else Err ("parsing time " +:+ quote s +:+ ": out of range")
  | None => Err ("parsing time " +:+ quote s +:+ ": cannot parse")
  end.

(** ** The record codecs

    Modelled from the spec: [Marshal] and [Unmarshal] of [TaskMetadata],
    [TaskRuns] and [TaskRunMetadata] are not among the sources.  Section
    4.3 describes them: every field is written; a polymorphic field is a
    nested object that carries its type tag, and the tag selects the
    variant on reading; [name] and [trigger] must be present; [trigger]
    must be an object; [status] must be one of the four statuses.  The
    member names are the ones of the documents in the tests. *)

Class Serializer (T : Type) : Type := {
  Marshal : T -> outcome string;
  Unmarshal : string -> outcome T
}.

Definition typeError (field : string) : string :=
  "json: cannot unmarshal value into field '" +:+ field +:+ "'".

Definition optNumber (field : string) (o : list (string * json)) : outcome Z :=
  match getField field o with
  | None | Some JNull => Ok 0
  | Some (JNumber z) => Ok z
  | Some _ => Err (typeError field)
  end.

Definition optString (field : string) (o : list (string * json)) : outcome string :=
  match getField field o with
  | None | Some JNull => Ok EmptyString
  | Some (JString s) => Ok s
  | Some _ => Err (typeError field)
  end.

Definition optBool (field : string) (o : list (string * json)) : outcome bool :=
  match getField field o with
  | None | Some JNull => Ok false
  | Some (JBool b) => Ok b
  | Some _ => Err (typeError field)
  end.

Definition optTime (field : string) (o : list (string * json)) : outcome Time.t :=
  match getField field o with
  | None | Some JNull => Ok Time.zero
  | Some (JString s) => parseTime s
  | Some _ => Err (typeError field)
  end.

Fixpoint mapM {A B : Type} (f : A -> outcome B) (l : list A) : outcome (list B) :=
  match l with
  | [] => Ok []
  | x :: r => y <- f x ;; ys <- mapM f r ;; Ok (y :: ys)
  end.

Definition asString (field : string) (j : json) : outcome string :=
  match j with
  | JString s => Ok s
  | _ => Err (typeError field)
  end.

Definition optStrings (field : string) (o : list (string * json)) : outcome (list string) :=
  match getField field o with
  | None | Some JNull => Ok []
  | Some (JArray l) => mapM (asString field) l
  | Some _ => Err (typeError field)
  end.

(** *** Status *)

Definition statusName (st : Status) : string :=
  match st with
  | Pending => "PENDING"
  | Running => "RUNNING"
  | Failed => "FAILED"
  | Succeeded => "SUCCEEDED"
  end.

Definition statusOfName (s : string) : outcome Status :=
  if String.eqb s "PENDING" then Ok Pending
  else if String.eqb s "RUNNING" then Ok Running
  else if String.eqb s "FAILED" then Ok Failed
  else if String.eqb s "SUCCEEDED" then Ok Succeeded
  else Err ("No such status: '" +:+ s +:+ "'").

(** *** Trigger *)

Definition encodeTrigger (tr : option Trigger) : json :=
  match tr with
  | None => JNull
  | Some (OneOff v) =>
      JObject [("triggerName", JString (OneOffTrigger.TriggerName v));
               ("triggerType", JString (OneOffTrigger.TriggerType v))]
  | Some (Dummy v) =>
      JObject [("triggerName", JString (DummyTrigger.TriggerName v));
               ("triggerType", JString (DummyTrigger.TriggerType v));
               ("dummyField", JBool (DummyTrigger.DummyField v))]
  end.

Definition decodeTrigger (o : list (string * json)) : outcome Trigger :=
  tag <- optString "triggerType" o ;;
  name <- optString "triggerName" o ;;
  if String.eqb tag oneOffTrigger then Ok (OneOff (OneOffTrigger.mk name tag))
  else if String.eqb tag dummyTrigger then
    b <- optBool "dummyField" o ;;
    Ok (Dummy (DummyTrigger.mk name tag b))
  else Err ("No such target type: '" +:+ tag +:+ "'").

(** *** TaskRunMetadata *)

Definition encodeRun (r : TaskRunMetadata.t) : outcome json :=
  startTime <- formatTime (TaskRunMetadata.StartTime r) ;;
  endTime <- formatTime (TaskRunMetadata.EndTime r) ;;
  Ok (JObject
        [("id", JNumber (TaskRunMetadata.ID r));
         ("TaskId", JNumber (TaskRunMetadata.TaskId r));
         ("name", JString (TaskRunMetadata.Name r));
         ("trigger", encodeTrigger (TaskRunMetadata.Trigger r));
         ("triggerType", JString (TaskRunMetadata.TriggerType r));
         ("status", JString (statusName (TaskRunMetadata.Status r)));
         ("startTime", JString startTime);
         ("endTime", JString endTime);
         ("logs", JArray (map JString (TaskRunMetadata.Logs r)));
         ("error", JString (TaskRunMetadata.Error r))]).

Definition decodeRun (j : json) : outcome TaskRunMetadata.t :=
  match j with
  | JObject o =>
      match getField "name" o with
      | None => Err "Missing field 'name'"
      | Some jname =>
          match getField "trigger" o with
          | None => Err "Missing field 'trigger'"
          | Some (JObject tr) =>
              name <- asString "name" jname ;;
              trigger <- decodeTrigger tr ;;
              statusText <- optString "status" o ;;
              status <- statusOfName statusText ;;
              id <- optNumber "id" o ;;
              taskId <- optNumber "TaskId" o ;;
              triggerType <- optString "triggerType" o ;;
              startTime <- optTime "startTime" o ;;
              endTime <- optTime "endTime" o ;;
              logs <- optStrings "logs" o ;;
              error <- optString "error" o ;;
              Ok (TaskRunMetadata.mk id taskId name (Some trigger) triggerType status
                    startTime endTime logs error)
          | Some _ => Err "Wrong format of Trigger"
          end
      end
  | _ => Err (typeError "TaskRunMetadata")
  end.


(** *** TaskRuns *)

Definition encodeRunSimple (r : TaskRunSimple.t) : outcome json :=
  date <- formatTime (TaskRunSimple.DateCreated r) ;;
  Ok (JObject [("RunID", JNumber (TaskRunSimple.RunID r)); ("DateCreated", JString date)]).

Definition decodeRunSimple (j : json) : outcome TaskRunSimple.t :=
  match j with
  | JObject o =>
      id <- optNumber "RunID" o ;;
      date <- optTime "DateCreated" o ;;
      Ok (TaskRunSimple.mk id date)
  | _ => Err (typeError "Runs")
  end.

Definition encodeRuns (r : TaskRuns.t) : outcome json :=
  runs <- mapM encodeRunSimple (TaskRuns.Runs r) ;;
  Ok (JObject [("TaskID", JNumber (TaskRuns.TaskID r)); ("Runs", JArray runs)]).

Definition decodeRuns (j : json) : outcome TaskRuns.t :=
  match j with
  | JObject o =>
      id <- optNumber "TaskID" o ;;
      runs <- match getField "Runs" o with
              | None | Some JNull => Ok []
              | Some (JArray l) => mapM decodeRunSimple l
              | Some _ => Err (typeError "Runs")
              end ;;
      Ok (TaskRuns.mk id runs)
  | _ => Err (typeError "TaskRuns")
  end.


(** *** TaskMetadata *)

Definition encodeTarget (tg : option TaskTarget) : json :=
  match tg with
  | None => JNull
  | Some (NameVariantTarget v) =>
      JObject [("name", JString (NameVariant.Name v));
               ("variant", JString (NameVariant.Variant v));
               ("targetType", JString (NameVariant.TargetType v))]
  | Some (ProviderTarget v) =>
      JObject [("name", JString (Provider.Name v));
               ("targetType", JString (Provider.TargetType v))]
  end.

Definition decodeTarget (o : list (string * json)) : outcome TaskTarget :=
  tag <- optString "targetType" o ;;
  name <- optString "name" o ;;
  if String.eqb tag nameVariantTarget then
    variant <- optString "variant" o ;;
    Ok (NameVariantTarget (NameVariant.mk name variant tag))
  else if String.eqb tag providerTarget then Ok (ProviderTarget (Provider.mk name tag))
  else Err ("No such target type: '" +:+ tag +:+ "'").

Definition encodeTask (t : TaskMetadata.t) : outcome json :=
  date <- formatTime (TaskMetadata.DateCreated t) ;;
  Ok (JObject
        [("id", JNumber (TaskMetadata.ID t));
         ("name", JString (TaskMetadata.Name t));
         ("type", JString (TaskMetadata.TaskType t));
         ("target", encodeTarget (TaskMetadata.Target t));
         ("targetType", JString (TaskMetadata.TargetType t));
         ("dateCreated", JString date)]).

Definition decodeTask (j : json) : outcome TaskMetadata.t :=
  match j with
  | JObject o =>
      id <- optNumber "id" o ;;
      name <- optString "name" o ;;
      taskType <- optString "type" o ;;
      target <- match getField "target" o with
                | Some (JObject tg) => decodeTarget tg
                | _ => Err "Wrong format of Target"
                end ;;
      targetType <- optString "targetType" o ;;
      date <- optTime "dateCreated" o ;;
      Ok (TaskMetadata.mk id name taskType (Some target) targetType date)
  | _ => Err (typeError "TaskMetadata")
  end.

(** ** The storage provider *)

(** The interface [StorageProvider], as the task manager uses it.  [Get]
    with [isPrefix = false] is a point lookup; with [isPrefix = true] it
    returns the values of all keys under the prefix.  A write returns the
    store after it and the error, if any. *)
Class StorageProvider (S : Type) : Type := {
  SetValue : S -> string -> string -> S * option string;
  Get : S -> string -> bool -> outcome (list string);
  ListKeys : S -> string -> outcome (list string)
}.

(** ** The task manager *)

Section TaskManager.

Context {S : Type} `{!StorageProvider S}.
Context `{!Serializer TaskMetadata.t} `{!Serializer TaskRuns.t}
        `{!Serializer TaskRunMetadata.t}.

Record TaskManager : Type := NewTaskManager { storage : S }.

(** [CreateTask]; [now] is the reading of [time.Now().UTC()].  The
    conversion [TaskID(latestID + 1)] is taken on the wrapped [int] sum. *)
Definition CreateTask (tm : TaskManager) (now : Time.t) (name : string)
    (tType : TaskType) (target : option TaskTarget) : TaskManager * outcome TaskMetadata.t :=
  match ListKeys (storage tm) (ToString TASKMETADATA) with
  | Err e => (tm, Err ("failed to fetch keys: " +:+ e))
  | Panic p => (tm, Panic p)
  | Ok keys =>
  match (if (length keys =? 0)%nat then Ok 0 else getLatestID keys) with
  | Err e => (tm, Err e)
  | Panic p => (tm, Panic p)
  | Ok latestID =>
  match target with
  | None => (tm, Panic nilDereference)
  | Some tg =>
  let metadata :=
    TaskMetadata.mk (wrapInt (latestID + 1)) name tType (Some tg) (TaskTarget_Type tg) now in
  match Marshal metadata with
  | Err e => (tm, Err ("failed to marshal metadata: " +:+ e))
  | Panic p => (tm, Panic p)
  | Ok serializedMetadata =>
  match SetValue (storage tm)
          (GetTaskMetadataKey TASKMETADATA (TaskMetadata.ID metadata)) serializedMetadata with
  | (st1, Some e) => (NewTaskManager st1, Err e)
  | (st1, None) =>
  let runs := TaskRuns.mk (TaskMetadata.ID metadata) [] in
  match Marshal runs with
  | Err e => (NewTaskManager st1, Err e)
  | Panic p => (NewTaskManager st1, Panic p)
  | Ok serializedRuns =>
  match SetValue st1 (taskRunsKey (TaskMetadata.ID metadata)) serializedRuns with
  | (st2, Some e) => (NewTaskManager st2, Err e)
  | (st2, None) => (NewTaskManager st2, Ok metadata)
  end end end end end end end.

Definition GetTaskByID (tm : TaskManager) (id : TaskID) : outcome TaskMetadata.t :=
  let key := GetTaskMetadataKey TASKMETADATA id in
  metadata <- Get (storage tm) key false ;;
  if (length metadata =? 0)%nat then
    Err ("task not found for id: " +:+ runeToString id)
  else
    first <- index0 metadata ;;
    Unmarshal first.

(** [CreateTaskRun]; [now] is the reading of [time.Now().UTC()]. *)
Definition CreateTaskRun (tm : TaskManager) (now : Time.t) (name : string)
    (taskID : TaskID) (trigger : option Trigger) : TaskManager * outcome TaskRunMetadata.t :=
  match Get (storage tm) (taskRunsKey taskID) false with
  | Err e => (tm, Err ("failed to fetch task: " +:+ e))
  | Panic p => (tm, Panic p)
  | Ok key =>
  match (first <- index0 key ;; Unmarshal first) with
  | Err e => (tm, Err e)
  | Panic p => (tm, Panic p)
  | Ok runs =>
  match getHighestRunID runs with
  | Err e => (tm, Err e)
  | Panic p => (tm, Panic p)
  | Ok latestID =>
  let startTime := now in
  match trigger with
  | None => (tm, Panic nilDereference)
  | Some tr =>
  let metadata :=
    TaskRunMetadata.mk (latestID + 1) taskID name (Some tr) (Trigger_Type tr) Pending
      startTime Time.zero [] EmptyString in
  let runs' :=
    TaskRuns.mk (TaskRuns.TaskID runs)
      (TaskRuns.Runs runs ++ [TaskRunSimple.mk (TaskRunMetadata.ID metadata) startTime]) in
  match Marshal runs' with
  | Err e => (tm, Err e)
  | Panic p => (tm, Panic p)
  | Ok serializedRuns =>
  match Marshal metadata with
  | Err e => (tm, Err ("failed to marshal metadata: " +:+ e))
  | Panic p => (tm, Panic p)
  | Ok serializedMetadata =>
  match SetValue (storage tm) (taskRunsKey taskID) serializedRuns with
  | (st1, Some e) => (NewTaskManager st1, Err e)
  | (st1, None) =>
  match SetValue st1 (runMetadataKey startTime taskID (TaskRunMetadata.ID metadata))
          serializedMetadata with
  | (st2, Some e) => (NewTaskManager st2, Err e)
  | (st2, None) => (NewTaskManager st2, Ok metadata)
  end end end end end end end end.

(** The search loop of [GetRunByID]: the first entry with the run id. *)
Fixpoint findRun (runID : TaskRunID) (runs : list TaskRunSimple.t) : option TaskRunSimple.t :=
  match runs with
  | [] => None
  | run :: rest => if TaskRunSimple.RunID run =? runID then Some run else findRun runID rest
  end.

Definition GetRunByID (tm : TaskManager) (taskID : TaskID) (runID : TaskRunID)
    : outcome TaskRunMetadata.t :=
  key <- wrapErr "failed to fetch task: " (Get (storage tm) (taskRunsKey taskID) false) ;;
  first <- index0 key ;;
  runs <- Unmarshal first ;;
  match findRun runID (TaskRuns.Runs runs) with
  | None => Err "run not found"
  | Some runRecord =>
      let date := TaskRunSimple.DateCreated runRecord in
      rec <- Get (storage tm)
               (runMetadataKey date taskID (TaskRunSimple.RunID runRecord)) false ;;
      first <- index0 rec ;;
      wrapErr "failed to unmarshal run record: " (Unmarshal first)
  end.

(** The loop of [GetRunsByDate]; [runs] is the list built so far. *)
Fixpoint runsByDateFrom (start : Time.t) (runs : list TaskRunMetadata.t)
    (recs : list string) : outcome TaskRunList :=
  match recs with
  | [] => Ok runs
  | record :: rest =>
      match Unmarshal record with
      | Ok taskRun =>
          if Time.After (TaskRunMetadata.StartTime taskRun) start
          then runsByDateFrom start runs rest
          else runsByDateFrom start (runs ++ [taskRun]) rest
      | Err e => Err ("failed to unmarshal run record: " +:+ e)
      | Panic p => Panic p
      end
  end.

Definition GetRunsByDate (tm : TaskManager) (start end_ : Time.t) : outcome TaskRunList :=
  recs <- Get (storage tm) (dayPrefix start) true ;;
  runsByDateFrom start [] recs.

(** The loop of [GetAllTasks]; [tml] is the list built so far. *)
Fixpoint allTasksFrom (tml : TaskMetadataList) (metadata : list string)
    : outcome TaskMetadataList :=
  match metadata with
  | [] => Ok tml
  | m :: rest =>
      match Unmarshal m with
      | Ok taskMetadata => allTasksFrom (tml ++ [taskMetadata]) rest
      | Err e => Err e
      | Panic p => Panic p
      end
  end.

Definition GetAllTasks (tm : TaskManager) : outcome TaskMetadataList :=
  metadata <- Get (storage tm) (ToString TASKMETADATA) true ;;
  allTasksFrom [] metadata.

(** The loop of [GetAllTaskRuns]; [runs] is the list built so far. *)
Fixpoint allTaskRunsFrom (runs : TaskRunList) (recs : list string) : outcome TaskRunList :=
  match recs with
  | [] => Ok runs
  | record :: rest =>
      match Unmarshal record with
      | Ok taskRun => allTaskRunsFrom (runs ++ [taskRun]) rest
      | Err e => Err ("failed to unmarshal run record: " +:+ e)
      | Panic p => Panic p
      end
  end.

Definition GetAllTaskRuns (tm : TaskManager) : outcome TaskRunList :=
  recs <- Get (storage tm) "tasks/runs/metadata" true ;;
  allTaskRunsFrom [] recs.

(** The two writes of [CreateTask] for the record [metadata], both
    without error: [st'] is the store after them. *)
Definition taskStored (st : S) (metadata : TaskMetadata.t) (st' : S) : Prop :=
  exists serializedMetadata st1 serializedRuns,
    Marshal metadata = Ok serializedMetadata /\
    SetValue st (GetTaskMetadataKey TASKMETADATA (TaskMetadata.ID metadata))
      serializedMetadata = (st1, None) /\
    Marshal (TaskRuns.mk (TaskMetadata.ID metadata) []) = Ok serializedRuns /\
    SetValue st1 (taskRunsKey (TaskMetadata.ID metadata)) serializedRuns = (st', None).

(** The two writes of [CreateTaskRun], both without error: the index
    [runs] under the task's index key, then the record [metadata] under
    its dated detail key. *)
Definition runStored (st : S) (taskID : TaskID) (runs : TaskRuns.t)
    (metadata : TaskRunMetadata.t) (st' : S) : Prop :=
  exists serializedRuns serializedMetadata st1,
    Marshal runs = Ok serializedRuns /\
    Marshal metadata = Ok serializedMetadata /\
    SetValue st (taskRunsKey taskID) serializedRuns = (st1, None) /\
    SetValue st1
      (runMetadataKey (TaskRunMetadata.StartTime metadata) taskID
         (TaskRunMetadata.ID metadata)) serializedMetadata = (st', None).

End TaskManager.

Arguments TaskManager S : clear implicits.

(** The codecs of the three records, over JSON text. *)
#[export] Instance TaskRunMetadata_Serializer : Serializer TaskRunMetadata.t := {
  Marshal r := j <- encodeRun r ;; Ok (printJSON j);
  Unmarshal data :=
    j <- parseJSON data ;;
    decodeRun j
}.

#[export] Instance TaskRuns_Serializer : Serializer TaskRuns.t := {
  Marshal r := j <- encodeRuns r ;; Ok (printJSON j);
  Unmarshal data := j <- parseJSON data ;; decodeRuns j
}.

#[export] Instance TaskMetadata_Serializer : Serializer TaskMetadata.t := {
  Marshal t := j <- encodeTask t ;; Ok (printJSON j);
  Unmarshal data := j <- parseJSON data ;; decodeTask j
}.

(** ** Two storage providers in memory

    Modelled from the spec: section 4.2 lets a point lookup of a missing
    key return an empty result, and lets an implementation fail fast
    instead.  [MemoryStorage] does the first, [StrictStorage] the second. *)

Definition keysUnder (prefix : string) (m : gmap string string) : list (string * string) :=
  filter (fun kv => hasPrefix prefix kv.1 = true) (map_to_list m).

Record MemoryStorage : Type := Memory { memory : gmap string string }.

#[export] Instance MemoryStorage_Provider : StorageProvider MemoryStorage := {
  SetValue st k v := (Memory (<[k := v]> (memory st)), None);
  Get st k isPrefix :=
    if isPrefix then Ok (map snd (keysUnder k (memory st)))
    else match memory st !! k with
         | Some v => Ok [v]
         | None => Ok []
         end;
  ListKeys st prefix := Ok (map fst (keysUnder prefix (memory st)))
}.

Record StrictStorage : Type := Strict { strict : gmap string string }.

#[export] Instance StrictStorage_Provider : StorageProvider StrictStorage := {
  SetValue st k v := (Strict (<[k := v]> (strict st)), None);
  Get st k isPrefix :=
    if isPrefix then Ok (map snd (keysUnder k (strict st)))
    else match strict st !! k with
         | Some v => Ok [v]
         | None => Err ("key not found: " +:+ k)
         end;
  ListKeys st prefix := Ok (map fst (keysUnder prefix (strict st)))
}.

(** ** The logger

    The package [logging] wraps a [zap.SugaredLogger] with a request id
    and a map of values, and keeps the request id and the logger in a
    [context.Context].  Of the libraries the package calls, what it relies
    on is kept: [With] adds a field to a logger and the logging calls
    write an entry; a [sync.Map] is a map behind a pointer, which may be
    nil; a context is a chain of bindings, read with [Value], the latest
    binding of a key first; [uuid.New] is an input.  An entry records the
    logger it was written through, its level, its message and the keys and
    values of the call. *)

Module Logging.

Definition RequestID : Type := string.
Definition contextKey : Type := string.

Definition SkipProviderType : string := EmptyString.
Definition NoVariant : string := EmptyString.

Definition RequestIDKey : contextKey := "request-id".
Definition LoggerKey : contextKey := "logger".

(** A value of type [interface{}] in a map of values or in a log call. *)
Inductive any : Type :=
| AnyNil
| AnyString (s : string)
| AnyRequestID (id : RequestID)
| AnyInt (n : Z)
| AnyLogger.

Inductive Level : Type := DebugLevel | WarnLevel | ErrorLevel.

Module zap.

Record SugaredLogger : Type := mk {
  name : string;
  fields : list (string * any)
}.

(** [s.With(key, value)]. *)
Definition With (s : SugaredLogger) (key : string) (value : any) : SugaredLogger :=
  mk (name s) (fields s ++ [(key, value)]).

End zap.

Record Entry : Type := mkEntry {
  through : zap.SugaredLogger;
  level : Level;
  message : string;
  keysAndValues : list (string * any)
}.

(** A call that writes entries, and then returns or panics. *)
Definition logged (A : Type) : Type := list Entry * outcome A.

Record Logger : Type := mkLogger {
  SugaredLogger : zap.SugaredLogger;
  id : RequestID;
  Values : option (gmap string any)
}.

Definition Debugw (logger : Logger) (msg : string) (kvs : list (string * any)) : Entry :=
  mkEntry (SugaredLogger logger) DebugLevel msg kvs.

Definition Warn (logger : Logger) (msg : string) : Entry :=
  mkEntry (SugaredLogger logger) WarnLevel msg [].

Definition Warnw (logger : Logger) (msg : string) (kvs : list (string * any)) : Entry :=
  mkEntry (SugaredLogger logger) WarnLevel msg kvs.

Definition Error (logger : Logger) (msg : string) : Entry :=
  mkEntry (SugaredLogger logger) ErrorLevel msg [].

(** [RequestID.String]. *)
Definition String_ (r : RequestID) : string := r.

(** [m.Store(k, v)] for every entry of [from], into [into]. *)
Definition storeAll (from into : gmap string any) : gmap string any :=
  map_fold (fun k v acc => <[k := v]> acc) into from.

(** [appendValueMap]; [values] is [None] for a nil map, over which the
    loop does not run.  [Range] on a nil [*sync.Map] dereferences it. *)
Definition appendValueMap (logger : Logger) (values : option (gmap string any))
    : outcome (gmap string any) :=
  let combinedValues := storeAll (default ∅ values) ∅ in
  match Values logger with
  | None => Panic nilDereference
  | Some existing => Ok (storeAll existing combinedValues)
  end.

Definition WithRequestID (logger : Logger) (id_ : RequestID) : logged Logger :=
  if String.eqb id_ EmptyString then
    ([Warn logger "Request ID is empty"], Ok logger)
  else if negb (String.eqb (id logger) EmptyString) then
    ([Warnw logger "Request ID already set in logger. Using existing Request ID"
        [("current request-id", AnyRequestID (id logger)); ("new request-id", AnyRequestID id_)]],
     Ok logger)
  else
    match appendValueMap logger (Some {["request-id" := AnyRequestID id_]}) with
    | Ok valuesWithRequestID =>
        ([], Ok (mkLogger (zap.With (SugaredLogger logger) "request-id" (AnyRequestID id_))
                   id_ (Some valuesWithRequestID)))
    | Err e => ([], Err e)
    | Panic p => ([], Panic p)
    end.

(** One of the blocks of [WithResource] and [WithProvider]: a value that
    is not empty goes into the new values and into the logger's fields;
    an empty one is warned about, through the logger as it is by then. *)
Definition addField (key value warning : string)
    (st : list Entry * gmap string any * Logger) : list Entry * gmap string any * Logger :=
  let '(out, newValues, logger) := st in
  if negb (String.eqb value EmptyString) then
    (out, <[key := AnyString value]> newValues,
     mkLogger (zap.With (SugaredLogger logger) key (AnyString value)) (id logger)
       (Values logger))
  else (out ++ [Warn logger warning], newValues, logger).

(** The end of [WithResource], [WithProvider] and [WithValues]. *)
Definition combine (out : list Entry) (logger : Logger) (values : option (gmap string any))
    : logged Logger :=
  match appendValueMap logger values with
  | Ok combinedValues =>
      (out, Ok (mkLogger (SugaredLogger logger) (id logger) (Some combinedValues)))
  | Err e => (out, Err e)
  | Panic p => (out, Panic p)
  end.

Definition WithResource (logger : Logger) (resourceType name variant : string)
    : logged Logger :=
  let '(out, newValues, logger') :=
    addField "resource-variant" variant "Resource variant is empty"
      (addField "resource-name" name "Resource name is empty"
         (addField "resource-type" resourceType "Resource type is an empty string"
            ([], ∅, logger))) in
  combine out logger' (Some newValues).

Definition WithProvider (logger : Logger) (providerType providerName : string)
    : logged Logger :=
  let '(out, newValues, logger') :=
    addField "provider-name" providerName "Provider name is empty"
      (addField "provider-type" providerType "Provider type is empty"
         ([], ∅, logger)) in
  combine out logger' (Some newValues).

Definition WithValues (logger : Logger) (values : option (gmap string any)) : logged Logger :=
  combine (match values with
           | None => [Warn logger "Values are empty"]
           | Some _ => []
           end) logger values.

(** [GetValue]; the result is [None] for the nil interface. *)
Definition GetValue (logger : Logger) (key : string) : logged (option any) :=
  match Values logger with
  | None => ([], Panic nilDereference)
  | Some m =>
      match m !! key with
      | Some value => ([], Ok (Some value))
      | None => ([Warnw logger "Value not found" [("key", AnyString key)]], Ok None)
      end
  end.

Definition GetRequestID (logger : Logger) : RequestID := id logger.

(** [NewLogger]; [zap.NewDevelopment] is taken to succeed. *)
Definition NewLogger (service : string) : Logger :=
  mkLogger (zap.mk service []) EmptyString (Some ∅).

(** [NewStackTraceLogger]; the configuration is taken to build.  The
    field [Values] is left out of the literal: it is nil. *)
Definition NewStackTraceLogger (service : string) : Logger :=
  mkLogger (zap.mk service []) EmptyString None.

(** *** The context *)

(** What the package binds in a context. *)
Inductive ctxValue : Type :=
| CtxRequestID (r : RequestID)
| CtxLogger (l : Logger).

(** A context that is not nil: its bindings under the keys of the
    package, the latest first. *)
Definition bindings : Type := list (contextKey * ctxValue).

(** [None] is the nil interface. *)
Definition Context : Type := option bindings.

(** [ctx.Value(key)]. *)
Fixpoint Value (ctx : bindings) (key : contextKey) : option ctxValue :=
  match ctx with
  | [] => None
  | (k, v) :: parent => if String.eqb k key then Some v else Value parent key
  end.

(** [context.WithValue(ctx, key, val)]. *)
Definition WithValue (ctx : bindings) (key : contextKey) (val : ctxValue) : bindings :=
  (key, val) :: ctx.

Definition conversionPanic : string := "interface conversion: interface {} has another type".

(** [v.(RequestID)]. *)
Definition toRequestID (v : ctxValue) : outcome RequestID :=
  match v with
  | CtxRequestID r => Ok r
  | CtxLogger _ => Panic conversionPanic
  end.

(** [v.(Logger)]. *)
Definition toLogger (v : ctxValue) : outcome Logger :=
  match v with
  | CtxLogger l => Ok l
  | CtxRequestID _ => Panic conversionPanic
  end.

Definition anyOf (v : ctxValue) : any :=
  match v with
  | CtxRequestID r => AnyRequestID r
  | CtxLogger _ => AnyLogger
  end.

(** [InitializeRequestID]; [fresh] is the reading of [NewRequestID()]. *)
Definition InitializeRequestID (logger : Logger) (ctx : Context) (fresh : RequestID)
    : logged (string * Context * Logger) :=
  match ctx with
  | None => ([], Panic nilDereference)
  | Some ctx0 =>
      let '(out1, requestID, ctx1) :=
        match Value ctx0 RequestIDKey with
        | None =>
            ([Debugw logger "Creating new Request ID" [("request-id", AnyNil)]],
             CtxRequestID fresh, WithValue ctx0 RequestIDKey (CtxRequestID fresh))
        | Some requestID => ([], requestID, ctx0)
        end in
      match Value ctx1 LoggerKey with
      | None =>
          let out2 := out1 ++ [Debugw logger "Adding logger to context" []] in
          match toRequestID requestID with
          | Ok r =>
              match WithRequestID logger r with
              | (out3, Ok ctxLogger) =>
                  (out2 ++ out3,
                   Ok (String_ r, Some (WithValue ctx1 LoggerKey (CtxLogger ctxLogger)),
                       ctxLogger))
              | (out3, Err e) => (out2 ++ out3, Err e)
              | (out3, Panic p) => (out2 ++ out3, Panic p)
              end
          | Err e => (out2, Err e)
          | Panic p => (out2, Panic p)
          end
      | Some ctxLogger =>
          match toRequestID requestID with
          | Ok r =>
              match toLogger ctxLogger with
              | Ok l => (out1, Ok (String_ r, Some ctx1, l))
              | Err e => (out1, Err e)
              | Panic p => (out1, Panic p)
              end
          | Err e => (out1, Err e)
          | Panic p => (out1, Panic p)
          end
      end
  end.

Definition GetRequestIDFromContext (ctx : Context) : logged string :=
  match ctx with
  | None => ([], Panic nilDereference)
  | Some ctx0 =>
      match Value ctx0 RequestIDKey with
      | None => ([Warn (NewLogger "logging") "Request ID not found in context"], Ok EmptyString)
      | Some requestID =>
          match toRequestID requestID with
          | Ok r => ([], Ok (String_ r))
          | Err e => ([], Err e)
          | Panic p => ([], Panic p)
          end
      end
  end.

Definition GetLoggerFromContext (ctx : Context) : logged Logger :=
  match ctx with
  | None => ([], Panic nilDereference)
  | Some ctx0 =>
      match Value ctx0 LoggerKey with
      | None =>
          ([Warn (NewLogger "logging") "Logger not found in context"], Ok (NewLogger "logger"))
      | Some logger =>
          match toLogger logger with
          | Ok l => ([], Ok l)
          | Err e => ([], Err e)
          | Panic p => ([], Panic p)
          end
      end
  end.

(** The end of [AttachRequestID]: both bindings are added. *)
Definition attach (out : list Entry) (id_ : string) (ctx0 : bindings) (logger : Logger)
    : logged Context :=
  let ctx1 := WithValue ctx0 RequestIDKey (CtxRequestID id_) in
  match WithRequestID logger id_ with
  | (out', Ok logger') => (out ++ out', Ok (Some (WithValue ctx1 LoggerKey (CtxLogger logger'))))
  | (out', Err e) => (out ++ out', Err e)
  | (out', Panic p) => (out ++ out', Panic p)
  end.

(** [AttachRequestID]; [fresh] is the reading of [NewRequestID()]. *)
Definition AttachRequestID (id_ : string) (ctx : Context) (logger : Logger)
    (fresh : RequestID) : logged Context :=
  match ctx with
  | None => ([Error logger "Context is nil"], Ok ctx)
  | Some ctx0 =>
      match Value ctx0 RequestIDKey with
      | None =>
          if String.eqb id_ EmptyString then
            attach [Warnw logger "Request ID is empty. Creating new request ID"
                      [("request-id", AnyString (String_ fresh))]]
              (String_ fresh) ctx0 logger
          else attach [] id_ ctx0 logger
      | Some contextID =>
          if String.eqb id_ EmptyString then
            ([Warn logger "Request ID already set in context"], Ok ctx)
          else
            attach [Warnw logger "Request ID already set in context. Overwriting request ID"
                      [("old request-id", anyOf contextID); ("new request-id", AnyString id_)]]
              id_ ctx0 logger
      end
  end.

Definition AddLoggerToContext (ctx : Context) (logger : Logger) : outcome Context :=
  match ctx with
  | None => Panic nilDereference
  | Some ctx0 =>
      match Value ctx0 LoggerKey with
      | None => Ok (Some (WithValue ctx0 LoggerKey (CtxLogger logger)))
      | Some _ => Ok ctx
      end
  end.

(** *** Vocabulary of the statements *)

(** A context whose visible bindings have the types the package reads
    them at. *)
Definition wellTyped (ctx : bindings) : Prop :=
  (forall v, Value ctx RequestIDKey = Some v -> exists r, v = CtxRequestID r) /\
  (forall v, Value ctx LoggerKey = Some v -> exists l, v = CtxLogger l).

(** The value under [key] after new values were added to [existing]. *)
Definition merged (existing : gmap string any) (key : string) (new : option any) : option any :=
  match existing !! key with
  | Some v => Some v
  | None => new
  end.

(** The value a field of [WithResource] or [WithProvider] asks to add. *)
Definition fieldValue (value : string) : option any :=
  if String.eqb value EmptyString then None else Some (AnyString value).

End Logging.

(** ** Vocabulary of the statements *)

(** The tag of a trigger variant. *)
Definition variantTag (tr : Trigger) : TriggerType :=
  match tr with
  | OneOff _ => oneOffTrigger
  | Dummy _ => dummyTrigger
  end.

(** A legal trigger carries the tag of its own variant. *)
Definition legalTrigger (tr : Trigger) : bool := String.eqb (Trigger_Type tr) (variantTag tr).

(** A legal run record: a trigger is present and legal, both times are
    normalised. *)
Definition legalRun (r : TaskRunMetadata.t) : bool :=
  match TaskRunMetadata.Trigger r with
  | Some tr => legalTrigger tr
  | None => false
  end && Time.valid (TaskRunMetadata.StartTime r) && Time.valid (TaskRunMetadata.EndTime r).

(** An error whose message contains [fragment]. *)
Definition failsWith {A : Type} (o : outcome A) (fragment : string) : Prop :=
  exists msg, o = Err msg /\ contains fragment msg = true.

Definition knownStatus (s : string) : bool :=
  String.eqb s "PENDING" || String.eqb s "RUNNING" || String.eqb s "FAILED"
  || String.eqb s "SUCCEEDED".


(** The range the specification gives [GetRunsByDate]:
    [start <= t <= end]. *)
Definition withinRange (start end_ t : Time.t) : bool := Time.leb start t && Time.leb t end_.

(** A store that reads back what was written: after a write without
    error, the point lookup of the key returns the value written, and the
    point lookup of every other key returns what it returned before. *)
Definition lawfulStorage (S : Type) `{!StorageProvider S} : Prop :=
  forall (st st' : S) (k v : string),
    SetValue st k v = (st', None) ->
    Get st' k false = Ok [v] /\
    forall k', k' <> k -> Get st' k' false = Get st k' false.

(** A store whose writes never fail. *)
Definition reliableStorage (S : Type) `{!StorageProvider S} : Prop :=
  forall (st : S) (k v : string), (SetValue st k v).2 = None.

(** The codec reads the document it wrote for [x] back as [x]. *)
Definition decodesBack {T : Type} `{!Serializer T} (x : T) : Prop :=
  forall doc, Marshal x = Ok doc -> Unmarshal doc = Ok x.

(** The range of Go's [int]. *)
Definition inIntRange (z : Z) : Prop := minInt <= z <= maxInt.


(** The keys of the tasks with the given ids. *)
Definition taskKeys (ids : list TaskID) : list string :=
  map (GetTaskMetadataKey TASKMETADATA) ids.

(** The largest of [hi] and the ids. *)
Definition maxFrom (hi : Z) (ids : list TaskID) : Z := fold_left Z.max ids hi.

(** The keys under the task prefix are the keys of the tasks [ids], in
    some order. *)
Definition holdsTasks (tm : TaskManager MemoryStorage) (ids : list TaskID) : Prop :=
  exists ids', Permutation ids' ids /\
    ListKeys (storage tm) (ToString TASKMETADATA) = Ok (taskKeys ids').

(** ** Scenarios *)

Definition morning : Time.t := Time.mk 2024 March 15 9 0 0 0.
Definition noon : Time.t := Time.mk 2024 March 15 12 0 0 0.
Definition afternoon : Time.t := Time.mk 2024 March 15 15 0 0 0.
Definition evening : Time.t := Time.mk 2024 March 15 18 0 0 0.

Definition sampleTarget : TaskTarget := NameVariantTarget (NameVariant.mk "n" "v" nameVariantTarget).
Definition sampleTrigger : Trigger := OneOff (OneOffTrigger.mk "t1" oneOffTrigger).

Definition emptyMemory : TaskManager MemoryStorage := NewTaskManager (Memory ∅).
Definition emptyStrict : TaskManager StrictStorage := NewTaskManager (Strict ∅).

(** One task, created in an empty store. *)
Definition oneTask : TaskManager MemoryStorage :=
  (CreateTask emptyMemory morning "etl" "ResourceCreation" (Some sampleTarget)).1.

(** Task 1 with one run, started in the afternoon. *)
Definition oneRun : TaskManager MemoryStorage :=
  (CreateTaskRun oneTask afternoon "late" 1 (Some sampleTrigger)).1.

(** Task 1 with a run started in the morning, and then with a second one,
    started in the afternoon. *)
Definition earlyOnly : TaskManager MemoryStorage :=
  (CreateTaskRun oneTask morning "early" 1 (Some sampleTrigger)).1.

Definition twoRuns : TaskManager MemoryStorage :=
  (CreateTaskRun earlyOnly afternoon "late" 1 (Some sampleTrigger)).1.

Definition firstTask : TaskMetadata.t :=
  TaskMetadata.mk 1 "etl" "ResourceCreation" (Some sampleTarget) nameVariantTarget morning.

Definition firstRun : TaskRunMetadata.t :=
  TaskRunMetadata.mk 1 1 "late" (Some sampleTrigger) oneOffTrigger Pending afternoon Time.zero
    [] EmptyString.

Definition earlyRun : TaskRunMetadata.t :=
  TaskRunMetadata.mk 1 1 "early" (Some sampleTrigger) oneOffTrigger Pending morning Time.zero
    [] EmptyString.

Definition lateRun : TaskRunMetadata.t :=
  TaskRunMetadata.mk 2 1 "late" (Some sampleTrigger) oneOffTrigger Pending afternoon Time.zero
    [] EmptyString.

(** The store of [oneRun] after the loss of the run's detail key: the
    index of task 1 still lists run 1. *)
Definition orphanIndex : TaskManager MemoryStorage :=
  NewTaskManager
    (Memory (delete (runMetadataKey afternoon 1 1) (memory (storage oneRun)))).

(** A store that holds one key under the task prefix, with two markers. *)
Definition twoMarkers : string := "/tasks/metadata/task_id=7task_id=x".

Definition doubleMarkerStore : TaskManager MemoryStorage :=
  NewTaskManager (Memory (<[twoMarkers := "{}"]> ∅)).

(** A store that holds one key under the task prefix, with no number. *)
Definition unreadableKey : string := "/tasks/metadata/task_id=x".

Definition unreadableKeyStore : TaskManager MemoryStorage :=
  NewTaskManager (Memory (<[unreadableKey := "{}"]> ∅)).

(** The two run records of the serialization test. *)
Definition oneOffRun : TaskRunMetadata.t :=
  TaskRunMetadata.mk 1 12 "oneoff_taskrun" (Some (OneOff (OneOffTrigger.mk "name1" oneOffTrigger)))
    EmptyString Pending noon evening [] EmptyString.

Definition dummyRun : TaskRunMetadata.t :=
  TaskRunMetadata.mk 1 12 "dummy_taskrun" (Some (Dummy (DummyTrigger.mk "name2" dummyTrigger true)))
    EmptyString Failed noon evening [] EmptyString.

(** The documents of the corrupt-data test, as well-formed JSON. *)
Definition triggerMembers : list (string * json) :=
  [("triggerName", JString "name5"); ("triggerType", JString "OneOffTrigger");
   ("dummyField", JBool false)].

Definition commonMembers (status : string) : list (string * json) :=
  [("status", JString status); ("startTime", JString "2021-08-26T15:04:05Z");
   ("endTime", JString "2021-08-26T15:04:05Z"); ("logs", JNull);
   ("error", JString "invalid json")].

Definition withoutName : list (string * json) :=
  [("id", JNumber 1); ("TaskId", JNumber 12); ("trigger", JObject triggerMembers)]
  ++ commonMembers "FAILED".

Definition withoutTrigger : list (string * json) :=
  [("id", JNumber 1); ("TaskId", JNumber 12); ("name", JString "invalid_json_file")]
  ++ commonMembers "FAILED".

Definition arrayTrigger : list (string * json) :=
  [("id", JNumber 1); ("TaskId", JNumber 12); ("name", JString "invalid_json_file");
   ("trigger", JArray [JString "name8"; JString "DummyTrigger"; JBool false])]
  ++ commonMembers "PENDING".

Definition unknownStatus : list (string * json) :=
  [("id", JNumber 1); ("TaskId", JNumber 12); ("name", JString "invalid_json_file");
   ("trigger", JObject triggerMembers)]
  ++ commonMembers "NOSTATUS".

(** A second task, created after the first run of task 1. *)
Definition twoTasks : TaskManager MemoryStorage :=
  (CreateTask oneRun noon "train" "ResourceCreation" (Some sampleTarget)).1.

Definition secondTask : TaskMetadata.t :=
  TaskMetadata.mk 2 "train" "ResourceCreation" (Some sampleTarget) nameVariantTarget noon.

Definition firstOfMarch : Time.t := Time.mk 2024 March 1 0 0 0 0.

(** A store whose one record, under a run key of March 15, is no JSON. *)
Definition garbledRun : TaskManager MemoryStorage :=
  NewTaskManager (Memory (<[runMetadataKey afternoon 1 1 := "{"]> ∅)).

(** A logger as [NewLogger] makes it. *)
Definition plainLogger : Logging.Logger := Logging.NewLogger "scheduler".

(** A logger that was given a value under the key of the request id. *)
Definition taggedLogger : Logging.Logger :=
  Logging.mkLogger (Logging.zap.mk "scheduler" []) EmptyString
    (Some {["request-id" := Logging.AnyString "old"]}).

(** [plainLogger] after it was given the request id "r1". *)
Definition firstLogger : Logging.Logger :=
  Logging.mkLogger (Logging.zap.mk "scheduler" [("request-id", Logging.AnyRequestID "r1")]) "r1"
    (Some {["request-id" := Logging.AnyRequestID "r1"]}).

(** The empty context after [InitializeRequestID] with the id "r1". *)
Definition firstContext : Logging.bindings :=
  [(Logging.LoggerKey, Logging.CtxLogger firstLogger);
   (Logging.RequestIDKey, Logging.CtxRequestID "r1")].

(** ** Vocabulary of the proofs *)

Fixpoint allDigits (s : string) : bool :=
  match s with
  | EmptyString => true
  | String c s' => isDigit c && allDigits s'
  end.

Definition startsWithDigitOrMinus (s : string) : bool :=
  match s with
  | String c _ => isDigit c || (c =? "-")%char
  | EmptyString => false
  end.

Ltac each_ascii c := destruct c as [[] [] [] [] [] [] [] []].

Definition delimited (rest : string) : bool :=
  match rest with
  | EmptyString => true
  | String c _ => negb (isDigit c)
  end.

(** The characters a printed value can start with. *)
Definition valueStart (c : ascii) : bool :=
  (isDigit c || (c =? "-")%char) ||
  (c =? quoteChar)%char || (c =? "[")%char || (c =? "{")%char ||
  (c =? "t")%char || (c =? "f")%char || (c =? "n")%char.

(** What reading a printed value back means: with fuel for its length
    and a tail that does not go on with a digit, the value and the tail. *)
Definition readsBack (j : json) : Prop :=
  forall fuel rest,
    (String.length (printJSON j) <= fuel)%nat ->
    delimited rest = true ->
    readValue fuel (printJSON j +:+ rest) = Some (j, rest).

Ltac bools H :=
  repeat match type of H with
         | (_ && _ = true) =>
             let H' := fresh "V" in apply andb_true_iff in H; destruct H as [H H']
         end.

Ltac props :=
  repeat match goal with
         | H : (_ <=? _) = true |- _ => apply Z.leb_le in H
         | H : (_ <? _) = true |- _ => apply Z.ltb_lt in H
         end.

(** The characters of a numeral that [%d] prints. *)
Definition isNumeralChar (c : ascii) : bool := isDigit c || (c =? "-")%char.

Fixpoint numeral (s : string) : bool :=
  match s with
  | EmptyString => true
  | String c s' => isNumeralChar c && numeral s'
  end.

(** The days of a month, 1 to 31. *)
Definition monthDays : list Z := map Z.of_nat (seq 1 31).

(** Day [d'] is day [d], or its numeral goes on after the numeral of [d]. *)
Definition dayReached (d d' : Z) : bool := (d' =? d) || (d' / 10 =? d).

(** A concrete record is read back: both codecs are evaluated. *)
Ltac decodes :=
  let doc := fresh "doc" in
  let H := fresh "H" in
  intros doc H; vm_compute in H; injection H as <-; vm_compute; reflexivity.

(** * Properties *)

#[local] Arguments String.append !_ _ / : simpl nomatch.

(** * Strings and numbers *)


Lemma append_nil_r (s : string) : s +:+ "" = s.
Proof. induction s as [|c s IH]; simpl; [reflexivity | now rewrite IH]. Qed.

Lemma append_assoc (a b c : string) : (a +:+ b) +:+ c = a +:+ b +:+ c.
Proof. induction a as [|x a IH]; simpl; [reflexivity | now rewrite IH]. Qed.

Lemma length_append (a b : string) :
  String.length (a +:+ b) = (String.length a + String.length b)%nat.
Proof. induction a as [|x a IH]; simpl; [reflexivity | now rewrite IH]. Qed.

Lemma prefix_append (s r : string) : hasPrefix s (s +:+ r) = true.
Proof.
  induction s as [|c s IH]; simpl; [reflexivity|].
  now rewrite Ascii.eqb_refl.
Qed.

Lemma contains_prefix (sub s : string) : hasPrefix sub s = true -> contains sub s = true.
Proof. intros H. destruct s; unfold contains; fold contains; rewrite H; reflexivity. Qed.

Lemma contains_append (sub r : string) : contains sub (sub +:+ r) = true.
Proof. apply contains_prefix, prefix_append. Qed.

Lemma contains_refl (s : string) : contains s s = true.
Proof. rewrite <- (append_nil_r s) at 2. apply contains_append. Qed.

Lemma failsWith_exact {A : Type} (msg : string) : failsWith (Err msg : outcome A) msg.
Proof. exists msg. split; [reflexivity | apply contains_refl]. Qed.

(** A string without the separator is not cut. *)
Lemma splitFrom_one_piece (sep s : string) : forall cur,
  contains sep s = false -> length (splitFrom sep O cur s) = 1%nat.
Proof.
  induction s as [|c s IH]; intros cur H; simpl in *; [reflexivity|].
  apply orb_false_iff in H. destruct H as [Hp Hc].
  destruct sep as [|a sep]; [discriminate Hp|].
  simpl in Hp |- *. rewrite Hp. now apply IH.
Qed.

Lemma Split_without_separator (s sep : string) :
  contains sep s = false -> (length (Split s sep) <? 2)%nat = true.
Proof.
  intros H. unfold Split. now rewrite (splitFrom_one_piece sep s "" H).
Qed.

Lemma Atoi_never_panics (s : string) p : Atoi s <> Panic p.
Proof.
  unfold Atoi.
  destruct (match s with
            | String "-"%char r => (true, r)
            | String "+"%char r => (false, r)
            | _ => (false, s)
            end) as [neg digits].
  destruct digits; [discriminate|].
  destruct (NilEmpty.uint_of_string _); [|discriminate].
  destruct (_ && _); discriminate.
Qed.

(** One key that cannot be read makes the whole scan fail. *)
Lemma getLatestIDFrom_malformed (keys : list string) (path : string) :
  In path keys ->
  ((length (Split path "task_id=") <? 2)%nat = true \/
   isOk (Atoi (nth 1 (Split path "task_id=") "")) = false) ->
  forall hi, exists e, getLatestIDFrom hi keys = Err e.
Proof.
  induction keys as [|k rest IH]; intros Hin Hbad hi; simpl in *; [contradiction|].
  destruct ((length (Split k "task_id=") <? 2)%nat) eqn:Hlen; [eauto|].
  destruct (Atoi (nth 1 (Split k "task_id=") "")) as [n|e|p] eqn:HA; [|eauto|].
  - destruct Hin as [->|Hin].
    + destruct Hbad as [Hb|Hb]; [congruence|]. rewrite HA in Hb. discriminate.
    + now apply IH.
  - exfalso. exact (Atoi_never_panics _ _ HA).
Qed.

(** ** Decimal numerals *)

Lemma string_of_uint_digits (d : Decimal.uint) : allDigits (NilEmpty.string_of_uint d) = true.
Proof. induction d; simpl; auto. Qed.

Lemma string_of_uint_nonempty (d : Decimal.uint) :
  d <> Decimal.Nil -> NilEmpty.string_of_uint d <> "".
Proof. destruct d; simpl; congruence. Qed.

(** [fmtD] of a positive number: its digits; of a negative one: a minus
    sign and the digits of its absolute value. *)
Lemma fmtD_pos (p : positive) :
  fmtD (Z.pos p) = NilEmpty.string_of_uint (Pos.to_uint p).
Proof.
  unfold fmtD. simpl. pose proof (DecimalPos.Unsigned.to_uint_nonnil p) as Hn.
  destruct (Pos.to_uint p); [congruence | reflexivity ..].
Qed.

Lemma fmtD_neg (p : positive) :
  fmtD (Z.neg p) = String "-" (NilEmpty.string_of_uint (Pos.to_uint p)).
Proof.
  unfold fmtD. simpl. pose proof (DecimalPos.Unsigned.to_uint_nonnil p) as Hn.
  destruct (Pos.to_uint p); [congruence | reflexivity ..].
Qed.

Lemma fmtD_head (z : Z) : startsWithDigitOrMinus (fmtD z) = true.
Proof.
  destruct z as [|p|p].
  - reflexivity.
  - rewrite fmtD_pos. pose proof (string_of_uint_digits (Pos.to_uint p)) as Hd.
    pose proof (string_of_uint_nonempty _ (DecimalPos.Unsigned.to_uint_nonnil p)) as Hn.
    destruct (NilEmpty.string_of_uint (Pos.to_uint p)); [congruence|].
    simpl in *. apply andb_true_iff in Hd. destruct Hd as [-> _]. reflexivity.
  - rewrite fmtD_neg. reflexivity.
Qed.

(** * Reading back what [printJSON] writes *)

(** ** String literals *)

Lemma control_escape (c : ascii) :
  isControl c = true ->
  let n := Z.of_N (N_of_ascii c) in
  hex4 "0" "0" (hexDigit (n / 16)) (hexDigit (n mod 16)) = Some n /\
  runeToString n = String c EmptyString.
Proof. each_ascii c; intros H; try discriminate H; vm_compute; split; reflexivity. Qed.

Lemma readString_escapeChar (c : ascii) (tail : string) :
  readString (escapeChar c +:+ tail) = consFst c (readString tail).
Proof.
  unfold escapeChar.
  destruct (c =? quoteChar)%char eqn:Eq.
  { apply Ascii.eqb_eq in Eq. subst c. reflexivity. }
  destruct (c =? backslash)%char eqn:Eb.
  { apply Ascii.eqb_eq in Eb. subst c. reflexivity. }
  destruct (isControl c) eqn:Ec.
  - destruct (control_escape c Ec) as [Hh Hr]. simpl in Hh, Hr.
    match goal with
    | |- readString (String _ (String _ (String _ (String _ (String ?x (String ?y _))))) +:+ _) = _ =>
        change (match hex4 "0" "0" x y with
                | Some cp => appFst (runeToString cp) (readString tail)
                | None => None
                end = consFst c (readString tail))
    end.
    rewrite Hh, Hr. destruct (readString tail) as [[s rest]|]; reflexivity.
  - change (readString (String c tail) = consFst c (readString tail)).
    simpl. now rewrite Eq, Eb, Ec.
Qed.

Lemma readString_escape (s rest : string) :
  readString (escape s +:+ String quoteChar rest) = Some (s, rest).
Proof.
  induction s as [|c s IH].
  - reflexivity.
  - simpl escape. rewrite append_assoc, readString_escapeChar, IH. reflexivity.
Qed.

(** ** Numbers *)

Lemma spanDigits_all (ds rest : string) :
  allDigits ds = true -> delimited rest = true -> spanDigits (ds +:+ rest) = (ds, rest).
Proof.
  intros Hd Hr. induction ds as [|c ds IH]; simpl in *.
  - destruct rest as [|c r]; [reflexivity|]. simpl in *.
    destruct (isDigit c); [discriminate | reflexivity].
  - apply andb_true_iff in Hd. destruct Hd as [Hc Hd]. rewrite Hc, (IH Hd). reflexivity.
Qed.

Lemma digit_not_minus (c : ascii) : isDigit c = true -> (c =? "-")%char = false.
Proof. each_ascii c; intros H; try discriminate H; reflexivity. Qed.

Lemma readNumber_digits (d : Decimal.uint) (rest : string) :
  d <> Decimal.Nil -> delimited rest = true ->
  readNumber (NilEmpty.string_of_uint d +:+ rest) = Some (Z.of_uint d, rest).
Proof.
  intros Hn Hr.
  pose proof (string_of_uint_digits d) as Hd.
  pose proof (string_of_uint_nonempty d Hn) as He.
  pose proof (NilEmpty.usu d) as Hu.
  destruct (NilEmpty.string_of_uint d) as [|c ds] eqn:E; [congruence|].
  assert (Hc : isDigit c = true) by (simpl in Hd; now apply andb_true_iff in Hd).
  unfold readNumber. simpl String.append. cbv beta iota zeta.
  rewrite (digit_not_minus c Hc).
  change (String c (ds +:+ rest)) with (String c ds +:+ rest).
  rewrite (spanDigits_all _ _ Hd Hr), Hu. reflexivity.
Qed.

Lemma readNumber_fmtD (z : Z) (rest : string) :
  delimited rest = true -> readNumber (fmtD z +:+ rest) = Some (z, rest).
Proof.
  intros Hr. destruct z as [|p|p].
  - change (fmtD 0) with (NilEmpty.string_of_uint (Decimal.D0 Decimal.Nil)).
    rewrite readNumber_digits by (assumption || discriminate). reflexivity.
  - rewrite fmtD_pos, readNumber_digits
      by (assumption || apply DecimalPos.Unsigned.to_uint_nonnil).
    unfold Z.of_uint. now rewrite DecimalPos.Unsigned.of_to.
  - rewrite fmtD_neg.
    pose proof (string_of_uint_digits (Pos.to_uint p)) as Hd.
    pose proof (string_of_uint_nonempty _ (DecimalPos.Unsigned.to_uint_nonnil p)) as He.
    pose proof (NilEmpty.usu (Pos.to_uint p)) as Hu.
    unfold readNumber. simpl String.append. cbv beta iota zeta.
    change ("-" =? "-")%char with true. cbv beta iota zeta.
    rewrite (spanDigits_all _ _ Hd Hr).
    destruct (NilEmpty.string_of_uint (Pos.to_uint p)) as [|c ds]; [congruence|].
    rewrite Hu. unfold Z.of_uint. now rewrite DecimalPos.Unsigned.of_to.
Qed.

(** ** Values *)

Lemma json_induction (P : json -> Prop) :
  P JNull ->
  (forall b, P (JBool b)) ->
  (forall z, P (JNumber z)) ->
  (forall s, P (JString s)) ->
  (forall l, Forall P l -> P (JArray l)) ->
  (forall l, Forall (fun kv => P kv.2) l -> P (JObject l)) ->
  forall j, P j.
Proof.
  intros HN HB HZ HS HA HO. fix IH 1. intros [|b|z|s|l|l].
  - exact HN.
  - apply HB.
  - apply HZ.
  - apply HS.
  - apply HA.
    exact ((fix go (l : list json) : Forall P l :=
              match l with
              | [] => @List.Forall_nil _ P
              | x :: r => @List.Forall_cons _ P x r (IH x) (go r)
              end) l).
  - apply HO.
    exact ((fix go (l : list (string * json)) : Forall (fun kv => P kv.2) l :=
              match l with
              | [] => @List.Forall_nil _ (fun kv => P kv.2)
              | kv :: r => @List.Forall_cons _ (fun kv => P kv.2) kv r (IH kv.2) (go r)
              end) l).
Qed.

Lemma valueStart_facts (c : ascii) :
  valueStart c = true ->
  isSpace c = false /\ (c =? "]")%char = false /\ (c =? "}")%char = false.
Proof. each_ascii c; intros H; try discriminate H; repeat split; reflexivity. Qed.

Lemma printJSON_head (j : json) :
  exists c r, printJSON j = String c r /\ valueStart c = true.
Proof.
  destruct j as [|[]|z|s|l|l]; simpl; try (eexists _, _; split; reflexivity).
  pose proof (fmtD_head z) as H. destruct (fmtD z) as [|c r]; [discriminate|].
  exists c, r. split; [reflexivity|]. unfold valueStart. simpl in H. now rewrite H.
Qed.

Lemma printJSON_length (j : json) : (1 <= String.length (printJSON j))%nat.
Proof.
  destruct (printJSON_head j) as (c & r & -> & _). simpl. lia.
Qed.

Lemma skipSpace_start (c : ascii) (r : string) :
  isSpace c = false -> skipSpace (String c r) = String c r.
Proof. intros H. simpl. now rewrite H. Qed.

Lemma skipSpace_printJSON (j : json) (rest : string) :
  skipSpace (printJSON j +:+ rest) = printJSON j +:+ rest.
Proof.
  destruct (printJSON_head j) as (c & r & -> & Hc).
  apply skipSpace_start. now apply valueStart_facts.
Qed.

Lemma readValue_quote (f : nat) (s : string) :
  readValue (S f) (String quoteChar s) =
  match readString s with
  | Some (str, rest) => Some (JString str, rest)
  | None => None
  end.
Proof. reflexivity. Qed.

Lemma readValue_bracket (f : nat) (r : string) :
  readValue (S f) (String "[" r) =
  match skipSpace r with
  | String c' rest =>
      if (c' =? "]")%char then Some (JArray [], rest)
      else match readElements f r with
           | Some (l, rest') => Some (JArray l, rest')
           | None => None
           end
  | EmptyString => None
  end.
Proof. reflexivity. Qed.

Lemma readValue_brace (f : nat) (r : string) :
  readValue (S f) (String "{" r) =
  match skipSpace r with
  | String c' rest =>
      if (c' =? "}")%char then Some (JObject [], rest)
      else match readMembers f r with
           | Some (l, rest') => Some (JObject l, rest')
           | None => None
           end
  | EmptyString => None
  end.
Proof. reflexivity. Qed.

Lemma readValue_number (f : nat) (c : ascii) (r : string) :
  isDigit c || (c =? "-")%char = true ->
  readValue (S f) (String c r) =
  match readNumber (String c r) with
  | Some (z, rest) => Some (JNumber z, rest)
  | None => None
  end.
Proof. each_ascii c; intros H; try discriminate H; reflexivity. Qed.

Lemma readElements_S (f : nat) (s : string) :
  readElements (S f) s =
  match readValue f s with
  | Some (v, r) =>
      match skipSpace r with
      | String c rest =>
          if (c =? ",")%char then
            match readElements f rest with
            | Some (l, rest') => Some (v :: l, rest')
            | None => None
            end
          else if (c =? "]")%char then Some ([v], rest)
          else None
      | EmptyString => None
      end
  | None => None
  end.
Proof. reflexivity. Qed.

Lemma readMembers_S (f : nat) (r : string) :
  readMembers (S f) (String quoteChar r) =
  match readString r with
  | Some (k, r1) =>
      match skipSpace r1 with
      | String c1 r2 =>
          if (c1 =? ":")%char then
            match readValue f r2 with
            | Some (v, r3) =>
                match skipSpace r3 with
                | String c3 r4 =>
                    if (c3 =? ",")%char then
                      match readMembers f r4 with
                      | Some (l, rest') => Some ((k, v) :: l, rest')
                      | None => None
                      end
                    else if (c3 =? "}")%char then Some ([(k, v)], r4)
                    else None
                | EmptyString => None
                end
            | None => None
            end
          else None
      | EmptyString => None
      end
  | None => None
  end.
Proof. reflexivity. Qed.

Lemma readElements_printElements (l : list json) :
  Forall readsBack l -> l <> [] ->
  forall fuel rest,
    (String.length (printElements l) <= fuel)%nat ->
    readElements fuel (printElements l +:+ rest) = Some (l, rest).
Proof.
  induction 1 as [|x r Hx Hr IH]; intros Hne fuel rest Hlen; [congruence|].
  change (printElements (x :: r)) with
    (printJSON x +:+ match r with [] => "]" | _ :: _ => "," +:+ printElements r end) in *.
  rewrite length_append in Hlen. rewrite append_assoc.
  pose proof (printJSON_length x) as Hx1.
  destruct r as [|y r'].
  - simpl in Hlen. destruct fuel as [|f]; [lia|].
    rewrite readElements_S, Hx by (reflexivity || lia). reflexivity.
  - remember (y :: r') as r eqn:Er. simpl in Hlen.
    destruct fuel as [|f]; [lia|].
    rewrite readElements_S, Hx by (reflexivity || lia).
    simpl. rewrite IH by (subst r; congruence || lia). reflexivity.
Qed.

Lemma readMembers_printMembers (l : list (string * json)) :
  Forall (fun kv => readsBack kv.2) l -> l <> [] ->
  forall fuel rest,
    (String.length (printMembers l) <= fuel)%nat ->
    readMembers fuel (printMembers l +:+ rest) = Some (l, rest).
Proof.
  induction 1 as [|[k v] r Hv Hr IH]; intros Hne fuel rest Hlen; [congruence|].
  change (printMembers ((k, v) :: r)) with
    (quote k +:+ ":" +:+ printJSON v +:+
     match r with [] => "}" | _ :: _ => "," +:+ printMembers r end) in *.
  simpl in Hv. pose proof (printJSON_length v) as Hv1.
  unfold quote in *. simpl String.append in Hlen. simpl String.length in Hlen.
  rewrite !length_append in Hlen.
  assert (Hf : exists f, fuel = S f /\
            (String.length (printJSON v) <= f)%nat /\
            (String.length (printMembers r) <= f)%nat).
  { destruct r as [|y r'].
    - simpl in Hlen |- *. rewrite !length_append in Hlen. simpl in Hlen.
      destruct fuel as [|f]; [lia|]. exists f. lia.
    - remember (y :: r') as r eqn:Er. simpl in Hlen.
      rewrite !length_append in Hlen. simpl in Hlen.
      destruct fuel as [|f]; [lia|]. exists f. lia. }
  destruct Hf as (f & -> & Hfv & Hfr).
  simpl String.append. rewrite readMembers_S.
  rewrite !append_assoc. simpl String.append. rewrite readString_escape.
  simpl skipSpace. change (":" =? ":")%char with true. cbv iota.
  rewrite !append_assoc.
  destruct r as [|y r'].
  - rewrite Hv by (reflexivity || assumption). reflexivity.
  - remember (y :: r') as r eqn:Er.
    rewrite Hv by (reflexivity || assumption).
    simpl. rewrite IH by (subst r; congruence || assumption). reflexivity.
Qed.

Theorem readValue_printJSON (j : json) : readsBack j.
Proof.
  induction j as [|b|z|s|l IH|l IH] using json_induction; intros fuel rest Hlen Hr.
  - destruct fuel as [|f]; [simpl in Hlen; lia | reflexivity].
  - destruct fuel as [|f]; [destruct b; simpl in Hlen; lia | destruct b; reflexivity].
  - pose proof (printJSON_length (JNumber z)) as H1.
    destruct fuel as [|f]; [lia|]. simpl printJSON.
    pose proof (fmtD_head z) as Hh. pose proof (readNumber_fmtD z rest Hr) as Hn.
    destruct (fmtD z) as [|c r]; [discriminate|]. simpl String.append in *.
    rewrite readValue_number by exact Hh. now rewrite Hn.
  - destruct fuel as [|f]; [simpl in Hlen; lia|]. simpl printJSON. unfold quote.
    simpl String.append. rewrite readValue_quote, append_assoc. simpl String.append.
    now rewrite readString_escape.
  - change (printJSON (JArray l)) with ("[" +:+ printElements l) in *.
    simpl String.append in *. simpl String.length in Hlen.
    destruct fuel as [|f]; [lia|]. rewrite readValue_bracket.
    destruct l as [|x r]; [reflexivity|].
    assert (Hs : exists c t, printElements (x :: r) +:+ rest = String c t /\
                             isSpace c = false /\ (c =? "]")%char = false).
    { change (printElements (x :: r)) with
        (printJSON x +:+ match r with [] => "]" | _ :: _ => "," +:+ printElements r end).
      destruct (printJSON_head x) as (c & t & -> & Hc).
      apply valueStart_facts in Hc. destruct Hc as (? & ? & ?).
      simpl String.append. eauto. }
    destruct Hs as (c & t & E & Hsp & Hcl).
    rewrite E at 1. rewrite (skipSpace_start _ _ Hsp), Hcl.
    rewrite readElements_printElements by (assumption || congruence || lia). reflexivity.
  - change (printJSON (JObject l)) with ("{" +:+ printMembers l) in *.
    simpl String.append in *. simpl String.length in Hlen.
    destruct fuel as [|f]; [lia|]. rewrite readValue_brace.
    destruct l as [|[k v] r]; [reflexivity|].
    change (printMembers ((k, v) :: r)) with
      (quote k +:+ ":" +:+ printJSON v +:+
       match r with [] => "}" | _ :: _ => "," +:+ printMembers r end) at 1.
    unfold quote at 1. simpl String.append at 1. simpl skipSpace. simpl Ascii.eqb. cbv iota.
    rewrite readMembers_printMembers by (assumption || congruence || lia). reflexivity.
Qed.

(** A printed document parses back to the document. *)
Theorem parseJSON_printJSON (j : json) : parseJSON (printJSON j) = Ok j.
Proof.
  unfold parseJSON.
  rewrite <- (append_nil_r (printJSON j)) at 2.
  rewrite readValue_printJSON by (reflexivity || lia). reflexivity.
Qed.

(** * Timestamps *)

Lemma digitChar_digit (d : Z) :
  0 <= d <= 9 -> isDigit (digitChar d) = true /\ digitValue (digitChar d) = d.
Proof.
  intros H.
  assert (E : d = 0 \/ d = 1 \/ d = 2 \/ d = 3 \/ d = 4 \/ d = 5 \/ d = 6 \/ d = 7 \/
              d = 8 \/ d = 9) by lia.
  repeat (destruct E as [->|E]; [split; reflexivity|]). subst d. split; reflexivity.
Qed.

Lemma readDigits_printDigits (w : nat) : forall n acc rest,
  0 <= n < 10 ^ Z.of_nat w ->
  readDigits w acc (printDigits w n +:+ rest) = Some (acc * 10 ^ Z.of_nat w + n, rest).
Proof.
  induction w as [|w IH]; intros n acc rest Hn.
  - simpl. f_equal. f_equal. change (10 ^ Z.of_nat 0) with 1 in *. lia.
  - rewrite Nat2Z.inj_succ, Z.pow_succ_r in Hn by lia.
    assert (Hp : 0 < 10 ^ Z.of_nat w) by (apply Z.pow_pos_nonneg; lia).
    assert (Hq : 0 <= n / 10 ^ Z.of_nat w <= 9).
    { split; [apply Z.div_pos; lia|].
      assert (n / 10 ^ Z.of_nat w < 10); [|lia].
      apply Z.div_lt_upper_bound; lia. }
    destruct (digitChar_digit _ Hq) as [Hd Hv].
    simpl printDigits. simpl String.append. simpl readDigits. rewrite Hd, Hv.
    rewrite IH by (apply Z.mod_pos_bound; lia).
    f_equal. f_equal. rewrite Nat2Z.inj_succ, Z.pow_succ_r by lia.
    pose proof (Z.div_mod n (10 ^ Z.of_nat w) ltac:(lia)). nia.
Qed.

Lemma monthOfNumber_monthNumber (m : Month) : monthOfNumber (monthNumber m) = Some m.
Proof. destruct m; reflexivity. Qed.

Lemma monthNumber_range (m : Month) : 0 <= monthNumber m < 100.
Proof. destruct m; simpl; lia. Qed.

Lemma daysIn_range (m : Month) (y : Z) : daysIn m y <= 31.
Proof. destruct m; simpl; try lia. destruct (isLeap y); lia. Qed.

Lemma readDigits_2 (n : Z) (rest : string) :
  0 <= n < 100 -> readDigits 2 0 (printDigits 2 n +:+ rest) = Some (n, rest).
Proof.
  intros H. rewrite readDigits_printDigits by (change (10 ^ Z.of_nat 2) with 100; lia).
  reflexivity.
Qed.

Lemma readDigits_4 (n : Z) (rest : string) :
  0 <= n < 10000 -> readDigits 4 0 (printDigits 4 n +:+ rest) = Some (n, rest).
Proof.
  intros H. rewrite readDigits_printDigits by (change (10 ^ Z.of_nat 4) with 10000; lia).
  reflexivity.
Qed.

Lemma readDigits_9 (n : Z) (rest : string) :
  0 <= n < 1000000000 -> readDigits 9 0 (printDigits 9 n +:+ rest) = Some (n, rest).
Proof.
  intros H.
  rewrite readDigits_printDigits by (change (10 ^ Z.of_nat 9) with 1000000000; lia).
  reflexivity.
Qed.

Lemma expect_here (c : ascii) (rest : string) :
  expect c (String c EmptyString +:+ rest) = Some rest.
Proof. simpl. now rewrite Ascii.eqb_refl. Qed.

(** A normalised time is written, and what is written reads back. *)
Lemma parseTime_formatTime (a : Time.t) :
  Time.valid a = true -> exists s, formatTime a = Ok s /\ parseTime s = Ok a.
Proof.
  intros Hv. pose proof Hv as Hvalid. unfold Time.valid in Hv. bools Hv.
  unfold formatTime.
  assert (Hy : (0 <=? Time.Year a) && (Time.Year a <=? 9999) = true)
    by (apply andb_true_iff; split; assumption).
  rewrite Hy. eexists. split; [reflexivity|]. clear Hy. props.
  pose proof (monthNumber_range (Time.Month a)).
  pose proof (daysIn_range (Time.Month a) (Time.Year a)).
  unfold parseTime, readTime.
  rewrite readDigits_4, expect_here by lia.
  rewrite readDigits_2, expect_here by lia.
  rewrite readDigits_2, expect_here by lia.
  rewrite readDigits_2, expect_here by lia.
  rewrite readDigits_2, expect_here by lia.
  rewrite readDigits_2 by lia.
  destruct (Time.Nanosecond a =? 0) eqn:En.
  - change (readFraction "Z") with (Some (0, "Z")). cbv iota.
    rewrite monthOfNumber_monthNumber.
    apply Z.eqb_eq in En. rewrite <- En.
    replace (Time.mk _ _ _ _ _ _ _) with a by (destruct a; reflexivity).
    now rewrite Hvalid.
  - change (readFraction ("." +:+ printDigits 9 (Time.Nanosecond a) +:+ "Z"))
      with (readDigits 9 0 (printDigits 9 (Time.Nanosecond a) +:+ "Z")).
    rewrite readDigits_9 by lia. cbv iota.
    rewrite monthOfNumber_monthNumber.
    replace (Time.mk _ _ _ _ _ _ _) with a by (destruct a; reflexivity).
    now rewrite Hvalid.
Qed.

(** * The record codecs *)

Lemma statusOfName_statusName (st : Status) : statusOfName (statusName st) = Ok st.
Proof. destruct st; reflexivity. Qed.

Lemma mapM_asString (field : string) (l : list string) :
  mapM (asString field) (map JString l) = Ok l.
Proof. induction l as [|x l IH]; simpl; [reflexivity | now rewrite IH]. Qed.

Lemma decodeTrigger_encodeTrigger (tr : Trigger) :
  legalTrigger tr = true ->
  exists o, encodeTrigger (Some tr) = JObject o /\ decodeTrigger o = Ok tr.
Proof.
  unfold legalTrigger. intros H. apply String.eqb_eq in H.
  destruct tr as [[name tag]|[name tag b]]; simpl in H; subst tag;
    eexists; (split; [reflexivity|]); reflexivity.
Qed.

(** Reading a written run record gives the record back. *)
Lemma decodeRun_encodeRun (r : TaskRunMetadata.t) :
  legalRun r = true -> exists j, encodeRun r = Ok j /\ decodeRun j = Ok r.
Proof.
  unfold legalRun. intros H.
  apply andb_true_iff in H. destruct H as [H He].
  apply andb_true_iff in H. destruct H as [Ht Hs].
  destruct r as [id taskId name trigger triggerType status startTime endTime logs error].
  simpl in *. destruct trigger as [tr|]; [|discriminate].
  destruct (parseTime_formatTime _ Hs) as (s1 & Hf1 & Hp1).
  destruct (parseTime_formatTime _ He) as (s2 & Hf2 & Hp2).
  destruct (decodeTrigger_encodeTrigger tr Ht) as (o & Ho & Hd).
  unfold encodeRun. cbn -[encodeTrigger formatTime]. rewrite Hf1, Hf2, Ho.
  cbn -[encodeTrigger formatTime]. eexists. split; [reflexivity|].
  unfold decodeRun.
  cbn -[parseTime statusOfName decodeTrigger].
  rewrite Hd. cbn -[parseTime statusOfName decodeTrigger].
  rewrite statusOfName_statusName. cbn -[parseTime statusOfName decodeTrigger].
  rewrite Hp1, Hp2. cbn -[parseTime statusOfName decodeTrigger].
  rewrite mapM_asString. reflexivity.
Qed.

(** C5. For a run record with a trigger of either variant that carries its
    variant's tag, and with normalised times, [Marshal] succeeds and
    [Unmarshal] of its output returns a record equal to the original in
    every field; the decoded trigger's [Type()] is the variant's tag. *)
Theorem TaskRunMetadata_round_trip (r : TaskRunMetadata.t) (tr : Trigger) :
  TaskRunMetadata.Trigger r = Some tr ->
  legalRun r = true ->
  exists data r',
    Marshal r = Ok data /\
    Unmarshal data = Ok r' /\
    r' = r /\
    option_map Trigger_Type (TaskRunMetadata.Trigger r') = Some (variantTag tr).
Proof.
  intros Htr Hl. destruct (decodeRun_encodeRun r Hl) as (j & He & Hd).
  exists (printJSON j), r. simpl. rewrite He. simpl.
  rewrite parseJSON_printJSON. simpl. rewrite Hd.
  repeat split. rewrite Htr. simpl. f_equal.
  unfold legalRun in Hl. rewrite Htr in Hl.
  apply andb_true_iff in Hl. destruct Hl as [Hl _].
  apply andb_true_iff in Hl. destruct Hl as [Hl _].
  now apply String.eqb_eq in Hl.
Qed.

Lemma statusOfName_unknown (s : string) :
  knownStatus s = false -> statusOfName s = Err ("No such status: '" +:+ s +:+ "'").
Proof.
  unfold knownStatus, statusOfName. intros Hk.
  repeat (apply orb_false_iff in Hk; destruct Hk as [Hk ?]).
  repeat match goal with H : String.eqb _ _ = false |- _ => rewrite H; clear H end.
  reflexivity.
Qed.

(** C6. [Unmarshal] of a run record returns an error on a document without
    [name], without [trigger], with an array as [trigger], or with a
    [status] that is none of the four.  The message contains
    "Missing field 'name'" in the first case, and in the others
    "Missing field 'trigger'", "Wrong format of Trigger" and
    "No such status: '<value>'" when the checks made before pass. *)
Theorem Unmarshal_rejects_malformed_records (data : string) (o : list (string * json)) :
  let result : outcome TaskRunMetadata.t := Unmarshal data in
  parseJSON data = Ok (JObject o) ->
  (getField "name" o = None -> failsWith result "Missing field 'name'") /\
  (getField "trigger" o = None ->
   isOk result = false /\
   (getField "name" o <> None -> failsWith result "Missing field 'trigger'")) /\
  (forall elems, getField "trigger" o = Some (JArray elems) ->
   isOk result = false /\
   (getField "name" o <> None -> failsWith result "Wrong format of Trigger")) /\
  (forall status, getField "status" o = Some (JString status) ->
   knownStatus status = false ->
   isOk result = false /\
   (forall name members trigger,
      getField "name" o = Some (JString name) ->
      getField "trigger" o = Some (JObject members) ->
      decodeTrigger members = Ok trigger ->
      failsWith result ("No such status: '" +:+ status +:+ "'"))).
Proof.
  intros result Hp. subst result. simpl. rewrite Hp. simpl. repeat split.
  - intros Hn. rewrite Hn. apply failsWith_exact.
  - rewrite H. destruct (getField "name" o); reflexivity.
  - intros Hn. rewrite H. destruct (getField "name" o); [apply failsWith_exact | congruence].
  - rewrite H. destruct (getField "name" o); reflexivity.
  - intros Hn. rewrite H. destruct (getField "name" o); [apply failsWith_exact | congruence].
  - destruct (getField "name" o) as [jname|]; [|reflexivity].
    destruct (getField "trigger" o) as [[| | | |elems|members]|]; try reflexivity.
    destruct (asString "name" jname); try reflexivity. simpl.
    destruct (decodeTrigger members); try reflexivity. simpl.
    unfold optString. rewrite H. simpl. now rewrite statusOfName_unknown.
  - intros name members trigger Hn Ht Hd. rewrite Hn, Ht. simpl. rewrite Hd. simpl.
    unfold optString. rewrite H. simpl. rewrite statusOfName_unknown by assumption.
    apply failsWith_exact.
Qed.

(** ** A code point as text is never the decimal numeral *)

Lemma digit_or_minus_low (c : ascii) :
  isDigit c || (c =? "-")%char = true -> (N_of_ascii c < 64)%N.
Proof. each_ascii c; intros H; try discriminate H; reflexivity. Qed.

Lemma byteOf_high (x : Z) (s : string) :
  192 <= x < 256 -> startsWithDigitOrMinus (String (byteOf x) s) = false.
Proof.
  intros Hx. simpl. destruct (isDigit (byteOf x) || (byteOf x =? "-")%char) eqn:E; [|reflexivity].
  apply digit_or_minus_low in E. unfold byteOf in E.
  rewrite N_ascii_embedding in E by lia. lia.
Qed.

Lemma runeToString_high (i : Z) :
  i < 0 \/ 128 <= i -> startsWithDigitOrMinus (runeToString i) = false.
Proof.
  intros Hi. unfold runeToString. destruct (validRune i) eqn:Hv; [|reflexivity].
  unfold validRune in Hv.
  apply andb_true_iff in Hv. destruct Hv as [Hv _].
  apply andb_true_iff in Hv. destruct Hv as [H0 H1].
  apply Z.leb_le in H0, H1. unfold utf8.
  destruct (i <? 128) eqn:E1; [apply Z.ltb_lt in E1; lia|]. apply Z.ltb_ge in E1.
  destruct (i <? 2048) eqn:E2.
  { apply Z.ltb_lt in E2. apply byteOf_high.
    pose proof (Z.div_le_lower_bound i 64 2 ltac:(lia) ltac:(lia)).
    pose proof (Z.div_lt_upper_bound i 64 32 ltac:(lia) ltac:(lia)). lia. }
  apply Z.ltb_ge in E2.
  destruct (i <? 65536) eqn:E3.
  { apply Z.ltb_lt in E3. apply byteOf_high.
    pose proof (Z.div_pos i 4096 ltac:(lia) ltac:(lia)).
    pose proof (Z.div_lt_upper_bound i 4096 16 ltac:(lia) ltac:(lia)). lia. }
  apply Z.ltb_ge in E3. apply byteOf_high.
  pose proof (Z.div_pos i 262144 ltac:(lia) ltac:(lia)).
  pose proof (Z.div_lt_upper_bound i 262144 5 ltac:(lia) ltac:(lia)). lia.
Qed.

Lemma runeToString_low (i : Z) : 0 <= i < 128 -> runeToString i <> fmtD i.
Proof.
  intros Hi.
  assert (Hall : forallb (fun n => negb (String.eqb (runeToString (Z.of_nat n)) (fmtD (Z.of_nat n))))
                   (seq 0 128) = true) by (vm_compute; reflexivity).
  rewrite forallb_forall in Hall.
  specialize (Hall (Z.to_nat i)). rewrite Z2Nat.id in Hall by lia.
  intros E. rewrite E, String.eqb_refl in Hall.
  assert (Hin : In (Z.to_nat i) (seq 0 128)) by (apply in_seq; lia).
  specialize (Hall Hin). discriminate.
Qed.

Lemma runeToString_not_decimal (i : Z) : runeToString i <> fmtD i.
Proof.
  destruct (Z_lt_dec i 0) as [Hn|Hn]; [|destruct (Z_lt_dec i 128) as [Hl|Hl]].
  - intros E. pose proof (runeToString_high i (or_introl Hn)) as H.
    rewrite E, fmtD_head in H. discriminate.
  - apply runeToString_low. lia.
  - intros E. pose proof (runeToString_high i ltac:(lia)) as H.
    rewrite E, fmtD_head in H. discriminate.
Qed.

(** * Properties of the task manager *)

Section TaskManagerProperties.

Context {S : Type} `{!StorageProvider S}.
Context `{!Serializer TaskMetadata.t} `{!Serializer TaskRuns.t}
        `{!Serializer TaskRunMetadata.t}.

Implicit Types tm : TaskManager S.





Lemma runsByDateFrom_filter start recs : forall acc rs,
  mapM (Unmarshal (T := TaskRunMetadata.t)) recs = Ok rs ->
  runsByDateFrom start acc recs =
    Ok (acc ++ List.filter (fun r => Time.leb (TaskRunMetadata.StartTime r) start) rs).
Proof.
  induction recs as [|record rest IH]; intros acc rs Hm; simpl in *.
  - inversion Hm; subst. simpl. now rewrite app_nil_r.
  - destruct (Unmarshal record) as [taskRun|e|p]; simpl in Hm; try discriminate.
    destruct (mapM Unmarshal rest) as [rs'|e|p]; simpl in Hm; try discriminate.
    inversion Hm; subst. simpl. unfold Time.leb.
    destruct (Time.After (TaskRunMetadata.StartTime taskRun) start); simpl.
    + now apply IH.
    + rewrite (IH _ rs' eq_refl). now rewrite <- app_assoc.
Qed.

(** C1. [GetRunsByDate start end] returns the decoded records of the day
    scan whose start time is not after [start], in scan order: a record
    is kept iff [run.StartTime <= start], whatever [end] is. *)
Theorem GetRunsByDate_keeps_up_to_start tm start end_ recs rs :
  Get (storage tm) (dayPrefix start) true = Ok recs ->
  mapM (Unmarshal (T := TaskRunMetadata.t)) recs = Ok rs ->
  GetRunsByDate tm start end_ =
    Ok (List.filter (fun r => Time.leb (TaskRunMetadata.StartTime r) start) rs).
Proof.
  intros HG Hm. unfold GetRunsByDate. rewrite HG. simpl.
  now rewrite (runsByDateFrom_filter start recs [] rs Hm).
Qed.

(** C2. When the runs index lists the run and the point lookup of its
    detail key returns an empty result, [GetRunByID] indexes the empty
    result and panics. *)
Theorem GetRunByID_missing_detail_panics tm taskID runID doc more runs runRecord :
  Get (storage tm) (taskRunsKey taskID) false = Ok (doc :: more) ->
  Unmarshal doc = Ok runs ->
  findRun runID (TaskRuns.Runs runs) = Some runRecord ->
  Get (storage tm)
    (runMetadataKey (TaskRunSimple.DateCreated runRecord) taskID
       (TaskRunSimple.RunID runRecord)) false = Ok [] ->
  GetRunByID tm taskID runID = Panic indexOutOfRange.
Proof.
  intros HG HU HF HD. unfold GetRunByID. rewrite HG. simpl. rewrite HU. simpl.
  rewrite HF, HD. reflexivity.
Qed.

(** C3, as amended. When the lookup of the runs index fails with an error
    [e], [CreateTaskRun] and [GetRunByID] return the error
    "failed to fetch task: e", and [CreateTaskRun] leaves the store as it
    was. *)
Theorem missing_index_is_reported tm now name taskID trigger runID e :
  Get (storage tm) (taskRunsKey taskID) false = Err e ->
  CreateTaskRun tm now name taskID trigger = (tm, Err ("failed to fetch task: " +:+ e)) /\
  GetRunByID tm taskID runID = Err ("failed to fetch task: " +:+ e).
Proof.
  intros HG. unfold CreateTaskRun, GetRunByID. rewrite HG. split; reflexivity.
Qed.

(** C4. When the point lookup of the task key returns an empty result,
    [GetTaskByID] returns the error "task not found for id: " followed
    by [string(id)], the UTF-8 text of the code point [id]; that text is
    never the decimal numeral of [id]. *)
Theorem GetTaskByID_reports_code_point tm id :
  Get (storage tm) (GetTaskMetadataKey TASKMETADATA id) false = Ok [] ->
  GetTaskByID tm id = Err ("task not found for id: " +:+ runeToString id) /\
  runeToString id <> fmtD id.
Proof.
  intros HG. split; [|apply runeToString_not_decimal].
  unfold GetTaskByID. rewrite HG. reflexivity.
Qed.

(** C10, as amended. If some key listed under the task prefix has no
    "task_id=" in it, or the text between its first "task_id=" and the
    next one (or the end of the key) is not an integer that [Atoi]
    reads, [CreateTask] returns an error and leaves the store as it
    was. *)
Theorem CreateTask_blocked_by_unreadable_key tm now name tType target keys path :
  ListKeys (storage tm) (ToString TASKMETADATA) = Ok keys ->
  In path keys ->
  contains "task_id=" path = false \/
    isOk (Atoi (nth 1 (Split path "task_id=") "")) = false ->
  exists e, CreateTask tm now name tType target = (tm, Err e).
Proof.
  intros HL Hin Hbad. unfold CreateTask. rewrite HL.
  destruct keys as [|k rest]; [contradiction|].
  change ((length (k :: rest) =? 0)%nat) with false. cbv iota.
  destruct (getLatestIDFrom_malformed (k :: rest) path Hin) with (hi := -1) as [e He].
  { destruct Hbad as [Hc|Ha]; [left; now apply Split_without_separator | now right]. }
  unfold getLatestID. rewrite He. eauto.
Qed.

(** C7. In a store with no key under the task prefix, [CreateTask]
    returns a task with [ID = 1]; for a task whose runs index is empty,
    [CreateTaskRun] returns a run with [ID = 1].  Both are stated for
    the calls whose writes succeed. *)
Theorem first_identifiers_are_one tm now name tType tg st'
    tm2 now2 name2 taskID tr doc more runs st2' :
  let task := TaskMetadata.mk 1 name tType (Some tg) (TaskTarget_Type tg) now in
  let run := TaskRunMetadata.mk 1 taskID name2 (Some tr) (Trigger_Type tr) Pending now2
               Time.zero [] EmptyString in
  ListKeys (storage tm) (ToString TASKMETADATA) = Ok [] ->
  taskStored (storage tm) task st' ->
  Get (storage tm2) (taskRunsKey taskID) false = Ok (doc :: more) ->
  Unmarshal doc = Ok runs ->
  TaskRuns.Runs runs = [] ->
  runStored (storage tm2) taskID
    (TaskRuns.mk (TaskRuns.TaskID runs) [TaskRunSimple.mk 1 now2]) run st2' ->
  CreateTask tm now name tType (Some tg) = (NewTaskManager st', Ok task) /\
  TaskMetadata.ID task = 1 /\
  CreateTaskRun tm2 now2 name2 taskID (Some tr) = (NewTaskManager st2', Ok run) /\
  TaskRunMetadata.ID run = 1.
Proof.
  intros task run HL (d1 & st1 & d2 & HM1 & HS1 & HM2 & HS2) HG HU HR
    (sr & sm & st3 & HMr & HMm & HSr & HSm).
  repeat split.
  - unfold CreateTask. rewrite HL. simpl.
    change (wrapInt (0 + 1)) with 1. fold task. rewrite HM1. simpl in HS1. rewrite HS1.
    simpl in HM2. rewrite HM2. simpl in HS2. now rewrite HS2.
  - unfold CreateTaskRun. rewrite HG. simpl. rewrite HU.
    unfold getHighestRunID. rewrite HR. simpl. change (0 + 1) with 1. fold run.
    simpl in HMr. rewrite HMr, HMm, HSr.
    simpl in HSm. now rewrite HSm.
Qed.

(** What a successful [CreateTaskRun] read, computed and wrote. *)
Lemma CreateTaskRun_inv tm now name taskID trigger tm' md :
  CreateTaskRun tm now name taskID trigger = (tm', Ok md) ->
  exists doc more runs latestID tr,
    Get (storage tm) (taskRunsKey taskID) false = Ok (doc :: more) /\
    Unmarshal doc = Ok runs /\
    getHighestRunID runs = Ok latestID /\
    trigger = Some tr /\
    md = TaskRunMetadata.mk (latestID + 1) taskID name (Some tr) (Trigger_Type tr) Pending
           now Time.zero [] EmptyString /\
    runStored (storage tm) taskID
      (TaskRuns.mk (TaskRuns.TaskID runs)
         (TaskRuns.Runs runs ++ [TaskRunSimple.mk (latestID + 1) now])) md (storage tm').
Proof.
  unfold CreateTaskRun. intros H.
  destruct (Get (storage tm) (taskRunsKey taskID) false) as [key|e|p] eqn:HG;
    try discriminate H.
  destruct key as [|doc more]; simpl in H; try discriminate H.
  destruct (Unmarshal doc) as [runs|e|p] eqn:HU; try discriminate H.
  destruct (getHighestRunID runs) as [latestID|e|p] eqn:HH; try discriminate H.
  destruct trigger as [tr|]; try discriminate H.
  match type of H with
  | context [Marshal ?x] => destruct (Marshal x) as [sruns|e|p] eqn:HMr; try discriminate H
  end.
  match type of H with
  | context [Marshal ?x] => destruct (Marshal x) as [smeta|e|p] eqn:HMm; try discriminate H
  end.
  destruct (SetValue (storage tm) (taskRunsKey taskID) sruns) as [st1 [e|]] eqn:HS1;
    try discriminate H.
  match type of H with
  | context [SetValue st1 ?k ?v] =>
      destruct (SetValue st1 k v) as [st2 [e|]] eqn:HS2; try discriminate H
  end.
  inversion H; subst. exists doc, more, runs, latestID, tr.
  split; [reflexivity|]. split; [assumption|]. split; [assumption|].
  split; [reflexivity|]. split; [reflexivity|].
  exists sruns, smeta, st1. simpl. auto.
Qed.



End TaskManagerProperties.

(** * The theorems at work on the scenarios *)

(** C1 on [twoRuns], with [start] at noon and [end] in the evening: the
    morning run, outside the range, is returned; the afternoon run,
    inside it, is not. *)
Lemma GetRunsByDate_noon_to_evening :
  GetRunsByDate twoRuns noon evening = Ok [earlyRun] /\
  withinRange noon evening (TaskRunMetadata.StartTime earlyRun) = false /\
  withinRange noon evening (TaskRunMetadata.StartTime lateRun) = true.
Proof.
  split; [|split; reflexivity].
  rewrite (GetRunsByDate_keeps_up_to_start twoRuns noon evening
             (map snd (keysUnder (dayPrefix noon) (memory (storage twoRuns))))
             [earlyRun; lateRun]).
  - reflexivity.
  - vm_compute. reflexivity.
  - vm_compute. reflexivity.
Defined.

(** C2 on [orphanIndex]: the index of task 1 lists run 1, its detail key
    is gone, and [GetRunByID] panics. *)
Lemma GetRunByID_orphan_index_panics :
  memory (storage orphanIndex) !! runMetadataKey afternoon 1 1 = None /\
  GetRunByID orphanIndex 1 1 = Panic indexOutOfRange.
Proof.
  split; [vm_compute; reflexivity|].
  apply (GetRunByID_missing_detail_panics orphanIndex 1 1
           (match Get (storage orphanIndex) (taskRunsKey 1) false with
            | Ok (doc :: _) => doc
            | _ => EmptyString
            end)
           [] (TaskRuns.mk 1 [TaskRunSimple.mk 1 afternoon]) (TaskRunSimple.mk 1 afternoon));
    vm_compute; reflexivity.
Defined.

(** C3: with no runs index for task 1, a strict store makes both
    operations return the lookup error, and a store that answers a missing
    key with an empty result makes both panic; neither goes on as with an
    empty index. *)
Lemma missing_index_is_not_an_empty_index :
  strict (storage emptyStrict) !! taskRunsKey 1 = None /\
  (CreateTaskRun emptyStrict noon "first" 1 (Some sampleTrigger)).2 =
    Err "failed to fetch task: key not found: /tasks/runs/task_id=1" /\
  GetRunByID emptyStrict 1 1 =
    Err "failed to fetch task: key not found: /tasks/runs/task_id=1" /\
  memory (storage emptyMemory) !! taskRunsKey 1 = None /\
  (CreateTaskRun emptyMemory noon "first" 1 (Some sampleTrigger)).2 = Panic indexOutOfRange /\
  GetRunByID emptyMemory 1 1 = Panic indexOutOfRange.
Proof. repeat split; vm_compute; reflexivity. Qed.

Lemma missing_index_is_reported_strict :
  CreateTaskRun emptyStrict noon "first" 1 (Some sampleTrigger) =
    (emptyStrict, Err ("failed to fetch task: " +:+ "key not found: /tasks/runs/task_id=1")) /\
  GetRunByID emptyStrict 1 1 =
    Err ("failed to fetch task: " +:+ "key not found: /tasks/runs/task_id=1").
Proof.
  apply (missing_index_is_reported emptyStrict noon "first" 1 (Some sampleTrigger) 1).
  vm_compute. reflexivity.
Defined.

(** C4 at id 65: the message ends in "A". *)
Lemma GetTaskByID_65_reports_A :
  GetTaskByID emptyMemory 65 = Err ("task not found for id: " +:+ runeToString 65) /\
  runeToString 65 <> fmtD 65.
Proof.
  apply (GetTaskByID_reports_code_point emptyMemory 65). vm_compute. reflexivity.
Defined.

(** C5 at the two records of the serialization test. *)
Lemma test_records_round_trip :
  (exists data r',
     Marshal oneOffRun = Ok data /\ Unmarshal data = Ok r' /\ r' = oneOffRun /\
     option_map Trigger_Type (TaskRunMetadata.Trigger r') = Some oneOffTrigger) /\
  (exists data r',
     Marshal dummyRun = Ok data /\ Unmarshal data = Ok r' /\ r' = dummyRun /\
     option_map Trigger_Type (TaskRunMetadata.Trigger r') = Some dummyTrigger).
Proof.
  split.
  - apply (TaskRunMetadata_round_trip oneOffRun
             (OneOff (OneOffTrigger.mk "name1" oneOffTrigger))); reflexivity.
  - apply (TaskRunMetadata_round_trip dummyRun
             (Dummy (DummyTrigger.mk "name2" dummyTrigger true))); reflexivity.
Defined.

(** C6 at the four documents of the corrupt-data test. *)
Lemma test_documents_are_rejected :
  failsWith (Unmarshal (printJSON (JObject withoutName)) : outcome TaskRunMetadata.t)
    "Missing field 'name'" /\
  failsWith (Unmarshal (printJSON (JObject withoutTrigger)) : outcome TaskRunMetadata.t)
    "Missing field 'trigger'" /\
  failsWith (Unmarshal (printJSON (JObject arrayTrigger)) : outcome TaskRunMetadata.t)
    "Wrong format of Trigger" /\
  failsWith (Unmarshal (printJSON (JObject unknownStatus)) : outcome TaskRunMetadata.t)
    ("No such status: '" +:+ "NOSTATUS" +:+ "'").
Proof.
  repeat split.
  - apply (proj1 (Unmarshal_rejects_malformed_records _ withoutName
                    (parseJSON_printJSON _))).
    reflexivity.
  - apply (proj2 (proj1 (proj2 (Unmarshal_rejects_malformed_records _ withoutTrigger
                                  (parseJSON_printJSON _))) eq_refl)).
    discriminate.
  - apply (proj2 (proj1 (proj2 (proj2 (Unmarshal_rejects_malformed_records _ arrayTrigger
                                         (parseJSON_printJSON _))))
                    [JString "name8"; JString "DummyTrigger"; JBool false] eq_refl)).
    discriminate.
  - apply (proj2 (proj2 (proj2 (proj2 (Unmarshal_rejects_malformed_records _ unknownStatus
                                         (parseJSON_printJSON _))))
                    "NOSTATUS" eq_refl eq_refl)
             "invalid_json_file" triggerMembers
             (OneOff (OneOffTrigger.mk "name5" oneOffTrigger))); reflexivity.
Defined.

(** C7 in the empty store, and for the first run of the task created
    there. *)
Lemma first_task_and_first_run :
  CreateTask emptyMemory morning "etl" "ResourceCreation" (Some sampleTarget) =
    (oneTask, Ok firstTask) /\
  TaskMetadata.ID firstTask = 1 /\
  CreateTaskRun oneTask afternoon "late" 1 (Some sampleTrigger) = (oneRun, Ok firstRun) /\
  TaskRunMetadata.ID firstRun = 1.
Proof.
  refine (first_identifiers_are_one emptyMemory morning "etl" "ResourceCreation" sampleTarget
            (storage oneTask) oneTask afternoon "late" 1 sampleTrigger
            (match Get (storage oneTask) (taskRunsKey 1) false with
             | Ok (doc :: _) => doc
             | _ => EmptyString
             end) [] (TaskRuns.mk 1 []) (storage oneRun) _ _ _ _ _ _).
  - vm_compute. reflexivity.
  - eexists _, _, _. repeat split; reflexivity.
  - vm_compute. reflexivity.
  - vm_compute. reflexivity.
  - reflexivity.
  - eexists _, _, _. repeat split; reflexivity.
Defined.



(** C10: the one key under the task prefix goes on after "task_id=" with
    "7task_id=x", which is no integer, and [CreateTask] still succeeds,
    with id 8, and writes the new task. *)
Lemma two_markers_do_not_block :
  ListKeys (storage doubleMarkerStore) (ToString TASKMETADATA) = Ok [twoMarkers] /\
  twoMarkers = "/tasks/metadata/" +:+ "task_id=" +:+ "7task_id=x" /\
  isOk (Atoi "7task_id=x") = false /\
  isOk (Atoi "x") = false /\
  exists tm' task,
    CreateTask doubleMarkerStore morning "etl" "ResourceCreation" (Some sampleTarget) =
      (tm', Ok task) /\
    TaskMetadata.ID task = 8 /\
    memory (storage tm') !! GetTaskMetadataKey TASKMETADATA 8 <> None.
Proof.
  repeat split; try (vm_compute; reflexivity).
  eexists _, _. split; [vm_compute; reflexivity|]. split; [reflexivity|].
  vm_compute. discriminate.
Qed.

Lemma unreadable_key_blocks :
  exists e,
    CreateTask unreadableKeyStore morning "etl" "ResourceCreation" (Some sampleTarget) =
      (unreadableKeyStore, Err e).
Proof.
  apply (CreateTask_blocked_by_unreadable_key unreadableKeyStore morning "etl"
           "ResourceCreation" (Some sampleTarget) [unreadableKey] unreadableKey).
  - vm_compute. reflexivity.
  - now left.
  - right. vm_compute. reflexivity.
Defined.

(** * The key layout *)

Lemma allDigits_numeral (s : string) : allDigits s = true -> numeral s = true.
Proof.
  induction s as [|c s IH]; simpl; [reflexivity|]. intros H.
  apply andb_true_iff in H. destruct H as [Hc Hs]. unfold isNumeralChar.
  now rewrite Hc, IH.
Qed.

Lemma fmtD_numeral (z : Z) : numeral (fmtD z) = true.
Proof.
  destruct z as [|p|p].
  - reflexivity.
  - rewrite fmtD_pos. apply allDigits_numeral, string_of_uint_digits.
  - rewrite fmtD_neg. simpl. apply allDigits_numeral, string_of_uint_digits.
Qed.

Lemma fmtD_inj (a b : Z) : fmtD a = fmtD b -> a = b.
Proof.
  intros H. unfold fmtD in H.
  assert (Hr : forall z, NilZero.int_of_string (NilZero.string_of_int (Z.to_int z)) =
                         Some (Z.to_int z)).
  { intros z. apply NilZero.isi; destruct z as [|p|p]; simpl; try discriminate;
      intros E; inversion E as [E']; exact (DecimalPos.Unsigned.to_uint_nonnil p E'). }
  pose proof (Hr a) as Ha. rewrite H, Hr in Ha. inversion Ha as [E].
  rewrite <- (DecimalZ.of_to a), <- (DecimalZ.of_to b). now rewrite E.
Qed.

(** A numeral followed by a character that is no part of a numeral
    determines both the numeral and what follows. *)
Lemma numeral_split (a a' : string) (c c' : ascii) (x x' : string) :
  numeral a = true -> numeral a' = true ->
  isNumeralChar c = false -> isNumeralChar c' = false ->
  a +:+ String c x = a' +:+ String c' x' ->
  a = a' /\ c = c' /\ x = x'.
Proof.
  revert a'. induction a as [|d a IH]; intros [|d' a'] Ha Ha' Hc Hc' E; simpl in *.
  - inversion E. auto.
  - inversion E; subst. apply andb_true_iff in Ha'. destruct Ha' as [Hd _]. congruence.
  - inversion E; subst. apply andb_true_iff in Ha. destruct Ha as [Hd _]. congruence.
  - inversion E; subst.
    apply andb_true_iff in Ha, Ha'. destruct Ha as [_ Ha]. destruct Ha' as [_ Ha'].
    destruct (IH a' Ha Ha' Hc Hc' ltac:(assumption)) as (-> & -> & ->). auto.
Qed.

Lemma fmtD_split (a b : Z) (c : ascii) (x y : string) :
  isNumeralChar c = false ->
  fmtD a +:+ String c x = fmtD b +:+ String c y -> a = b /\ x = y.
Proof.
  intros Hc E.
  destruct (numeral_split _ _ _ _ _ _ (fmtD_numeral a) (fmtD_numeral b) Hc Hc E) as (H & _ & ->).
  split; [now apply fmtD_inj | reflexivity].
Qed.

Lemma monthName_split (m m' : Month) (x y : string) :
  monthName m +:+ String "/" x = monthName m' +:+ String "/" y -> m = m' /\ x = y.
Proof.
  destruct m, m'; simpl; intros E; try discriminate E; inversion E; auto.
Qed.

Lemma runMetadataKey_inj (d d' : Time.t) (t t' : TaskID) (r r' : TaskRunID) :
  runMetadataKey d t r = runMetadataKey d' t' r' ->
  Time.Year d = Time.Year d' /\ Time.Month d = Time.Month d' /\ Time.Day d = Time.Day d' /\
  t = t' /\ r = r'.
Proof.
  unfold runMetadataKey, dayPrefix. rewrite !append_assoc. simpl. intros E.
  apply (String.app_inj "tasks/runs/metadata/") in E.
  apply fmtD_split in E; [|reflexivity]. destruct E as [HY E].
  apply monthName_split in E. destruct E as [HM E].
  apply fmtD_split in E; [|reflexivity]. destruct E as [HD E].
  apply (String.app_inj "task_id=") in E.
  apply fmtD_split in E; [|reflexivity]. destruct E as [HT E].
  apply (String.app_inj "run_id=") in E. apply fmtD_inj in E. auto.
Qed.

(** ** Prefixes of keys *)

Lemma hasPrefix_append_r (p s rest : string) :
  hasPrefix p s = true -> hasPrefix p (s +:+ rest) = true.
Proof.
  revert s. induction p as [|a p IH]; intros [|b s] H; simpl in *; try discriminate; auto.
  apply andb_true_iff in H. destruct H as [-> H]. simpl. now apply IH.
Qed.

Lemma hasPrefix_append_both (a p s : string) :
  hasPrefix (a +:+ p) (a +:+ s) = hasPrefix p s.
Proof. induction a as [|c a IH]; simpl; [reflexivity|]. now rewrite Ascii.eqb_refl. Qed.

(** ** Reading a number that [%d] wrote *)

Lemma numeralChar_not_marker (c : ascii) (s : string) :
  isNumeralChar c = true -> hasPrefix "task_id=" (String c s) = false.
Proof. unfold isNumeralChar. each_ascii c; intros H; try discriminate H; reflexivity. Qed.

Lemma splitFrom_numeral (s : string) : forall cur,
  numeral s = true -> splitFrom "task_id=" O cur s = [String.rev_app cur s].
Proof.
  induction s as [|c s IH]; intros cur H; [reflexivity|].
  simpl in H. apply andb_true_iff in H. destruct H as [Hc Hs].
  change (splitFrom "task_id=" O cur (String c s)) with
    (if hasPrefix "task_id=" (String c s)
     then String.rev cur :: splitFrom "task_id=" 7 EmptyString s
     else splitFrom "task_id=" O (String c cur) s).
  rewrite (numeralChar_not_marker c s Hc). now rewrite IH.
Qed.

(** The key of task [id] splits into the prefix and the numeral. *)
Lemma Split_task_key (id : TaskID) :
  Split (GetTaskMetadataKey TASKMETADATA id) "task_id=" = ["/tasks/metadata/"; fmtD id].
Proof.
  unfold Split, GetTaskMetadataKey, TASKMETADATA.
  change (splitFrom "task_id=" O "" ("/tasks/metadata/task_id=" +:+ fmtD id)) with
    ("/tasks/metadata/" :: splitFrom "task_id=" O "" (fmtD id)).
  now rewrite splitFrom_numeral by apply fmtD_numeral.
Qed.

Lemma digit_not_sign (c : ascii) :
  isDigit c = true -> (c =? "-")%char = false /\ (c =? "+")%char = false.
Proof. each_ascii c; intros H; try discriminate H; split; reflexivity. Qed.

Lemma Atoi_digits (c : ascii) (ds : string) :
  isDigit c = true ->
  Atoi (String c ds) =
  match NilEmpty.uint_of_string (String c ds) with
  | None => Err (atoiError (String c ds) "invalid syntax")
  | Some u =>
      if (minInt <=? Z.of_uint u) && (Z.of_uint u <=? maxInt) then Ok (Z.of_uint u)
      else Err (atoiError (String c ds) "value out of range")
  end.
Proof. each_ascii c; intros H; try discriminate H; reflexivity. Qed.

(** [Atoi] reads back what [%d] writes of a number in the range of [int]. *)
Lemma Atoi_fmtD (z : Z) : minInt <= z <= maxInt -> Atoi (fmtD z) = Ok z.
Proof.
  intros Hz.
  assert (Hb : (minInt <=? z) && (z <=? maxInt) = true)
    by (apply andb_true_iff; split; apply Z.leb_le; lia).
  destruct z as [|p|p].
  - reflexivity.
  - rewrite fmtD_pos.
    pose proof (string_of_uint_digits (Pos.to_uint p)) as Hd.
    pose proof (string_of_uint_nonempty _ (DecimalPos.Unsigned.to_uint_nonnil p)) as He.
    pose proof (NilEmpty.usu (Pos.to_uint p)) as Hu.
    destruct (NilEmpty.string_of_uint (Pos.to_uint p)) as [|c ds]; [congruence|].
    simpl in Hd. apply andb_true_iff in Hd. destruct Hd as [Hc _].
    rewrite (Atoi_digits c ds Hc), Hu. unfold Z.of_uint.
    rewrite DecimalPos.Unsigned.of_to. simpl Z.of_N. now rewrite Hb.
  - rewrite fmtD_neg.
    pose proof (string_of_uint_nonempty _ (DecimalPos.Unsigned.to_uint_nonnil p)) as He.
    pose proof (NilEmpty.usu (Pos.to_uint p)) as Hu.
    unfold Atoi.
    destruct (NilEmpty.string_of_uint (Pos.to_uint p)) as [|c ds] eqn:E; [congruence|].
    rewrite Hu. unfold Z.of_uint. rewrite DecimalPos.Unsigned.of_to.
    simpl Z.of_N. change (- Z.pos p) with (Z.neg p). now rewrite Hb.
Qed.

(** ** The scan for the latest task id *)

Lemma running_max (a b : Z) : (if a >? b then a else b) = Z.max b a.
Proof.
  rewrite Z.gtb_ltb. destruct (b <? a) eqn:E;
    [apply Z.ltb_lt in E | apply Z.ltb_ge in E]; lia.
Qed.

Lemma getLatestIDFrom_cons (hi : Z) (path : string) (rest : list string) :
  getLatestIDFrom hi (path :: rest) =
  if (length (Split path "task_id=") <? 2)%nat then Err ("invalid format for path: " +:+ path)
  else
    match Atoi (nth 1 (Split path "task_id=") "") with
    | Ok increment => getLatestIDFrom (if increment >? hi then increment else hi) rest
    | Err e => Err ("failed to convert task_id to integer: " +:+ e)
    | Panic p => Panic p
    end.
Proof. reflexivity. Qed.

Lemma getLatestIDFrom_taskKeys (ids : list TaskID) : forall hi,
  Forall (fun id => minInt <= id <= maxInt) ids ->
  getLatestIDFrom hi (taskKeys ids) =
  if maxFrom hi ids =? -1 then Err "no valid increments found" else Ok (maxFrom hi ids).
Proof.
  induction ids as [|id ids IH]; intros hi Hr; [reflexivity|].
  inversion Hr as [|? ? Hid Hrest]; subst.
  change (taskKeys (id :: ids)) with (GetTaskMetadataKey TASKMETADATA id :: taskKeys ids).
  rewrite getLatestIDFrom_cons, Split_task_key.
  change (nth 1 ["/tasks/metadata/"; fmtD id] "") with (fmtD id).
  change ((length ["/tasks/metadata/"; fmtD id] <? 2)%nat) with false.
  cbv iota. rewrite (Atoi_fmtD id Hid).
  rewrite (running_max id hi), IH by assumption. reflexivity.
Qed.

Lemma maxFrom_ge (ids : list TaskID) : forall hi, hi <= maxFrom hi ids.
Proof.
  induction ids as [|id ids IH]; intros hi; unfold maxFrom in *; simpl; [lia|].
  specialize (IH (Z.max hi id)). lia.
Qed.

Lemma maxFrom_bound (ids : list TaskID) : forall hi id,
  In id ids -> id <= maxFrom hi ids.
Proof.
  induction ids as [|x ids IH]; intros hi id Hin; [contradiction|].
  unfold maxFrom in *. simpl. destruct Hin as [->|Hin].
  - pose proof (maxFrom_ge ids (Z.max hi id)). unfold maxFrom in *. lia.
  - now apply IH.
Qed.

Lemma maxFrom_attained (ids : list TaskID) : forall hi,
  maxFrom hi ids = hi \/ In (maxFrom hi ids) ids.
Proof.
  induction ids as [|x ids IH]; intros hi; unfold maxFrom in *; simpl; [now left|].
  destruct (IH (Z.max hi x)) as [E|Hin]; [|now right; right].
  rewrite E. destruct (Z.max_spec hi x) as [[_ ->]|[_ ->]]; [right; now left | now left].
Qed.

(** X8. Over the keys of tasks with ids in the range of [int],
    [getLatestID] returns the largest id when some id is not negative,
    and the error "no valid increments found" when every id is negative
    or there is no key. *)
Theorem getLatestID_is_maximum (ids : list TaskID) :
  Forall inIntRange ids ->
  (forall m, In m ids -> 0 <= m -> (forall id, In id ids -> id <= m) ->
     getLatestID (taskKeys ids) = Ok m) /\
  ((forall id, In id ids -> id < 0) ->
     getLatestID (taskKeys ids) = Err "no valid increments found").
Proof.
  intros Hr. unfold getLatestID. rewrite (getLatestIDFrom_taskKeys ids (-1) Hr).
  pose proof (maxFrom_ge ids (-1)) as Hge.
  pose proof (maxFrom_attained ids (-1)) as Hat.
  remember (maxFrom (-1) ids) as hi eqn:Ehi. split.
  - intros m Hin Hm Hmax. pose proof (maxFrom_bound ids (-1) m Hin) as Hb. rewrite <- Ehi in Hb.
    assert (E : hi = m) by (destruct Hat as [->|Hat]; [lia | specialize (Hmax _ Hat); lia]).
    subst hi. rewrite E. destruct (m =? -1) eqn:E1; [apply Z.eqb_eq in E1; lia | reflexivity].
  - intros Hneg. assert (E : hi = -1) by (destruct Hat as [->|Hat]; [reflexivity | specialize (Hneg _ Hat); lia]).
    now rewrite E.
Qed.

(** ** Keys of different kinds *)

Lemma task_key_inj (id id' : TaskID) :
  GetTaskMetadataKey TASKMETADATA id = GetTaskMetadataKey TASKMETADATA id' -> id = id'.
Proof.
  unfold GetTaskMetadataKey, TASKMETADATA. intros E.
  apply String.app_inj in E. now apply fmtD_inj.
Qed.

Lemma taskRunsKey_inj (id id' : TaskID) : taskRunsKey id = taskRunsKey id' -> id = id'.
Proof.
  unfold taskRunsKey. intros E. apply String.app_inj in E. now apply fmtD_inj.
Qed.

Lemma task_key_not_index_key (id id' : TaskID) :
  GetTaskMetadataKey TASKMETADATA id <> taskRunsKey id'.
Proof. unfold GetTaskMetadataKey, TASKMETADATA, taskRunsKey. simpl. discriminate. Qed.

Lemma run_key_not_index_key (d : Time.t) (t : TaskID) (r : TaskRunID) (id : TaskID) :
  runMetadataKey d t r <> taskRunsKey id.
Proof. unfold runMetadataKey, dayPrefix, taskRunsKey. simpl. discriminate. Qed.

Lemma run_key_not_task_key (d : Time.t) (t : TaskID) (r : TaskRunID) (id : TaskID) :
  runMetadataKey d t r <> GetTaskMetadataKey TASKMETADATA id.
Proof. unfold runMetadataKey, dayPrefix, GetTaskMetadataKey, TASKMETADATA. simpl. discriminate. Qed.

(** The id [CreateTask] starts from, over the keys of the tasks [ids]. *)
Lemma latestID_of_taskKeys (ids : list TaskID) (latestID : Z) :
  Forall inIntRange ids ->
  (if (length (taskKeys ids) =? 0)%nat then Ok 0 else getLatestID (taskKeys ids)) = Ok latestID ->
  latestID = Z.max 0 (maxFrom (-1) ids) /\ (ids <> [] -> latestID = maxFrom (-1) ids).
Proof.
  intros Hr HI. destruct ids as [|id rest].
  - simpl in HI. inversion HI; subst. split; [reflexivity | intros C; now destruct C].
  - change ((length (taskKeys (id :: rest)) =? 0)%nat) with false in HI.
    unfold getLatestID in HI. rewrite (getLatestIDFrom_taskKeys _ (-1) Hr) in HI.
    pose proof (maxFrom_ge (id :: rest) (-1)) as Hge.
    remember (maxFrom (-1) (id :: rest)) as m eqn:Em.
    destruct (m =? -1) eqn:E; [discriminate HI|].
    apply Z.eqb_neq in E. inversion HI; subst latestID. split; [lia | reflexivity].
Qed.

Lemma numeralChar_eqb (c c' : ascii) :
  isNumeralChar c = true -> isNumeralChar c' = false -> (c =? c')%char = false.
Proof.
  intros H H'. destruct (c =? c')%char eqn:E; [|reflexivity].
  apply Ascii.eqb_eq in E. congruence.
Qed.

Lemma hasPrefix_numeral_sep (a : string) : forall a' c c' x y,
  numeral a = true -> numeral a' = true ->
  isNumeralChar c = false -> isNumeralChar c' = false ->
  hasPrefix (a +:+ String c x) (a' +:+ String c' y) = true ->
  a = a' /\ c = c' /\ hasPrefix x y = true.
Proof.
  induction a as [|d a IH]; intros [|d' a'] c c' x y Ha Ha' Hc Hc' H; simpl in *.
  - apply andb_true_iff in H. destruct H as [E H]. apply Ascii.eqb_eq in E. auto.
  - apply andb_true_iff in Ha'. destruct Ha' as [Hd _].
    apply andb_true_iff in H. destruct H as [E _]. apply Ascii.eqb_eq in E. congruence.
  - apply andb_true_iff in Ha. destruct Ha as [Hd _].
    apply andb_true_iff in H. destruct H as [E _]. apply Ascii.eqb_eq in E. congruence.
  - apply andb_true_iff in Ha, Ha', H.
    destruct Ha as [_ Ha]. destruct Ha' as [_ Ha']. destruct H as [E H].
    apply Ascii.eqb_eq in E. subst d'.
    destruct (IH a' c c' x y Ha Ha' Hc Hc' H) as (-> & -> & Hp). auto.
Qed.

Lemma hasPrefix_numeral_end (a : string) : forall a' c' y,
  numeral a = true -> isNumeralChar c' = false ->
  hasPrefix a (a' +:+ String c' y) = hasPrefix a a'.
Proof.
  induction a as [|d a IH]; intros [|d' a'] c' y Ha Hc'; simpl in *; try reflexivity.
  - apply andb_true_iff in Ha. destruct Ha as [Hd _].
    now rewrite (numeralChar_eqb d c' Hd Hc').
  - apply andb_true_iff in Ha. destruct Ha as [_ Ha]. now rewrite IH.
Qed.

Lemma hasPrefix_monthName (m m' : Month) (x y : string) :
  hasPrefix (monthName m +:+ String "/" x) (monthName m' +:+ String "/" y) = true ->
  m = m' /\ hasPrefix x y = true.
Proof. destruct m, m'; simpl; intros E; try discriminate E; auto. Qed.

(** The key of a run lies under a day prefix exactly when year and month
    agree and the numeral of the prefix's day starts the numeral of the
    run's day. *)
Lemma dayPrefix_reach (d d' : Time.t) (t : TaskID) (r : TaskRunID) :
  hasPrefix (dayPrefix d) (runMetadataKey d' t r) = true <->
  Time.Year d = Time.Year d' /\ Time.Month d = Time.Month d' /\
  hasPrefix (fmtD (Time.Day d)) (fmtD (Time.Day d')) = true.
Proof.
  unfold runMetadataKey, dayPrefix. rewrite !append_assoc.
  rewrite (hasPrefix_append_both "tasks/runs/metadata/").
  split.
  - intros H.
    apply hasPrefix_numeral_sep in H; try apply fmtD_numeral; try reflexivity.
    destruct H as (HY & _ & H). apply fmtD_inj in HY.
    apply hasPrefix_monthName in H. destruct H as [HM H].
    change ("/task_id=" +:+ fmtD t +:+ "/run_id=" +:+ fmtD r)
      with (String "/" ("task_id=" +:+ fmtD t +:+ "/run_id=" +:+ fmtD r)) in H.
    rewrite hasPrefix_numeral_end in H; [auto | apply fmtD_numeral | reflexivity].
  - intros (-> & -> & H).
    rewrite hasPrefix_append_both.
    change ("/" +:+ monthName (Time.Month d') +:+ "/" +:+ fmtD (Time.Day d))
      with ("/" +:+ (monthName (Time.Month d') +:+ "/" +:+ fmtD (Time.Day d))).
    change ("/" +:+ monthName (Time.Month d') +:+ "/" +:+ fmtD (Time.Day d') +:+
            "/task_id=" +:+ fmtD t +:+ "/run_id=" +:+ fmtD r)
      with ("/" +:+ (monthName (Time.Month d') +:+ "/" +:+ fmtD (Time.Day d') +:+
            "/task_id=" +:+ fmtD t +:+ "/run_id=" +:+ fmtD r)).
    rewrite (hasPrefix_append_both "/"), hasPrefix_append_both.
    rewrite (hasPrefix_append_both "/").
    now apply hasPrefix_append_r.
Qed.

Lemma monthDays_spec (z : Z) : 1 <= z <= 31 -> In z monthDays.
Proof.
  intros Hz. unfold monthDays. apply in_map_iff. exists (Z.to_nat z).
  split; [lia|]. apply in_seq. lia.
Qed.

Lemma dayReached_table :
  forallb (fun d => forallb (fun d' =>
    Bool.eqb (hasPrefix (fmtD d) (fmtD d')) (dayReached d d')) monthDays) monthDays = true.
Proof. vm_compute. reflexivity. Qed.

Lemma dayReached_spec (d d' : Z) :
  1 <= d <= 31 -> 1 <= d' <= 31 -> hasPrefix (fmtD d) (fmtD d') = dayReached d d'.
Proof.
  intros Hd Hd'. pose proof dayReached_table as T.
  rewrite forallb_forall in T. specialize (T d (monthDays_spec d Hd)).
  rewrite forallb_forall in T. specialize (T d' (monthDays_spec d' Hd')).
  now apply Bool.eqb_prop in T.
Qed.

(** X7. The scan of [GetRunsByDate] for a day reaches the run keys of that
    day and of the days whose number goes on after the day's number: the
    scan for the 1st also reads the 10th to the 19th, the scan for the 2nd
    the 20th to the 29th, the scan for the 3rd the 30th and the 31st. *)
Theorem GetRunsByDate_scan_reach (d d' : Time.t) (t : TaskID) (r : TaskRunID) :
  1 <= Time.Day d <= 31 -> 1 <= Time.Day d' <= 31 ->
  (hasPrefix (dayPrefix d) (runMetadataKey d' t r) = true <->
   Time.Year d = Time.Year d' /\ Time.Month d = Time.Month d' /\
   (Time.Day d' = Time.Day d \/ Time.Day d' / 10 = Time.Day d)).
Proof.
  intros Hd Hd'. rewrite dayPrefix_reach, (dayReached_spec _ _ Hd Hd').
  unfold dayReached. rewrite orb_true_iff, !Z.eqb_eq. reflexivity.
Qed.

(** X5. The three families of keys are apart: the key of a task, the index
    key of a task and the detail key of a run are never equal, and each
    family gives different keys to different ids. *)
Theorem key_families_are_apart (id id' : TaskID) (d d' : Time.t) (t t' : TaskID)
    (r r' : TaskRunID) :
  GetTaskMetadataKey TASKMETADATA id <> taskRunsKey id' /\
  runMetadataKey d t r <> taskRunsKey id /\
  runMetadataKey d t r <> GetTaskMetadataKey TASKMETADATA id /\
  (GetTaskMetadataKey TASKMETADATA id = GetTaskMetadataKey TASKMETADATA id' <-> id = id') /\
  (taskRunsKey id = taskRunsKey id' <-> id = id') /\
  (runMetadataKey d t r = runMetadataKey d' t' r' <->
   Time.Year d = Time.Year d' /\ Time.Month d = Time.Month d' /\ Time.Day d = Time.Day d' /\
   t = t' /\ r = r').
Proof.
  split; [apply task_key_not_index_key|].
  split; [apply run_key_not_index_key|].
  split; [apply run_key_not_task_key|].
  split; [split; [apply task_key_inj | now intros ->]|].
  split; [split; [apply taskRunsKey_inj | now intros ->]|].
  split; [apply runMetadataKey_inj|].
  intros (HY & HM & HD & -> & ->). unfold runMetadataKey, dayPrefix. now rewrite HY, HM, HD.
Qed.

(** X6. What the prefix scans reach: the scan under the task prefix
    reaches every task key, no index key and no run key; the scan of
    [GetAllTaskRuns] reaches every run key; a scan under the constant
    [TASKRUNMETADATA], which starts with a slash, reaches no run key. *)
Theorem prefix_scans_reach (id : TaskID) (d : Time.t) (t : TaskID) (r : TaskRunID) :
  hasPrefix (ToString TASKMETADATA) (GetTaskMetadataKey TASKMETADATA id) = true /\
  hasPrefix (ToString TASKMETADATA) (taskRunsKey id) = false /\
  hasPrefix (ToString TASKMETADATA) (runMetadataKey d t r) = false /\
  hasPrefix "tasks/runs/metadata" (runMetadataKey d t r) = true /\
  hasPrefix (dayPrefix d) (runMetadataKey d t r) = true /\
  hasPrefix (GetTaskRunsMetadataKey TASKRUNMETADATA) (runMetadataKey d t r) = false /\
  GetTaskRunsKey TASKRUNS id = taskRunsKey id.
Proof.
  split; [apply prefix_append|].
  split; [reflexivity|]. split; [reflexivity|].
  split; [apply (prefix_append "tasks/runs/metadata")|].
  split; [|split; reflexivity].
  unfold runMetadataKey. apply prefix_append.
Qed.

(** * Filtering and the scans *)

Lemma Status_eqb_eq (a b : Status) : Status_eqb a b = true <-> a = b.
Proof. destruct a, b; simpl; split; intros H; try reflexivity; try discriminate H. Qed.

Lemma filterByStatusFrom_filter status trl : forall newList,
  filterByStatusFrom status newList trl =
  newList ++ List.filter (fun run => Status_eqb (TaskRunMetadata.Status run) status) trl.
Proof.
  induction trl as [|run rest IH]; intros newList; simpl.
  - now rewrite app_nil_r.
  - destruct (Status_eqb (TaskRunMetadata.Status run) status); rewrite IH.
    + now rewrite <- app_assoc.
    + reflexivity.
Qed.

(** X1. [FilterByStatus] keeps the runs with the given status, each as
    often as it occurs and in their order, and no other; to filter again
    changes nothing, and to filter by another status leaves nothing. *)
Theorem FilterByStatus_keeps_status trl status :
  FilterByStatus trl status =
    List.filter (fun run => Status_eqb (TaskRunMetadata.Status run) status) trl /\
  (forall run, In run (FilterByStatus trl status) <->
               In run trl /\ TaskRunMetadata.Status run = status) /\
  FilterByStatus (FilterByStatus trl status) status = FilterByStatus trl status /\
  (forall other, other <> status -> FilterByStatus (FilterByStatus trl status) other = []).
Proof.
  assert (E : forall l s, FilterByStatus l s =
                List.filter (fun run => Status_eqb (TaskRunMetadata.Status run) s) l).
  { intros l s. unfold FilterByStatus. now rewrite filterByStatusFrom_filter. }
  split; [apply E|]. split; [|split].
  - intros run. rewrite E, List.filter_In, Status_eqb_eq. reflexivity.
  - rewrite !E. induction trl as [|run rest IH]; simpl; [reflexivity|].
    destruct (Status_eqb (TaskRunMetadata.Status run) status) eqn:Hs; simpl;
      [rewrite Hs; now f_equal | exact IH].
  - intros other Hne. rewrite !E. induction trl as [|run rest IH]; simpl; [reflexivity|].
    destruct (Status_eqb (TaskRunMetadata.Status run) status) eqn:Hs; simpl; [|exact IH].
    apply Status_eqb_eq in Hs.
    destruct (Status_eqb (TaskRunMetadata.Status run) other) eqn:Ho; [|exact IH].
    apply Status_eqb_eq in Ho. congruence.
Qed.

Section Scans.

Context {S : Type} `{!StorageProvider S}.
Context `{!Serializer TaskMetadata.t} `{!Serializer TaskRuns.t}
        `{!Serializer TaskRunMetadata.t}.

Implicit Types tm : TaskManager S.

Lemma allTasksFrom_decoded recs : forall tml rs,
  mapM (Unmarshal (T := TaskMetadata.t)) recs = Ok rs ->
  allTasksFrom tml recs = Ok (tml ++ rs).
Proof.
  induction recs as [|m rest IH]; intros tml rs Hm; simpl in *.
  - inversion Hm; subst. now rewrite app_nil_r.
  - destruct (Unmarshal m) as [t|e|p]; simpl in Hm; try discriminate.
    destruct (mapM Unmarshal rest) as [rs'|e|p]; simpl in Hm; try discriminate.
    inversion Hm; subst. rewrite (IH _ rs' eq_refl). now rewrite <- app_assoc.
Qed.

Lemma allTasksFrom_first_failure good : forall tml rs bad rest e,
  mapM (Unmarshal (T := TaskMetadata.t)) good = Ok rs ->
  Unmarshal (T := TaskMetadata.t) bad = Err e ->
  allTasksFrom tml (good ++ bad :: rest) = Err e.
Proof.
  induction good as [|m good IH]; intros tml rs bad rest e Hm Hb; simpl in *.
  - now rewrite Hb.
  - destruct (Unmarshal m) as [t|e'|p]; simpl in Hm; try discriminate.
    destruct (mapM Unmarshal good) as [rs'|e'|p]; simpl in Hm; try discriminate.
    now apply (IH _ rs').
Qed.

Lemma allTaskRunsFrom_decoded recs : forall runs rs,
  mapM (Unmarshal (T := TaskRunMetadata.t)) recs = Ok rs ->
  allTaskRunsFrom runs recs = Ok (runs ++ rs).
Proof.
  induction recs as [|m rest IH]; intros runs rs Hm; simpl in *.
  - inversion Hm; subst. now rewrite app_nil_r.
  - destruct (Unmarshal m) as [t|e|p]; simpl in Hm; try discriminate.
    destruct (mapM Unmarshal rest) as [rs'|e|p]; simpl in Hm; try discriminate.
    inversion Hm; subst. rewrite (IH _ rs' eq_refl). now rewrite <- app_assoc.
Qed.

Lemma allTaskRunsFrom_first_failure good : forall runs rs bad rest e,
  mapM (Unmarshal (T := TaskRunMetadata.t)) good = Ok rs ->
  Unmarshal (T := TaskRunMetadata.t) bad = Err e ->
  allTaskRunsFrom runs (good ++ bad :: rest) = Err ("failed to unmarshal run record: " +:+ e).
Proof.
  induction good as [|m good IH]; intros runs rs bad rest e Hm Hb; simpl in *.
  - now rewrite Hb.
  - destruct (Unmarshal m) as [t|e'|p]; simpl in Hm; try discriminate.
    destruct (mapM Unmarshal good) as [rs'|e'|p]; simpl in Hm; try discriminate.
    now apply (IH _ rs').
Qed.

Lemma runsByDateFrom_first_failure start good : forall runs rs bad rest e,
  mapM (Unmarshal (T := TaskRunMetadata.t)) good = Ok rs ->
  Unmarshal (T := TaskRunMetadata.t) bad = Err e ->
  runsByDateFrom start runs (good ++ bad :: rest) =
    Err ("failed to unmarshal run record: " +:+ e).
Proof.
  induction good as [|m good IH]; intros runs rs bad rest e Hm Hb; simpl in *.
  - now rewrite Hb.
  - destruct (Unmarshal m) as [t|e'|p]; simpl in Hm; try discriminate.
    destruct (mapM Unmarshal good) as [rs'|e'|p]; simpl in Hm; try discriminate.
    destruct (Time.After (TaskRunMetadata.StartTime t) start); now apply (IH _ rs').
Qed.

(** X2. [GetAllTasks] returns the records under the task prefix, decoded
    and in scan order, when all of them decode; the first record that does
    not decode makes the call return that record's error as it is, and
    none of the tasks. *)
Theorem GetAllTasks_all_or_nothing tm recs :
  Get (storage tm) (ToString TASKMETADATA) true = Ok recs ->
  (forall tasks, mapM (Unmarshal (T := TaskMetadata.t)) recs = Ok tasks ->
     GetAllTasks tm = Ok tasks) /\
  (forall good bad rest tasks e,
     recs = good ++ bad :: rest ->
     mapM (Unmarshal (T := TaskMetadata.t)) good = Ok tasks ->
     Unmarshal (T := TaskMetadata.t) bad = Err e ->
     GetAllTasks tm = Err e).
Proof.
  intros HG. unfold GetAllTasks. rewrite HG. simpl. split.
  - intros tasks Hm. now rewrite (allTasksFrom_decoded recs [] tasks Hm).
  - intros good bad rest tasks e -> Hm Hb. now apply (allTasksFrom_first_failure good [] tasks).
Qed.

(** X3. [GetAllTaskRuns] returns the records under "tasks/runs/metadata",
    decoded and in scan order, when all of them decode; the first record
    that does not decode makes the call return
    "failed to unmarshal run record: e", and none of the runs. *)
Theorem GetAllTaskRuns_all_or_nothing tm recs :
  Get (storage tm) "tasks/runs/metadata" true = Ok recs ->
  (forall runs, mapM (Unmarshal (T := TaskRunMetadata.t)) recs = Ok runs ->
     GetAllTaskRuns tm = Ok runs) /\
  (forall good bad rest runs e,
     recs = good ++ bad :: rest ->
     mapM (Unmarshal (T := TaskRunMetadata.t)) good = Ok runs ->
     Unmarshal (T := TaskRunMetadata.t) bad = Err e ->
     GetAllTaskRuns tm = Err ("failed to unmarshal run record: " +:+ e)).
Proof.
  intros HG. unfold GetAllTaskRuns. rewrite HG. simpl. split.
  - intros runs Hm. now rewrite (allTaskRunsFrom_decoded recs [] runs Hm).
  - intros good bad rest runs e -> Hm Hb.
    now apply (allTaskRunsFrom_first_failure good [] runs).
Qed.

(** X4. [GetRunsByDate] fails on the first record of the day scan that
    does not decode, whatever that record's start time would be. *)
Theorem GetRunsByDate_first_failure tm start end_ good bad rest runs e :
  Get (storage tm) (dayPrefix start) true = Ok (good ++ bad :: rest) ->
  mapM (Unmarshal (T := TaskRunMetadata.t)) good = Ok runs ->
  Unmarshal (T := TaskRunMetadata.t) bad = Err e ->
  GetRunsByDate tm start end_ = Err ("failed to unmarshal run record: " +:+ e).
Proof.
  intros HG Hm Hb. unfold GetRunsByDate. rewrite HG. simpl.
  now apply (runsByDateFrom_first_failure start good [] runs).
Qed.

End Scans.

(** * Creating and reading back *)

Section Composition.

Context {S : Type} `{!StorageProvider S}.
Context `{!Serializer TaskMetadata.t} `{!Serializer TaskRuns.t}
        `{!Serializer TaskRunMetadata.t}.

Implicit Types tm : TaskManager S.

(** What a successful [CreateTask] read, computed and wrote. *)
Lemma CreateTask_inv tm now name tType target tm' task :
  CreateTask tm now name tType target = (tm', Ok task) ->
  exists keys latestID tg,
    ListKeys (storage tm) (ToString TASKMETADATA) = Ok keys /\
    (if (length keys =? 0)%nat then Ok 0 else getLatestID keys) = Ok latestID /\
    target = Some tg /\
    task = TaskMetadata.mk (wrapInt (latestID + 1)) name tType (Some tg) (TaskTarget_Type tg) now /\
    taskStored (storage tm) task (storage tm').
Proof.
  unfold CreateTask. intros H.
  destruct (ListKeys (storage tm) (ToString TASKMETADATA)) as [keys|e|p] eqn:HL;
    try discriminate H.
  destruct (if (length keys =? 0)%nat then Ok 0 else getLatestID keys) as [latestID|e|p] eqn:HI;
    try discriminate H.
  destruct target as [tg|]; try discriminate H.
  cbv zeta in H.
  match type of H with
  | context [Marshal ?x] => destruct (Marshal x) as [smeta|e|p] eqn:HMm; try discriminate H
  end.
  match type of H with
  | context [SetValue (storage tm) ?k ?v] =>
      destruct (SetValue (storage tm) k v) as [st1 [e|]] eqn:HS1; try discriminate H
  end.
  match type of H with
  | context [Marshal ?x] => destruct (Marshal x) as [sruns|e|p] eqn:HMr; try discriminate H
  end.
  match type of H with
  | context [SetValue st1 ?k ?v] =>
      destruct (SetValue st1 k v) as [st2 [e|]] eqn:HS2; try discriminate H
  end.
  inversion H; subst. exists keys, latestID, tg.
  split; [reflexivity|]. split; [exact HI|]. split; [reflexivity|]. split; [reflexivity|].
  exists smeta, st1, sruns. simpl. auto.
Qed.

(** The point lookups after the two writes of [CreateTask]. *)
Lemma taskStored_lookups (st st' : S) (task : TaskMetadata.t) :
  lawfulStorage S -> taskStored st task st' ->
  exists smeta sruns,
    Marshal task = Ok smeta /\
    Marshal (TaskRuns.mk (TaskMetadata.ID task) []) = Ok sruns /\
    Get st' (GetTaskMetadataKey TASKMETADATA (TaskMetadata.ID task)) false = Ok [smeta] /\
    Get st' (taskRunsKey (TaskMetadata.ID task)) false = Ok [sruns] /\
    forall k, k <> GetTaskMetadataKey TASKMETADATA (TaskMetadata.ID task) ->
              k <> taskRunsKey (TaskMetadata.ID task) ->
              Get st' k false = Get st k false.
Proof.
  intros Hlaw (smeta & st1 & sruns & HM1 & HS1 & HM2 & HS2).
  destruct (Hlaw _ _ _ _ HS1) as [G1 F1]. destruct (Hlaw _ _ _ _ HS2) as [G2 F2].
  exists smeta, sruns. repeat split; try assumption.
  - rewrite F2 by apply task_key_not_index_key. exact G1.
  - intros k Hk1 Hk2. now rewrite F2, F1.
Qed.

(** The point lookups after the two writes of [CreateTaskRun]. *)
Lemma runStored_lookups (st st' : S) taskID runs (md : TaskRunMetadata.t) :
  lawfulStorage S -> runStored st taskID runs md st' ->
  exists sruns smeta,
    Marshal runs = Ok sruns /\ Marshal md = Ok smeta /\
    Get st' (taskRunsKey taskID) false = Ok [sruns] /\
    Get st' (runMetadataKey (TaskRunMetadata.StartTime md) taskID (TaskRunMetadata.ID md))
      false = Ok [smeta] /\
    forall k, k <> taskRunsKey taskID ->
              k <> runMetadataKey (TaskRunMetadata.StartTime md) taskID (TaskRunMetadata.ID md) ->
              Get st' k false = Get st k false.
Proof.
  intros Hlaw (sruns & smeta & st1 & HM1 & HM2 & HS1 & HS2).
  destruct (Hlaw _ _ _ _ HS1) as [G1 F1]. destruct (Hlaw _ _ _ _ HS2) as [G2 F2].
  exists sruns, smeta. repeat split; try assumption.
  - rewrite F2; [exact G1|]. intros E. symmetry in E. exact (run_key_not_index_key _ _ _ _ E).
  - intros k Hk1 Hk2. now rewrite F2, F1.
Qed.

(** X10. A task that [CreateTask] returned is what [GetTaskByID] returns
    for its id, on a store that reads back what was written and a codec
    that decodes the record it encoded. *)
Theorem CreateTask_then_GetTaskByID tm now name tType target tm' task :
  lawfulStorage S ->
  decodesBack task ->
  CreateTask tm now name tType target = (tm', Ok task) ->
  GetTaskByID tm' (TaskMetadata.ID task) = Ok task.
Proof.
  intros Hlaw Hdec H. apply CreateTask_inv in H.
  destruct H as (keys & latestID & tg & _ & _ & _ & _ & HW).
  destruct (taskStored_lookups _ _ _ Hlaw HW) as (smeta & sruns & HM & _ & HG & _ & _).
  unfold GetTaskByID. cbv zeta. rewrite HG. simpl. now apply Hdec.
Qed.

(** X11. The first run of a task just created has id 1 and the index
    written for it holds that one run. *)
Theorem CreateTask_then_first_run tm now name tType target tm' task
    now2 name2 trigger tm'' md :
  lawfulStorage S ->
  decodesBack (TaskRuns.mk (TaskMetadata.ID task) []) ->
  CreateTask tm now name tType target = (tm', Ok task) ->
  CreateTaskRun tm' now2 name2 (TaskMetadata.ID task) trigger = (tm'', Ok md) ->
  TaskRunMetadata.ID md = 1 /\
  TaskRunMetadata.TaskId md = TaskMetadata.ID task /\
  runStored (storage tm') (TaskMetadata.ID task)
    (TaskRuns.mk (TaskMetadata.ID task) [TaskRunSimple.mk 1 now2]) md (storage tm'').
Proof.
  intros Hlaw Hdec H1 H2. apply CreateTask_inv in H1.
  destruct H1 as (keys & latestID & tg & _ & _ & _ & _ & HW).
  destruct (taskStored_lookups _ _ _ Hlaw HW) as (smeta & sruns & _ & HM & _ & HG & _).
  apply CreateTaskRun_inv in H2.
  destruct H2 as (doc & more & runs & hi & tr & HG2 & HU & HH & -> & -> & HW2).
  rewrite HG in HG2. inversion HG2; subst doc more.
  rewrite (Hdec _ HM) in HU. inversion HU; subst runs.
  unfold getHighestRunID in HH. simpl in HH. inversion HH; subst hi.
  change (0 + 1) with 1 in *. simpl. auto.
Qed.








(** X14. A successful [CreateTaskRun] changes the point lookup of no key
    but the task's index key and the new run's detail key; it changes no
    task record, no index and no run of another task. *)
Theorem CreateTaskRun_frame tm now name taskID trigger tm' md :
  lawfulStorage S ->
  CreateTaskRun tm now name taskID trigger = (tm', Ok md) ->
  (forall id, GetTaskByID tm' id = GetTaskByID tm id) /\
  (forall taskID' runID, taskID' <> taskID ->
     GetRunByID tm' taskID' runID = GetRunByID tm taskID' runID).
Proof.
  intros Hlaw H. apply CreateTaskRun_inv in H.
  destruct H as (doc & more & runs & hi & tr & HG & HU & HH & -> & -> & HW).
  destruct (runStored_lookups _ _ _ _ _ Hlaw HW) as (sruns & smeta & _ & _ & _ & _ & HF).
  simpl in HF. split.
  - intros id. unfold GetTaskByID. cbv zeta. rewrite HF; [reflexivity| |].
    + apply task_key_not_index_key.
    + intros E. symmetry in E. exact (run_key_not_task_key _ _ _ _ E).
  - intros taskID' runID Hne. unfold GetRunByID. rewrite HF.
    + destruct (Get (storage tm) (taskRunsKey taskID') false) as [key|e|p]; try reflexivity.
      simpl. destruct (index0 key) as [first|e|p]; try reflexivity. simpl.
      destruct (Unmarshal first) as [rs|e|p]; try reflexivity. simpl.
      destruct (findRun runID (TaskRuns.Runs rs)) as [rr|]; [|reflexivity].
      rewrite HF; [reflexivity| |].
      * apply run_key_not_index_key.
      * intros E. apply runMetadataKey_inj in E. destruct E as (_ & _ & _ & E & _).
        contradiction.
    + intros E. apply taskRunsKey_inj in E. contradiction.
    + intros E. symmetry in E. exact (run_key_not_index_key _ _ _ _ E).
Qed.

(** X15. A successful [CreateTask] changes no other task's record. *)
Theorem CreateTask_frame tm now name tType target tm' task :
  lawfulStorage S ->
  CreateTask tm now name tType target = (tm', Ok task) ->
  forall id, id <> TaskMetadata.ID task -> GetTaskByID tm' id = GetTaskByID tm id.
Proof.
  intros Hlaw H id Hne. apply CreateTask_inv in H.
  destruct H as (keys & latestID & tg & _ & _ & _ & _ & HW).
  destruct (taskStored_lookups _ _ _ Hlaw HW) as (smeta & sruns & _ & _ & _ & _ & HF).
  unfold GetTaskByID. cbv zeta. rewrite HF; [reflexivity| |].
  - intros E. apply task_key_inj in E. contradiction.
  - apply task_key_not_index_key.
Qed.

(** X9. Over the keys of tasks, [CreateTask] returns the largest id plus
    one, which is above the id of every task. *)
Theorem CreateTask_returns_next_id tm now name tType target tm' task ids :
  ListKeys (storage tm) (ToString TASKMETADATA) = Ok (taskKeys ids) ->
  ids <> [] ->
  Forall inIntRange ids ->
  maxFrom (-1) ids < maxInt ->
  CreateTask tm now name tType target = (tm', Ok task) ->
  TaskMetadata.ID task = maxFrom (-1) ids + 1 /\
  forall id, In id ids -> id < TaskMetadata.ID task.
Proof.
  intros HL Hne Hr Hmax H. apply CreateTask_inv in H.
  destruct H as (keys & latestID & tg & HL' & HI & _ & -> & _).
  rewrite HL in HL'. inversion HL'; subst keys.
  destruct (latestID_of_taskKeys ids latestID Hr HI) as [E1 E2]. specialize (E2 Hne).
  assert (Hw : wrapInt (latestID + 1) = maxFrom (-1) ids + 1).
  { unfold wrapInt, maxInt in *. rewrite Z.mod_small; lia. }
  simpl. rewrite Hw. split; [reflexivity|].
  intros id Hin. pose proof (maxFrom_bound ids (-1) id Hin). lia.
Qed.

End Composition.

(** * The task manager over the store in memory *)

Lemma MemoryStorage_lawful : lawfulStorage MemoryStorage.
Proof.
  intros st st' k v H. simpl in H. inversion H; subst. simpl. split.
  - now rewrite lookup_insert_eq.
  - intros k' Hne. now rewrite lookup_insert_ne by congruence.
Qed.

Lemma StrictStorage_lawful : lawfulStorage StrictStorage.
Proof.
  intros st st' k v H. simpl in H. inversion H; subst. simpl. split.
  - now rewrite lookup_insert_eq.
  - intros k' Hne. now rewrite lookup_insert_ne by congruence.
Qed.

Lemma MemoryStorage_reliable : reliableStorage MemoryStorage.
Proof. intros st k v. reflexivity. Qed.

Lemma MemoryStorage_point (st : MemoryStorage) (k v : string) :
  Get st k false = Ok [v] -> memory st !! k = Some v.
Proof. simpl. destruct (memory st !! k); intros H; inversion H; reflexivity. Qed.

Lemma keysUnder_elem (p : string) (m : gmap string string) (k v : string) :
  (k, v) ∈ keysUnder p m <-> m !! k = Some v /\ hasPrefix p k = true.
Proof.
  unfold keysUnder. rewrite list_elem_of_filter, elem_of_map_to_list. simpl. tauto.
Qed.

Lemma scan_value (st : MemoryStorage) (p k v : string) :
  memory st !! k = Some v -> hasPrefix p k = true ->
  exists recs, Get st p true = Ok recs /\ In v recs.
Proof.
  intros Hk Hp. eexists. split; [reflexivity|].
  apply in_map_iff. exists (k, v). split; [reflexivity|].
  apply list_elem_of_In, keysUnder_elem. auto.
Qed.

Lemma scan_key (m : gmap string string) (p k : string) :
  In k (map fst (keysUnder p m)) <-> is_Some (m !! k) /\ hasPrefix p k = true.
Proof.
  rewrite in_map_iff. split.
  - intros ([k' v] & <- & Hin). apply list_elem_of_In, keysUnder_elem in Hin.
    destruct Hin as [Hk Hp]. simpl. eauto.
  - intros [[v Hk] Hp]. exists (k, v). split; [reflexivity|].
    apply list_elem_of_In, keysUnder_elem. auto.
Qed.

Lemma scan_keys_NoDup (m : gmap string string) (p : string) :
  NoDup (map fst (keysUnder p m)).
Proof.
  unfold keysUnder.
  apply (sublist_NoDup _ (map fst (map_to_list m))).
  - apply NoDup_fst_map_to_list.
  - apply (fmap_sublist fst), sublist_filter.
Qed.

(** A write under a key outside the prefix leaves the keys of the scan
    as they are, up to their order. *)
Lemma scan_keys_insert_outside (m : gmap string string) (p k v : string) :
  hasPrefix p k = false ->
  Permutation (map fst (keysUnder p (<[k := v]> m))) (map fst (keysUnder p m)).
Proof.
  intros Hp. apply NoDup_Permutation; try apply scan_keys_NoDup.
  intros x. rewrite !list_elem_of_In, !scan_key.
  split; intros [Hs Hx]; (split; [|exact Hx]).
  - rewrite lookup_insert_ne in Hs; [exact Hs | congruence].
  - rewrite lookup_insert_ne; [exact Hs | congruence].
Qed.

(** A write under a new key inside the prefix adds that key. *)
Lemma scan_keys_insert_new (m : gmap string string) (p k v : string) :
  hasPrefix p k = true -> m !! k = None ->
  Permutation (map fst (keysUnder p (<[k := v]> m))) (k :: map fst (keysUnder p m)).
Proof.
  intros Hp Hk. apply NoDup_Permutation.
  - apply scan_keys_NoDup.
  - apply NoDup_cons. split; [|apply scan_keys_NoDup].
    rewrite list_elem_of_In, scan_key. intros [[w Hw] _]. congruence.
  - intros x. rewrite elem_of_cons, !list_elem_of_In, !scan_key. split.
    + intros [Hs Hx]. destruct (decide (x = k)) as [->|Hne]; [now left|].
      right. rewrite lookup_insert_ne in Hs by congruence. auto.
    + intros [->|[Hs Hx]].
      * rewrite lookup_insert_eq. eauto.
      * split; [|exact Hx]. destruct (decide (x = k)) as [->|Hne].
        -- rewrite lookup_insert_eq. eauto.
        -- now rewrite lookup_insert_ne by congruence.
Qed.

Lemma taskKeys_In (ids : list TaskID) (id : TaskID) :
  In (GetTaskMetadataKey TASKMETADATA id) (taskKeys ids) <-> In id ids.
Proof.
  unfold taskKeys. rewrite in_map_iff. split.
  - intros (id' & E & Hin). apply task_key_inj in E. now subst.
  - intros Hin. eauto.
Qed.

Lemma maxFrom_Permutation (ids ids' : list TaskID) (hi : Z) :
  Permutation ids ids' -> maxFrom hi ids = maxFrom hi ids'.
Proof.
  intros HP.
  assert (A : forall l l', Permutation l l' -> maxFrom hi l <= maxFrom hi l').
  { intros l l' P. destruct (maxFrom_attained l hi) as [E|Hin].
    - rewrite E. apply maxFrom_ge.
    - apply maxFrom_bound. now apply (Permutation_in _ P). }
  pose proof (A _ _ HP). pose proof (A _ _ (Permutation_sym HP)). lia.
Qed.

Lemma Forall_Permutation_range (ids ids' : list TaskID) :
  Permutation ids' ids -> Forall inIntRange ids -> Forall inIntRange ids'.
Proof.
  intros HP HF. apply List.Forall_forall. intros x Hin.
  rewrite List.Forall_forall in HF. apply HF. now apply (Permutation_in _ HP).
Qed.

Lemma holdsTasks_of_keys (tm : TaskManager MemoryStorage) (ids : list TaskID) :
  Permutation (map fst (keysUnder (ToString TASKMETADATA) (memory (storage tm)))) (taskKeys ids) ->
  holdsTasks tm ids.
Proof.
  intros HP. apply Permutation_map_inv in HP. destruct HP as (ids' & E & HP).
  exists ids'. split; [now apply Permutation_sym|]. simpl. now rewrite E.
Qed.

(** X16. In the store in memory, when the keys under the task prefix are
    the keys of the tasks [ids], [CreateTask] returns the largest id plus
    one (1 when there is no task) and the keys under the prefix become
    those of the new task and of [ids]. *)
Theorem CreateTask_extends_tasks `{!Serializer TaskMetadata.t} `{!Serializer TaskRuns.t}
    (tm : TaskManager MemoryStorage) now name tType target tm' task ids :
  holdsTasks tm ids ->
  Forall inIntRange ids ->
  maxFrom (-1) ids < maxInt ->
  CreateTask tm now name tType target = (tm', Ok task) ->
  TaskMetadata.ID task = Z.max 0 (maxFrom (-1) ids) + 1 /\
  ~ In (TaskMetadata.ID task) ids /\
  holdsTasks tm' (TaskMetadata.ID task :: ids).
Proof.
  intros (ids' & HP & HL) Hr Hmax H.
  pose proof (Forall_Permutation_range _ _ HP Hr) as Hr'.
  pose proof (maxFrom_Permutation _ _ (-1) HP) as Hm.
  assert (Hid : TaskMetadata.ID task = Z.max 0 (maxFrom (-1) ids) + 1 /\
                ~ In (TaskMetadata.ID task) ids).
  { pose proof H as H0. apply CreateTask_inv in H0.
    destruct H0 as (keys & latestID & tg & HL' & HI & _ & -> & _).
    rewrite HL in HL'. inversion HL'; subst keys.
    destruct (latestID_of_taskKeys ids' latestID Hr' HI) as [E1 _].
    pose proof (maxFrom_ge ids (-1)) as Hge.
    assert (Hw : wrapInt (latestID + 1) = Z.max 0 (maxFrom (-1) ids) + 1).
    { unfold wrapInt, maxInt in *. rewrite Z.mod_small; lia. }
    simpl. rewrite Hw. split; [reflexivity|].
    intros Hin. pose proof (maxFrom_bound ids (-1) _ Hin). lia. }
  destruct Hid as [Hid Hfresh]. split; [exact Hid|]. split; [exact Hfresh|].
  apply CreateTask_inv in H. destruct H as (keys & latestID & tg & _ & _ & _ & _ & HW).
  destruct HW as (smeta & st1 & sruns & _ & HS1 & _ & HS2).
  simpl in HS1, HS2. inversion HS1; subst st1. inversion HS2 as [E2]. simpl in E2.
  assert (EL : map fst (keysUnder (ToString TASKMETADATA) (memory (storage tm))) = taskKeys ids')
    by (injection HL; auto).
  apply holdsTasks_of_keys. rewrite <- E2. simpl.
  rewrite scan_keys_insert_outside by reflexivity.
  rewrite scan_keys_insert_new.
  - rewrite EL.
    change (taskKeys (TaskMetadata.ID task :: ids))
      with (GetTaskMetadataKey TASKMETADATA (TaskMetadata.ID task) :: taskKeys ids).
    constructor. unfold taskKeys. now apply Permutation_map.
  - apply prefix_append.
  - destruct (memory (storage tm) !! GetTaskMetadataKey TASKMETADATA (TaskMetadata.ID task))
      as [w|] eqn:Ew; [|reflexivity].
    exfalso. apply Hfresh. apply (Permutation_in _ HP).
    apply (proj1 (taskKeys_In ids' (TaskMetadata.ID task))).
    rewrite <- EL. apply scan_key. split; [eauto|].
    apply prefix_append.
Qed.

(** X17. In the store in memory, [CreateTaskRun] leaves the keys under the
    task prefix as they are: the next task id does not depend on the
    runs created. *)
Theorem CreateTaskRun_keeps_tasks `{!Serializer TaskRuns.t} `{!Serializer TaskRunMetadata.t}
    (tm : TaskManager MemoryStorage) now name taskID trigger tm' md ids :
  holdsTasks tm ids ->
  CreateTaskRun tm now name taskID trigger = (tm', Ok md) ->
  holdsTasks tm' ids.
Proof.
  intros (ids' & HP & HL) H. apply CreateTaskRun_inv in H.
  destruct H as (doc & more & runs & hi & tr & _ & _ & _ & _ & _ & HW).
  destruct HW as (sruns & smeta & st1 & _ & _ & HS1 & HS2).
  simpl in HS1, HS2. inversion HS1; subst st1. inversion HS2 as [E2]. simpl in E2.
  apply holdsTasks_of_keys. rewrite <- E2. simpl.
  rewrite scan_keys_insert_outside
    by reflexivity.
  rewrite scan_keys_insert_outside by reflexivity.
  assert (EL : map fst (keysUnder (ToString TASKMETADATA) (memory (storage tm))) = taskKeys ids')
    by (injection HL; auto).
  rewrite EL. unfold taskKeys. now apply Permutation_map.
Qed.

Lemma lexCompare_refl (xs : list Z) : Time.lexCompare xs xs = Eq.
Proof. induction xs as [|x xs IH]; simpl; [reflexivity|]. now rewrite Z.compare_refl. Qed.

Lemma After_irrefl (a : Time.t) : Time.After a a = false.
Proof. unfold Time.After, Time.compare. now rewrite lexCompare_refl. Qed.

Section Listing.

Context `{!Serializer TaskMetadata.t} `{!Serializer TaskRuns.t}
        `{!Serializer TaskRunMetadata.t}.

Implicit Types tm : TaskManager MemoryStorage.

Lemma allTasksFrom_lists recs : forall tml tasks,
  allTasksFrom tml recs = Ok tasks ->
  (forall x, In x tml -> In x tasks) /\
  (forall rec x, In rec recs -> Unmarshal rec = Ok x -> In x tasks).
Proof.
  induction recs as [|m rest IH]; intros tml tasks H; simpl in H.
  - inversion H; subst. split; [auto | intros ? ? []].
  - destruct (Unmarshal m) as [t|e|p] eqn:E; try discriminate H.
    destruct (IH _ _ H) as [A B]. split.
    + intros x Hin. apply A, in_or_app. now left.
    + intros rec x [<-|Hin] Hx.
      * rewrite E in Hx. inversion Hx; subst. apply A, in_or_app. right. now left.
      * now apply (B rec).
Qed.

Lemma allTaskRunsFrom_lists recs : forall acc runs,
  allTaskRunsFrom acc recs = Ok runs ->
  (forall x, In x acc -> In x runs) /\
  (forall rec x, In rec recs -> Unmarshal rec = Ok x -> In x runs).
Proof.
  induction recs as [|m rest IH]; intros acc runs H; simpl in H.
  - inversion H; subst. split; [auto | intros ? ? []].
  - destruct (Unmarshal m) as [t|e|p] eqn:E; try discriminate H.
    destruct (IH _ _ H) as [A B]. split.
    + intros x Hin. apply A, in_or_app. now left.
    + intros rec x [<-|Hin] Hx.
      * rewrite E in Hx. inversion Hx; subst. apply A, in_or_app. right. now left.
      * now apply (B rec).
Qed.

Lemma runsByDateFrom_lists start recs : forall acc runs,
  runsByDateFrom start acc recs = Ok runs ->
  (forall x, In x acc -> In x runs) /\
  (forall rec x, In rec recs -> Unmarshal rec = Ok x ->
     Time.After (TaskRunMetadata.StartTime x) start = false -> In x runs).
Proof.
  induction recs as [|m rest IH]; intros acc runs H; simpl in H.
  - inversion H; subst. split; [auto | intros ? ? []].
  - destruct (Unmarshal m) as [t|e|p] eqn:E; try discriminate H.
    destruct (Time.After (TaskRunMetadata.StartTime t) start) eqn:EA;
      destruct (IH _ _ H) as [A B]; split.
    + exact A.
    + intros rec x [<-|Hin] Hx Hs.
      * rewrite E in Hx. inversion Hx; subst. congruence.
      * now apply (B rec).
    + intros x Hin. apply A, in_or_app. now left.
    + intros rec x [<-|Hin] Hx Hs.
      * rewrite E in Hx. inversion Hx; subst. apply A, in_or_app. right. now left.
      * now apply (B rec).
Qed.

Lemma runsByDateFrom_needs_all start recs : forall acc rec,
  In rec recs -> isOk (Unmarshal (T := TaskRunMetadata.t) rec) = false ->
  isOk (runsByDateFrom start acc recs) = false.
Proof.
  induction recs as [|m rest IH]; intros acc rec Hin Hb; [destruct Hin|]. simpl.
  destruct Hin as [<-|Hin].
  - destruct (Unmarshal m); [discriminate Hb | reflexivity | reflexivity].
  - destruct (Unmarshal m) as [t|e|p]; try reflexivity.
    destruct (Time.After (TaskRunMetadata.StartTime t) start); now apply (IH _ rec).
Qed.

(** X18. In the store in memory, a task that [CreateTask] returned is among
    the tasks [GetAllTasks] returns. *)
Theorem created_task_is_listed tm now name tType target tm' task tasks :
  decodesBack task ->
  CreateTask tm now name tType target = (tm', Ok task) ->
  GetAllTasks tm' = Ok tasks ->
  In task tasks.
Proof.
  intros Hdec H HA. apply CreateTask_inv in H.
  destruct H as (keys & latestID & tg & _ & _ & _ & _ & HW).
  destruct (taskStored_lookups _ _ _ MemoryStorage_lawful HW)
    as (smeta & sruns & HM & _ & HG & _ & _).
  apply MemoryStorage_point in HG.
  destruct (scan_value (storage tm') (ToString TASKMETADATA) _ _ HG
              (prefix_append _ _)) as (recs & HS & Hin).
  unfold GetAllTasks in HA. rewrite HS in HA. simpl in HA.
  destruct (allTasksFrom_lists _ _ _ HA) as [_ B]. apply (B smeta); [exact Hin | now apply Hdec].
Qed.

(** X19. In the store in memory, a run that [CreateTaskRun] returned is
    among the runs [GetAllTaskRuns] returns, and among the runs
    [GetRunsByDate] returns for the run's own start time. *)
Theorem created_run_is_listed tm now name taskID trigger tm' md :
  decodesBack md ->
  CreateTaskRun tm now name taskID trigger = (tm', Ok md) ->
  (forall runs, GetAllTaskRuns tm' = Ok runs -> In md runs) /\
  (forall end_ runs, GetRunsByDate tm' now end_ = Ok runs -> In md runs).
Proof.
  intros Hdec H. apply CreateTaskRun_inv in H.
  destruct H as (doc & more & runs0 & hi & tr & _ & _ & _ & _ & -> & HW).
  destruct (runStored_lookups _ _ _ _ _ MemoryStorage_lawful HW)
    as (sruns & smeta & _ & HM & _ & HG & _).
  apply MemoryStorage_point in HG. simpl in HG. split.
  - intros runs HA.
    destruct (scan_value (storage tm') "tasks/runs/metadata" _ _ HG
                (prefix_append "tasks/runs/metadata" _)) as (recs & HS & Hin).
    unfold GetAllTaskRuns in HA. rewrite HS in HA. simpl in HA.
    destruct (allTaskRunsFrom_lists _ _ _ HA) as [_ B].
    apply (B smeta); [exact Hin | now apply Hdec].
  - intros end_ runs HA.
    destruct (scan_value (storage tm') (dayPrefix now) _ _ HG
                (prefix_append (dayPrefix now) _)) as (recs & HS & Hin).
    unfold GetRunsByDate in HA. rewrite HS in HA. simpl in HA.
    destruct (runsByDateFrom_lists _ _ _ _ HA) as [_ B].
    apply (B smeta); [exact Hin | now apply Hdec | apply After_irrefl].
Qed.

(** X20. In the store in memory, [GetRunsByDate] for a day does not succeed
    when a record that does not decode is stored under a run key of a day
    whose number goes on after that day's number, in the same month. *)
Theorem GetRunsByDate_fails_on_reached_day tm (d d' : Time.t) end_ t r bad :
  1 <= Time.Day d <= 31 -> 1 <= Time.Day d' <= 31 ->
  Time.Year d = Time.Year d' -> Time.Month d = Time.Month d' ->
  Time.Day d' / 10 = Time.Day d ->
  memory (storage tm) !! runMetadataKey d' t r = Some bad ->
  isOk (Unmarshal (T := TaskRunMetadata.t) bad) = false ->
  isOk (GetRunsByDate tm d end_) = false.
Proof.
  intros Hd Hd' HY HM HD Hk Hb.
  assert (Hp : hasPrefix (dayPrefix d) (runMetadataKey d' t r) = true).
  { apply dayPrefix_reach. split; [exact HY|]. split; [exact HM|].
    rewrite (dayReached_spec _ _ Hd Hd'). unfold dayReached.
    apply orb_true_iff. right. now apply Z.eqb_eq. }
  destruct (scan_value (storage tm) (dayPrefix d) _ _ Hk Hp) as (recs & HS & Hin).
  unfold GetRunsByDate. rewrite HS. simpl. now apply (runsByDateFrom_needs_all _ _ _ bad).
Qed.

End Listing.

Section Failures.

Context {S : Type} `{!StorageProvider S}.
Context `{!Serializer TaskMetadata.t} `{!Serializer TaskRuns.t}
        `{!Serializer TaskRunMetadata.t}.

Implicit Types tm : TaskManager S.

(** X21. On a store whose writes never fail, a [CreateTaskRun] that does
    not return a run leaves the store as it was: both records are encoded
    before the first write. *)
Theorem CreateTaskRun_failure_writes_nothing tm now name taskID trigger :
  reliableStorage S ->
  isOk (CreateTaskRun tm now name taskID trigger).2 = false ->
  (CreateTaskRun tm now name taskID trigger).1 = tm.
Proof.
  intros Hrel. unfold CreateTaskRun.
  destruct (Get (storage tm) (taskRunsKey taskID) false) as [key|e|p]; try reflexivity.
  destruct (first <- index0 key ;; Unmarshal first) as [runs|e|p]; try reflexivity.
  destruct (getHighestRunID runs) as [latestID|e|p]; try reflexivity.
  destruct trigger as [tr|]; try reflexivity. cbv zeta.
  match goal with
  | |- context [Marshal ?x] => destruct (Marshal x) as [sruns|e|p]; try reflexivity
  end.
  match goal with
  | |- context [Marshal ?x] => destruct (Marshal x) as [smeta|e|p]; try reflexivity
  end.
  pose proof (Hrel (storage tm) (taskRunsKey taskID) sruns) as R1.
  destruct (SetValue (storage tm) (taskRunsKey taskID) sruns) as [st1 o1]. simpl in R1. subst o1.
  match goal with
  | |- context [SetValue st1 ?k ?v] =>
      pose proof (Hrel st1 k v) as R2; destruct (SetValue st1 k v) as [st2 o2]
  end.
  simpl in R2. subst o2. simpl. discriminate.
Qed.

(** X22. With a nil target, [CreateTask] returns no task and writes
    nothing; with a nil trigger, [CreateTaskRun] returns no run and
    writes nothing. *)
Theorem nil_target_and_nil_trigger tm now name tType taskID :
  (CreateTask tm now name tType None).1 = tm /\
  isOk (CreateTask tm now name tType None).2 = false /\
  (CreateTaskRun tm now name taskID None).1 = tm /\
  isOk (CreateTaskRun tm now name taskID None).2 = false.
Proof.
  unfold CreateTask, CreateTaskRun.
  destruct (ListKeys (storage tm) (ToString TASKMETADATA)) as [keys|e|p];
    destruct (Get (storage tm) (taskRunsKey taskID) false) as [key|e'|p'];
    try (destruct (if (length keys =? 0)%nat then Ok 0 else getLatestID keys) as [l|e2|p2]);
    try (destruct (first <- index0 key ;; Unmarshal first) as [runs|e3|p3]);
    try (destruct (getHighestRunID runs) as [h|e4|p4]);
    repeat split.
Qed.

End Failures.

(** * The further theorems at work on the scenarios *)

Lemma getLatestID_of_three : getLatestID (taskKeys [3; 1; 2]) = Ok 3.
Proof.
  apply (proj1 (getLatestID_is_maximum [3; 1; 2]
                  ltac:(repeat constructor; vm_compute; discriminate)) 3).
  - now left.
  - lia.
  - intros id [<-|[<-|[<-|[]]]]; lia.
Defined.

Lemma GetAllTasks_of_oneTask : GetAllTasks oneTask = Ok [firstTask].
Proof.
  refine (proj1 (GetAllTasks_all_or_nothing oneTask
                   (map snd (keysUnder (ToString TASKMETADATA) (memory (storage oneTask))))
                   _) _ _).
  - reflexivity.
  - vm_compute. reflexivity.
Defined.

Lemma GetAllTaskRuns_of_oneRun : GetAllTaskRuns oneRun = Ok [firstRun].
Proof.
  refine (proj1 (GetAllTaskRuns_all_or_nothing oneRun
                   (map snd (keysUnder "tasks/runs/metadata" (memory (storage oneRun))))
                   _) _ _).
  - reflexivity.
  - vm_compute. reflexivity.
Defined.

Lemma GetRunsByDate_of_garbledRun :
  exists e, Unmarshal (T := TaskRunMetadata.t) "{" = Err e /\
    GetRunsByDate garbledRun noon evening = Err ("failed to unmarshal run record: " +:+ e).
Proof.
  eexists. split; [vm_compute; reflexivity|].
  apply (GetRunsByDate_first_failure garbledRun noon evening [] "{" [] []).
  - vm_compute. reflexivity.
  - reflexivity.
  - vm_compute. reflexivity.
Defined.

Lemma scan_of_first_reaches_fifteenth :
  hasPrefix (dayPrefix firstOfMarch) (runMetadataKey afternoon 1 1) = true <->
  Time.Year firstOfMarch = Time.Year afternoon /\
  Time.Month firstOfMarch = Time.Month afternoon /\
  (Time.Day afternoon = Time.Day firstOfMarch \/
   Time.Day afternoon / 10 = Time.Day firstOfMarch).
Proof.
  apply (GetRunsByDate_scan_reach firstOfMarch afternoon 1 1); simpl; lia.
Defined.

Lemma second_task_is_two :
  TaskMetadata.ID secondTask = maxFrom (-1) [1] + 1 /\
  forall id, In id [1] -> id < TaskMetadata.ID secondTask.
Proof.
  apply (CreateTask_returns_next_id oneRun noon "train" "ResourceCreation" (Some sampleTarget)
           twoTasks secondTask [1]).
  - vm_compute. reflexivity.
  - discriminate.
  - repeat constructor; vm_compute; discriminate.
  - vm_compute. reflexivity.
  - vm_compute. reflexivity.
Defined.

Lemma first_task_is_read_back : GetTaskByID oneTask (TaskMetadata.ID firstTask) = Ok firstTask.
Proof.
  apply (CreateTask_then_GetTaskByID emptyMemory morning "etl" "ResourceCreation"
           (Some sampleTarget) oneTask firstTask).
  - apply MemoryStorage_lawful.
  - decodes.
  - vm_compute. reflexivity.
Defined.

Lemma first_run_of_first_task :
  TaskRunMetadata.ID firstRun = 1 /\
  TaskRunMetadata.TaskId firstRun = TaskMetadata.ID firstTask /\
  runStored (storage oneTask) (TaskMetadata.ID firstTask)
    (TaskRuns.mk (TaskMetadata.ID firstTask) [TaskRunSimple.mk 1 afternoon]) firstRun
    (storage oneRun).
Proof.
  apply (CreateTask_then_first_run emptyMemory morning "etl" "ResourceCreation"
           (Some sampleTarget) oneTask firstTask afternoon "late" (Some sampleTrigger)
           oneRun firstRun).
  - apply MemoryStorage_lawful.
  - decodes.
  - vm_compute. reflexivity.
  - vm_compute. reflexivity.
Defined.



Lemma first_run_changes_no_task :
  (forall id, GetTaskByID oneRun id = GetTaskByID oneTask id) /\
  (forall taskID' runID, taskID' <> 1 ->
     GetRunByID oneRun taskID' runID = GetRunByID oneTask taskID' runID).
Proof.
  apply (CreateTaskRun_frame oneTask afternoon "late" 1 (Some sampleTrigger) oneRun firstRun).
  - apply MemoryStorage_lawful.
  - vm_compute. reflexivity.
Defined.

Lemma second_task_keeps_first : GetTaskByID twoTasks 1 = GetTaskByID oneRun 1.
Proof.
  apply (CreateTask_frame oneRun noon "train" "ResourceCreation" (Some sampleTarget)
           twoTasks secondTask).
  - apply MemoryStorage_lawful.
  - vm_compute. reflexivity.
  - discriminate.
Defined.

Lemma second_task_extends_tasks :
  TaskMetadata.ID secondTask = Z.max 0 (maxFrom (-1) [1]) + 1 /\
  ~ In (TaskMetadata.ID secondTask) [1] /\
  holdsTasks twoTasks [TaskMetadata.ID secondTask; 1].
Proof.
  apply (CreateTask_extends_tasks oneRun noon "train" "ResourceCreation" (Some sampleTarget)
           twoTasks secondTask [1]).
  - exists [1]. split; [reflexivity | vm_compute; reflexivity].
  - repeat constructor; vm_compute; discriminate.
  - vm_compute. reflexivity.
  - vm_compute. reflexivity.
Defined.

Lemma first_run_keeps_tasks : holdsTasks oneRun [1].
Proof.
  apply (CreateTaskRun_keeps_tasks oneTask afternoon "late" 1 (Some sampleTrigger) oneRun
           firstRun [1]).
  - exists [1]. split; [reflexivity | vm_compute; reflexivity].
  - vm_compute. reflexivity.
Defined.

Lemma first_task_is_listed :
  GetAllTasks oneTask = Ok [firstTask] /\ In firstTask [firstTask].
Proof.
  split; [vm_compute; reflexivity|].
  apply (created_task_is_listed emptyMemory morning "etl" "ResourceCreation"
           (Some sampleTarget) oneTask firstTask [firstTask]).
  - decodes.
  - vm_compute. reflexivity.
  - vm_compute. reflexivity.
Defined.

Lemma late_run_is_listed :
  (forall runs, GetAllTaskRuns twoRuns = Ok runs -> In lateRun runs) /\
  (forall end_ runs, GetRunsByDate twoRuns afternoon end_ = Ok runs -> In lateRun runs).
Proof.
  apply (created_run_is_listed earlyOnly afternoon "late" 1 (Some sampleTrigger) twoRuns
           lateRun).
  - decodes.
  - vm_compute. reflexivity.
Defined.

Lemma scan_of_first_fails_on_garbled_fifteenth :
  isOk (GetRunsByDate garbledRun firstOfMarch evening) = false.
Proof.
  apply (GetRunsByDate_fails_on_reached_day garbledRun firstOfMarch afternoon evening 1 1 "{").
  - simpl. lia.
  - simpl. lia.
  - reflexivity.
  - reflexivity.
  - reflexivity.
  - vm_compute. reflexivity.
  - vm_compute. reflexivity.
Defined.

Lemma failed_run_writes_nothing :
  (CreateTaskRun emptyMemory noon "first" 1 (Some sampleTrigger)).1 = emptyMemory.
Proof.
  apply (CreateTaskRun_failure_writes_nothing emptyMemory noon "first" 1 (Some sampleTrigger)).
  - apply MemoryStorage_reliable.
  - vm_compute. reflexivity.
Defined.

(** * The logger *)

Section LoggerProperties.

Import Logging.

Lemma storeAll_union (from into : gmap string any) : storeAll from into = from ∪ into.
Proof.
  unfold storeAll.
  apply (map_fold_weak_ind (fun r m => r = m ∪ into)).
  - now rewrite (left_id_L ∅ (∪)).
  - intros i x m r Hi ->. now rewrite insert_union_l.
Qed.

Lemma appendValueMap_union (logger : Logger) (values : option (gmap string any))
    (existing : gmap string any) :
  Values logger = Some existing ->
  appendValueMap logger values = Ok (existing ∪ default ∅ values).
Proof.
  intros H. unfold appendValueMap. rewrite H, !storeAll_union.
  now rewrite (right_id_L ∅ (∪)).
Qed.

Lemma lookup_union_merged (existing new : gmap string any) (key : string) :
  (existing ∪ new) !! key = merged existing key (new !! key).
Proof.
  unfold merged. destruct (existing !! key) as [v|] eqn:E.
  - now apply lookup_union_Some_l.
  - now rewrite lookup_union_r.
Qed.

(** X23. [appendValueMap] returns the values of the logger together with
    the new ones; under a key that both have, the logger's value stays.
    On a logger whose map of values is nil it panics. *)
Theorem appendValueMap_existing_wins (logger : Logger)
    (values : option (gmap string any)) (existing : gmap string any) :
  Values logger = Some existing ->
  exists combined,
    appendValueMap logger values = Ok combined /\
    forall key, combined !! key = merged existing key (default ∅ values !! key).
Proof.
  intros H. exists (existing ∪ default ∅ values).
  split; [now apply appendValueMap_union|].
  intros key. apply lookup_union_merged.
Qed.

Lemma eqb_empty_false (s : string) : s <> EmptyString -> String.eqb s EmptyString = false.
Proof. intros H. now apply String.eqb_neq. Qed.

(** X24. On a logger without request id, [WithRequestID] with an id that
    is not empty sets the id, adds the field "request-id" and the value
    "request-id", unless the logger had a value under that key, which
    stays; from then on [WithRequestID] returns the logger as it is and
    warns, whatever id it is given. *)
Theorem first_request_id_wins (logger : Logger) (id_ : RequestID)
    (existing : gmap string any) :
  id logger = EmptyString -> id_ <> EmptyString -> Values logger = Some existing ->
  exists logger1,
    WithRequestID logger id_ = ([], Ok logger1) /\
    GetRequestID logger1 = id_ /\
    zap.fields (SugaredLogger logger1) =
      zap.fields (SugaredLogger logger) ++ [("request-id", AnyRequestID id_)] /\
    GetValue logger1 "request-id" =
      ([], Ok (Some (default (AnyRequestID id_) (existing !! "request-id")))) /\
    forall other, exists warning,
      WithRequestID logger1 other = ([warning], Ok logger1) /\ level warning = WarnLevel.
Proof.
  intros Hid Hne HV. unfold WithRequestID at 1.
  rewrite (eqb_empty_false _ Hne), Hid. simpl.
  rewrite (appendValueMap_union _ _ _ HV). eexists. split; [reflexivity|].
  split; [reflexivity|]. split; [reflexivity|]. split.
  - unfold GetValue. simpl. rewrite lookup_union_merged. unfold merged.
    destruct (existing !! "request-id"); [reflexivity|]. now rewrite lookup_singleton_eq.
  - intros other. unfold WithRequestID. simpl.
    destruct (String.eqb other EmptyString); [eexists; split; reflexivity|].
    rewrite (eqb_empty_false _ Hne). simpl. eexists. split; reflexivity.
Qed.

Lemma addField_spec (key value warning : string) (out : list Entry)
    (newValues : gmap string any) (logger : Logger) :
  exists out' newValues' logger',
    addField key value warning (out, newValues, logger) = (out', newValues', logger') /\
    id logger' = id logger /\ Values logger' = Values logger /\
    newValues' !! key = match fieldValue value with
                        | Some v => Some v
                        | None => newValues !! key
                        end /\
    (forall k, k <> key -> newValues' !! k = newValues !! k) /\
    length out' = (length out + if String.eqb value EmptyString then 1 else 0)%nat.
Proof.
  unfold addField, fieldValue. destruct (String.eqb value EmptyString); simpl.
  - eexists _, _, _. split; [reflexivity|].
    split; [reflexivity|]. split; [reflexivity|]. split; [reflexivity|].
    split; [reflexivity|]. rewrite length_app. reflexivity.
  - eexists _, _, _. split; [reflexivity|].
    split; [reflexivity|]. split; [reflexivity|].
    split; [now rewrite lookup_insert_eq|].
    split; [|lia]. intros k Hk. now rewrite lookup_insert_ne by congruence.
Qed.

(** X25. [WithResource] keeps the request id of the logger and adds, of
    the resource type, name and variant, those that are not empty, each
    under its key unless the logger had a value there; it warns once for
    each empty one.  [WithProvider] does the same with the provider type
    and name. *)
Theorem WithResource_adds_what_is_not_empty (logger : Logger)
    (resourceType name variant providerType providerName : string)
    (existing : gmap string any) :
  Values logger = Some existing ->
  (exists out logger1 values1,
     WithResource logger resourceType name variant = (out, Ok logger1) /\
     GetRequestID logger1 = GetRequestID logger /\
     Values logger1 = Some values1 /\
     values1 !! "resource-type" = merged existing "resource-type" (fieldValue resourceType) /\
     values1 !! "resource-name" = merged existing "resource-name" (fieldValue name) /\
     values1 !! "resource-variant" = merged existing "resource-variant" (fieldValue variant) /\
     length out =
       length (List.filter (fun s => String.eqb s EmptyString) [resourceType; name; variant])) /\
  (exists out logger1 values1,
     WithProvider logger providerType providerName = (out, Ok logger1) /\
     GetRequestID logger1 = GetRequestID logger /\
     Values logger1 = Some values1 /\
     values1 !! "provider-type" = merged existing "provider-type" (fieldValue providerType) /\
     values1 !! "provider-name" = merged existing "provider-name" (fieldValue providerName) /\
     length out =
       length (List.filter (fun s => String.eqb s EmptyString) [providerType; providerName])).
Proof.
  intros HV. split.
  - unfold WithResource.
    destruct (addField_spec "resource-type" resourceType "Resource type is an empty string"
                [] ∅ logger) as (o1 & v1 & l1 & -> & I1 & V1 & K1 & F1 & N1).
    destruct (addField_spec "resource-name" name "Resource name is empty" o1 v1 l1)
      as (o2 & v2 & l2 & -> & I2 & V2 & K2 & F2 & N2).
    destruct (addField_spec "resource-variant" variant "Resource variant is empty" o2 v2 l2)
      as (o3 & v3 & l3 & -> & I3 & V3 & K3 & F3 & N3).
    unfold combine.
    rewrite (appendValueMap_union l3 (Some v3) existing) by congruence.
    eexists _, _, _. split; [reflexivity|]. split; [simpl; unfold GetRequestID; congruence|].
    split; [reflexivity|]. simpl. rewrite !lookup_union_merged.
    split; [|split; [|split]].
    + rewrite F3, F2 by discriminate. rewrite K1, lookup_empty.
      now destruct (fieldValue resourceType).
    + rewrite F3 by discriminate. rewrite K2, F1 by discriminate. rewrite lookup_empty.
      now destruct (fieldValue name).
    + rewrite K3, F2, F1 by discriminate. rewrite lookup_empty.
      now destruct (fieldValue variant).
    + rewrite N3, N2, N1. simpl.
      destruct (String.eqb resourceType EmptyString), (String.eqb name EmptyString),
        (String.eqb variant EmptyString); reflexivity.
  - unfold WithProvider.
    destruct (addField_spec "provider-type" providerType "Provider type is empty"
                [] ∅ logger) as (o1 & v1 & l1 & -> & I1 & V1 & K1 & F1 & N1).
    destruct (addField_spec "provider-name" providerName "Provider name is empty" o1 v1 l1)
      as (o2 & v2 & l2 & -> & I2 & V2 & K2 & F2 & N2).
    unfold combine.
    rewrite (appendValueMap_union l2 (Some v2) existing) by congruence.
    eexists _, _, _. split; [reflexivity|]. split; [simpl; unfold GetRequestID; congruence|].
    split; [reflexivity|]. simpl. rewrite !lookup_union_merged.
    split; [|split].
    + rewrite F2 by discriminate. rewrite K1, lookup_empty.
      now destruct (fieldValue providerType).
    + rewrite K2, F1 by discriminate. rewrite lookup_empty.
      now destruct (fieldValue providerName).
    + rewrite N2, N1. simpl.
      destruct (String.eqb providerType EmptyString), (String.eqb providerName EmptyString);
        reflexivity.
Qed.

(** ** The context *)

Lemma WithRequestID_total (logger : Logger) (id_ : RequestID) (existing : gmap string any) :
  Values logger = Some existing ->
  exists out logger1,
    WithRequestID logger id_ = (out, Ok logger1) /\
    GetRequestID logger1 =
      (if String.eqb id_ EmptyString then id logger
       else if String.eqb (id logger) EmptyString then id_ else id logger).
Proof.
  intros HV. unfold WithRequestID. destruct (String.eqb id_ EmptyString).
  - eexists _, _. split; reflexivity.
  - destruct (String.eqb (id logger) EmptyString); simpl.
    + rewrite (appendValueMap_union _ _ _ HV). eexists _, _. split; reflexivity.
    + eexists _, _. split; reflexivity.
Qed.

(** X26. [AttachRequestID] with an id that is not empty binds that id in
    the context, also over an id bound before: [GetRequestIDFromContext]
    then returns it.  The logger bound with it has that id only when the
    logger passed had none: otherwise it keeps its own.  With an empty id
    and an id bound in the context, and with a nil context, the context
    comes back as it is. *)
Theorem AttachRequestID_binds_the_id (id_ : string) (ctx0 : bindings) (logger : Logger)
    (fresh : RequestID) (existing : gmap string any) :
  Values logger = Some existing ->
  (id_ <> EmptyString ->
   exists out ctx1 logger1,
     AttachRequestID id_ (Some ctx0) logger fresh = (out, Ok (Some ctx1)) /\
     GetRequestIDFromContext (Some ctx1) = ([], Ok id_) /\
     GetLoggerFromContext (Some ctx1) = ([], Ok logger1) /\
     GetRequestID logger1 = (if String.eqb (id logger) EmptyString then id_ else id logger)) /\
  (forall contextID, Value ctx0 RequestIDKey = Some contextID ->
     AttachRequestID EmptyString (Some ctx0) logger fresh =
       ([Warn logger "Request ID already set in context"], Ok (Some ctx0))) /\
  AttachRequestID id_ None logger fresh = ([Error logger "Context is nil"], Ok None).
Proof.
  intros HV. split; [|split; [|reflexivity]].
  - intros Hne. unfold AttachRequestID. rewrite (eqb_empty_false _ Hne).
    destruct (WithRequestID_total logger id_ existing HV) as (out & logger1 & HW & Hid).
    rewrite (eqb_empty_false _ Hne) in Hid.
    destruct (Value ctx0 RequestIDKey); unfold attach; rewrite HW;
      eexists _, _, logger1; (split; [reflexivity|]); (split; [reflexivity|]);
      (split; [reflexivity | exact Hid]).
  - intros contextID HC. unfold AttachRequestID. now rewrite HC.
Qed.

(** X27. After [InitializeRequestID] returned, the context holds the
    request id and the logger it returned, and a second call on that
    context, with any logger, returns the same three and writes no
    entry. *)
Theorem InitializeRequestID_twice (logger : Logger) (ctx : Context) (fresh : RequestID)
    (out : list Entry) (requestID : string) (ctx1 : Context) (logger1 : Logger) :
  InitializeRequestID logger ctx fresh = (out, Ok (requestID, ctx1, logger1)) ->
  GetRequestIDFromContext ctx1 = ([], Ok requestID) /\
  GetLoggerFromContext ctx1 = ([], Ok logger1) /\
  forall logger2 fresh2,
    InitializeRequestID logger2 ctx1 fresh2 = ([], Ok (requestID, ctx1, logger1)).
Proof.
  unfold InitializeRequestID. destruct ctx as [ctx0|]; [|discriminate].
  destruct (Value ctx0 RequestIDKey) as [v|] eqn:HR.
  - destruct (Value ctx0 LoggerKey) as [w|] eqn:HL.
    + destruct v as [r|l]; simpl; [|discriminate].
      destruct w as [r'|l]; simpl; [discriminate|].
      intros H. inversion H; subst. unfold GetRequestIDFromContext, GetLoggerFromContext.
      rewrite HR, HL. simpl. auto.
    + destruct v as [r|l]; simpl; [|discriminate].
      destruct (WithRequestID logger r) as [out3 [l1|e|p]]; try discriminate.
      intros H. inversion H; subst.
      unfold GetRequestIDFromContext, GetLoggerFromContext. simpl. rewrite HR. simpl. auto.
  - simpl. destruct (Value ctx0 LoggerKey) as [w|] eqn:HL.
    + destruct w as [r'|l]; simpl; [discriminate|].
      intros H. inversion H; subst. unfold GetRequestIDFromContext, GetLoggerFromContext.
      simpl. rewrite HL. simpl. auto.
    + simpl. destruct (WithRequestID logger fresh) as [out3 [l1|e|p]]; try discriminate.
      intros H. inversion H; subst. auto.
Qed.

(** X28. A logger from [NewStackTraceLogger] has no map of values:
    [WithRequestID] with an id that is not empty, [WithValues],
    [WithResource], [WithProvider] and [GetValue] panic on it, and so do
    [AttachRequestID] and, on a context without logger,
    [InitializeRequestID], for ids that are not empty. *)
Theorem NewStackTraceLogger_has_no_values (service : string) :
  (forall id_, id_ <> EmptyString ->
     WithRequestID (NewStackTraceLogger service) id_ = ([], Panic nilDereference)) /\
  (forall values, (WithValues (NewStackTraceLogger service) values).2 = Panic nilDereference) /\
  (forall resourceType name variant,
     (WithResource (NewStackTraceLogger service) resourceType name variant).2 =
       Panic nilDereference) /\
  (forall providerType providerName,
     (WithProvider (NewStackTraceLogger service) providerType providerName).2 =
       Panic nilDereference) /\
  (forall key, GetValue (NewStackTraceLogger service) key = ([], Panic nilDereference)) /\
  (forall id_ ctx0 fresh, id_ <> EmptyString ->
     (AttachRequestID id_ (Some ctx0) (NewStackTraceLogger service) fresh).2 =
       Panic nilDereference) /\
  (forall ctx0 fresh, Value ctx0 RequestIDKey = None -> Value ctx0 LoggerKey = None ->
     fresh <> EmptyString ->
     (InitializeRequestID (NewStackTraceLogger service) (Some ctx0) fresh).2 =
       Panic nilDereference).
Proof.
  remember (NewStackTraceLogger service) as logger eqn:El.
  assert (Vl : Values logger = None) by now subst.
  assert (Il : id logger = EmptyString) by now subst.
  clear El.
  assert (W : forall id_, id_ <> EmptyString ->
                WithRequestID logger id_ = ([], Panic nilDereference)).
  { intros id_ Hne. unfold WithRequestID, appendValueMap.
    now rewrite (eqb_empty_false _ Hne), Il, Vl. }
  split; [exact W|].
  split; [intros [v|]; unfold WithValues, combine, appendValueMap; now rewrite Vl|].
  split.
  { intros rt n v. unfold WithResource.
    destruct (addField_spec "resource-type" rt "Resource type is an empty string"
                [] ∅ logger) as (o1 & v1 & l1 & -> & I1 & V1 & _).
    destruct (addField_spec "resource-name" n "Resource name is empty" o1 v1 l1)
      as (o2 & v2 & l2 & -> & I2 & V2 & _).
    destruct (addField_spec "resource-variant" v "Resource variant is empty" o2 v2 l2)
      as (o3 & v3 & l3 & -> & I3 & V3 & _).
    unfold combine, appendValueMap. rewrite V3, V2, V1, Vl. reflexivity. }
  split.
  { intros pt pn. unfold WithProvider.
    destruct (addField_spec "provider-type" pt "Provider type is empty"
                [] ∅ logger) as (o1 & v1 & l1 & -> & I1 & V1 & _).
    destruct (addField_spec "provider-name" pn "Provider name is empty" o1 v1 l1)
      as (o2 & v2 & l2 & -> & I2 & V2 & _).
    unfold combine, appendValueMap. rewrite V2, V1, Vl. reflexivity. }
  split; [intros key; unfold GetValue; now rewrite Vl|]. split.
  - intros id_ ctx0 fresh Hne. unfold AttachRequestID. rewrite (eqb_empty_false _ Hne).
    destruct (Value ctx0 RequestIDKey); unfold attach; now rewrite (W _ Hne).
  - intros ctx0 fresh HR HL Hne. unfold InitializeRequestID. rewrite HR. simpl.
    rewrite HL. simpl. now rewrite (W _ Hne).
Qed.

Lemma wellTyped_bind_logger (ctx : bindings) (l : Logger) :
  wellTyped ctx -> wellTyped (WithValue ctx LoggerKey (CtxLogger l)).
Proof.
  intros [HR HL]. split; simpl.
  - exact HR.
  - intros v H. inversion H. eauto.
Qed.

Lemma wellTyped_bind_id (ctx : bindings) (r : RequestID) :
  wellTyped ctx -> wellTyped (WithValue ctx RequestIDKey (CtxRequestID r)).
Proof.
  intros [HR HL]. split; simpl.
  - intros v H. inversion H. eauto.
  - exact HL.
Qed.

(** X29. The contexts the package makes hold a request id under its key
    and a logger under its key: the empty context is such a context, on
    such a context the conversions of [GetRequestIDFromContext] and
    [GetLoggerFromContext] do not panic, and the contexts that
    [AttachRequestID], [AddLoggerToContext] and [InitializeRequestID]
    return are such contexts again. *)
Theorem contexts_stay_wellTyped (ctx0 : bindings) :
  wellTyped ctx0 ->
  wellTyped [] /\
  (exists r, (GetRequestIDFromContext (Some ctx0)).2 = Ok r) /\
  (exists l, (GetLoggerFromContext (Some ctx0)).2 = Ok l) /\
  (forall id_ logger fresh out ctx1,
     AttachRequestID id_ (Some ctx0) logger fresh = (out, Ok (Some ctx1)) -> wellTyped ctx1) /\
  (forall logger ctx1,
     AddLoggerToContext (Some ctx0) logger = Ok (Some ctx1) -> wellTyped ctx1) /\
  (forall logger fresh out requestID ctx1 logger1,
     InitializeRequestID logger (Some ctx0) fresh = (out, Ok (requestID, Some ctx1, logger1)) ->
     wellTyped ctx1).
Proof.
  intros WT. pose proof WT as [HR HL].
  split; [split; intros v H; discriminate H|].
  split.
  { unfold GetRequestIDFromContext. destruct (Value ctx0 RequestIDKey) as [v|] eqn:E.
    - destruct (HR v eq_refl) as [r ->]. simpl. eauto.
    - simpl. eauto. }
  split.
  { unfold GetLoggerFromContext. destruct (Value ctx0 LoggerKey) as [v|] eqn:E.
    - destruct (HL v eq_refl) as [l ->]. simpl. eauto.
    - simpl. eauto. }
  split.
  { intros id_ logger fresh out ctx1. unfold AttachRequestID.
    assert (A : forall o i, attach o i ctx0 logger = (out, Ok (Some ctx1)) -> wellTyped ctx1).
    { intros o i. unfold attach. destruct (WithRequestID logger i) as [o' [l|e|p]];
        intros H; inversion H; subst. now apply wellTyped_bind_logger, wellTyped_bind_id. }
    destruct (Value ctx0 RequestIDKey); destruct (String.eqb id_ EmptyString);
      try apply A. intros H. inversion H; subst. exact WT. }
  split.
  { intros logger ctx1. unfold AddLoggerToContext.
    destruct (Value ctx0 LoggerKey); intros H; inversion H; subst;
      [exact WT | now apply wellTyped_bind_logger]. }
  intros logger fresh out requestID ctx1 logger1. unfold InitializeRequestID.
  destruct (Value ctx0 RequestIDKey) as [v|] eqn:ER.
  - destruct (Value ctx0 LoggerKey) as [w|] eqn:EL.
    + destruct (toRequestID v) as [r|e|p]; try discriminate.
      destruct (toLogger w) as [l|e|p]; try discriminate.
      intros H. inversion H; subst. exact WT.
    + destruct (toRequestID v) as [r|e|p]; try discriminate.
      destruct (WithRequestID logger r) as [o' [l|e|p]]; try discriminate.
      intros H. inversion H; subst. now apply wellTyped_bind_logger.
  - simpl. destruct (Value ctx0 LoggerKey) as [w|] eqn:EL.
    + destruct (toLogger w) as [l|e|p]; try discriminate.
      intros H. inversion H; subst. now apply wellTyped_bind_id.
    + simpl. destruct (WithRequestID logger fresh) as [o' [l|e|p]]; try discriminate.
      intros H. inversion H; subst. now apply wellTyped_bind_logger, wellTyped_bind_id.
Qed.

(** X30. [AddLoggerToContext] binds the logger only in a context without
    logger: the logger bound first stays, and to add a second time
    changes nothing. *)
Theorem AddLoggerToContext_keeps_the_first (ctx0 : bindings) (logger : Logger) :
  exists ctx1,
    AddLoggerToContext (Some ctx0) logger = Ok (Some ctx1) /\
    (Value ctx0 LoggerKey = None -> GetLoggerFromContext (Some ctx1) = ([], Ok logger)) /\
    (forall v, Value ctx0 LoggerKey = Some v -> ctx1 = ctx0) /\
    (forall other, AddLoggerToContext (Some ctx1) other = Ok (Some ctx1)) /\
    Value ctx1 RequestIDKey = Value ctx0 RequestIDKey.
Proof.
  unfold AddLoggerToContext. destruct (Value ctx0 LoggerKey) as [v|] eqn:E.
  - exists ctx0. split; [reflexivity|]. split; [discriminate|]. split; [reflexivity|].
    split; [|reflexivity]. intros other. now rewrite E.
  - eexists. split; [reflexivity|]. split; [reflexivity|]. split; [discriminate|].
    split; reflexivity.
Qed.

(** ** The theorems at work on the scenarios *)

Lemma appendValueMap_on_taggedLogger :
  exists combined,
    appendValueMap taggedLogger (Some {["request-id" := AnyRequestID "r1"]}) = Ok combined /\
    forall key, combined !! key =
      merged {["request-id" := AnyString "old"]} key
        (default ∅ (Some ({["request-id" := AnyRequestID "r1"]} : gmap string any)) !! key).
Proof.
  apply (appendValueMap_existing_wins taggedLogger
           (Some {["request-id" := AnyRequestID "r1"]}) {["request-id" := AnyString "old"]}).
  reflexivity.
Defined.

Lemma request_id_of_taggedLogger :
  exists logger1,
    WithRequestID taggedLogger "r1" = ([], Ok logger1) /\
    GetRequestID logger1 = "r1" /\
    zap.fields (SugaredLogger logger1) =
      zap.fields (SugaredLogger taggedLogger) ++ [("request-id", AnyRequestID "r1")] /\
    GetValue logger1 "request-id" =
      ([], Ok (Some (default (AnyRequestID "r1")
                       (({["request-id" := AnyString "old"]} : gmap string any)
                          !! "request-id")))) /\
    forall other, exists warning,
      WithRequestID logger1 other = ([warning], Ok logger1) /\ level warning = WarnLevel.
Proof.
  apply (first_request_id_wins taggedLogger "r1" {["request-id" := AnyString "old"]}).
  - reflexivity.
  - discriminate.
  - reflexivity.
Defined.

Lemma resource_of_plainLogger :
  (exists out logger1 values1,
     WithResource plainLogger "feature" EmptyString "v1" = (out, Ok logger1) /\
     GetRequestID logger1 = GetRequestID plainLogger /\
     Values logger1 = Some values1 /\
     values1 !! "resource-type" = merged ∅ "resource-type" (fieldValue "feature") /\
     values1 !! "resource-name" = merged ∅ "resource-name" (fieldValue EmptyString) /\
     values1 !! "resource-variant" = merged ∅ "resource-variant" (fieldValue "v1") /\
     length out =
       length (List.filter (fun s => String.eqb s EmptyString) ["feature"; EmptyString; "v1"])) /\
  (exists out logger1 values1,
     WithProvider plainLogger "postgres" EmptyString = (out, Ok logger1) /\
     GetRequestID logger1 = GetRequestID plainLogger /\
     Values logger1 = Some values1 /\
     values1 !! "provider-type" = merged ∅ "provider-type" (fieldValue "postgres") /\
     values1 !! "provider-name" = merged ∅ "provider-name" (fieldValue EmptyString) /\
     length out =
       length (List.filter (fun s => String.eqb s EmptyString) ["postgres"; EmptyString])).
Proof.
  apply (WithResource_adds_what_is_not_empty plainLogger "feature" EmptyString "v1"
           "postgres" EmptyString ∅).
  reflexivity.
Defined.

Lemma attach_to_firstContext :
  ("r2" <> EmptyString ->
   exists out ctx1 logger1,
     AttachRequestID "r2" (Some firstContext) firstLogger "r3" = (out, Ok (Some ctx1)) /\
     GetRequestIDFromContext (Some ctx1) = ([], Ok "r2") /\
     GetLoggerFromContext (Some ctx1) = ([], Ok logger1) /\
     GetRequestID logger1 =
       (if String.eqb (id firstLogger) EmptyString then "r2" else id firstLogger)) /\
  (forall contextID, Value firstContext RequestIDKey = Some contextID ->
     AttachRequestID EmptyString (Some firstContext) firstLogger "r3" =
       ([Warn firstLogger "Request ID already set in context"], Ok (Some firstContext))) /\
  AttachRequestID "r2" None firstLogger "r3" = ([Error firstLogger "Context is nil"], Ok None).
Proof.
  apply (AttachRequestID_binds_the_id "r2" firstContext firstLogger "r3"
           {["request-id" := AnyRequestID "r1"]}).
  reflexivity.
Defined.

Lemma initialize_the_empty_context :
  GetRequestIDFromContext (Some firstContext) = ([], Ok "r1") /\
  GetLoggerFromContext (Some firstContext) = ([], Ok firstLogger) /\
  forall logger2 fresh2,
    InitializeRequestID logger2 (Some firstContext) fresh2 =
      ([], Ok ("r1", Some firstContext, firstLogger)).
Proof.
  apply (InitializeRequestID_twice plainLogger (Some []) "r1"
           [Debugw plainLogger "Creating new Request ID" [("request-id", AnyNil)];
            Debugw plainLogger "Adding logger to context" []]).
  vm_compute. reflexivity.
Defined.

Lemma firstContext_stays_wellTyped :
  wellTyped [] /\
  (exists r, (GetRequestIDFromContext (Some firstContext)).2 = Ok r) /\
  (exists l, (GetLoggerFromContext (Some firstContext)).2 = Ok l) /\
  (forall id_ logger fresh out ctx1,
     AttachRequestID id_ (Some firstContext) logger fresh = (out, Ok (Some ctx1)) ->
     wellTyped ctx1) /\
  (forall logger ctx1,
     AddLoggerToContext (Some firstContext) logger = Ok (Some ctx1) -> wellTyped ctx1) /\
  (forall logger fresh out requestID ctx1 logger1,
     InitializeRequestID logger (Some firstContext) fresh =
       (out, Ok (requestID, Some ctx1, logger1)) ->
     wellTyped ctx1).
Proof.
  apply (contexts_stay_wellTyped firstContext).
  split; intros v H; vm_compute in H; inversion H; eauto.
Defined.

End LoggerProperties.
